(** * polymarket-btc: order-book watcher and arbitrage detector

    A shallow embedding of [src/websocket.ts] (classes [OrderBook] and
    [OrderbookWatcher]) and [src/arbDetector.ts] (class [ArbDetector]),
    together with the properties of the specification that concern them,
    and of the parts of [src/logger.ts] (the tables of [Logger], the CSV
    row and its parser, the formatting of durations), [src/markets.ts]
    ([parseTimeframe] after its regular expression) and [src/index.ts]
    (the wiring of [main] and the refresh of the watched markets) that
    compute on data.

    Conventions of the embedding.
    - A JavaScript [number] that holds a price, a size or a spread is an
      IEEE-754 binary64 value: Rocq's primitive [float], whose [+], [-],
      [/], [<] and [===] are the very operations JavaScript performs.
    - A JavaScript [number] that only ever holds an integer (a counter, an
      array length, a millisecond time stamp, a delay) is a [Z]; below
      2^53 the two agree exactly.
    - [Map<number, _>] is an insertion-ordered association list whose keys
      are compared with SameValueZero, as the language specifies.
    - [Map<string, _>] is a [gmap string _]; objects stored in such a map
      are referenced from nowhere else, so in-place mutation of a stored
      object is an update of the map.
    - [Set<string>] is a duplicate-free list in insertion order.
    - The [Map<string, _>] tables of the logger, whose order of iteration
      is rendered, are association lists in insertion order.
    - A string is the sequence of its code units; an integer printed in a
      template literal is its decimal numeral ([pretty]).
    - Callbacks ([onEvent], [onWindow], [onUpdate]), subscription frames
      and the sleeps of the reconnect loop are recorded in an output trace;
      log lines and the keep-alive ping timer are not part of the model. *)

From Stdlib Require Import ZArith Floats Lia Sorted.
From Stdlib Require Uint63.
From stdpp Require Import gmap strings list pretty.

Local Open Scope Z_scope.

(* A decimal literal denotes the nearest binary64 value, which is also what
   [parseFloat] returns for it. *)
Set Warnings "-inexact-float".

(** ** JavaScript numbers *)

Module JsNum.

(** [x < y], [x > y] and [x === y] on numbers. *)
Definition lt (x y : float) : bool := PrimFloat.ltb x y.
Definition gt (x y : float) : bool := PrimFloat.ltb y x.
Definition strict_eq (x y : float) : bool := PrimFloat.eqb x y.

(** SameValueZero, the key equality of [Map]: like [===] except that
    NaN equals NaN. *)
Definition same_value_zero (x y : float) : bool :=
  PrimFloat.eqb x y || (PrimFloat.is_nan x && PrimFloat.is_nan y).

(** [Map.prototype.set] stores the key -0 as +0. *)
Definition norm_key (k : float) : float :=
  if PrimFloat.eqb k PrimFloat.zero then PrimFloat.zero else k.

(** An integer-valued number as a float (exact below 2^53). *)
Definition of_Z (z : Z) : float :=
  if z <? 0 then PrimFloat.opp (PrimFloat.of_uint63 (Uint63.of_Z (- z)))
  else PrimFloat.of_uint63 (Uint63.of_Z z).

(** [Math.max] on two arguments: NaN is contagious, and +0 is larger
    than -0. *)
Definition max2 (a b : float) : float :=
  if PrimFloat.is_nan a || PrimFloat.is_nan b then PrimFloat.nan
  else if PrimFloat.ltb a b then b
  else if PrimFloat.ltb b a then a
  else match PrimFloat.classify a with NZero => b | _ => a end.

(** [Math.max(...xs)]: -Infinity on no argument. *)
Definition max_list (xs : list float) : float :=
  fold_left max2 xs PrimFloat.neg_infinity.

(** [xs.reduce((a, b) => a + b, 0)]. *)
Definition sum_list (xs : list float) : float :=
  fold_left PrimFloat.add xs PrimFloat.zero.

End JsNum.

Arguments JsNum.lt : simpl never.
Arguments JsNum.gt : simpl never.
Arguments JsNum.strict_eq : simpl never.
Arguments JsNum.same_value_zero : simpl never.
Arguments JsNum.norm_key : simpl never.

(** [v !== null] for a value that is either a number or [null]. *)
Definition not_null {A} (o : option A) : bool :=
  match o with Some _ => true | None => false end.

(** ** [Map<number, number>] *)

Module NumMap.

Definition t := list (float * float).

Definition empty : t := [].

Fixpoint set (k v : float) (m : t) : t :=
  match m with
  | [] => [(JsNum.norm_key k, v)]
  | (k', v') :: m' =>
      if JsNum.same_value_zero k' k then (k', v) :: m'
      else (k', v') :: set k v m'
  end.

Definition delete (k : float) (m : t) : t :=
  List.filter (fun e => negb (JsNum.same_value_zero (fst e) k)) m.

Definition keys (m : t) : list float := List.map fst m.
Definition values (m : t) : list float := List.map snd m.
Definition size (m : t) : nat := length m.

End NumMap.

(** ** [class OrderBook] (websocket.ts) *)

(** One entry of a [book] message after [parseFloat] of its two fields. *)
Record Level := mkLevel { lv_price : float; lv_size : float }.

(** One element of a [price_change] message after [parseFloat] of its
    price and size. *)
Record Change := mkChange { c_price : float; c_side : string; c_size : float }.

Module OrderBook.

Record t := mk {
  asks : NumMap.t;
  bids : NumMap.t
}.

(** [new OrderBook()] *)
Definition new : t := mk NumMap.empty NumMap.empty.

(** [for (const a of levels) { if (size > 0) m.set(price, size) }] *)
Definition setLevels (levels : list Level) (m : NumMap.t) : NumMap.t :=
  fold_left
    (fun acc l => if JsNum.gt (lv_size l) PrimFloat.zero
                  then NumMap.set (lv_price l) (lv_size l) acc else acc)
    levels m.

Definition applySnapshot (asks0 bids0 : list Level) (b : t) : t :=
  mk (setLevels asks0 NumMap.empty) (setLevels bids0 NumMap.empty).

Definition applyChange (p : float) (side : string) (sz : float) (b : t) : t :=
  if String.eqb side "SELL" then
    if JsNum.strict_eq sz PrimFloat.zero
    then mk (NumMap.delete p (asks b)) (bids b)
    else mk (NumMap.set p sz (asks b)) (bids b)
  else if String.eqb side "BUY" then
    if JsNum.strict_eq sz PrimFloat.zero
    then mk (asks b) (NumMap.delete p (bids b))
    else mk (asks b) (NumMap.set p sz (bids b))
  else b.

(** The loop of [getBestAsk] over the keys, from [best]. *)
Definition lowest (ks : list float) (best : float) : float :=
  fold_left (fun best p => if JsNum.lt p best then p else best) ks best.

(** The loop of [getBestBid] over the keys, from [best]. *)
Definition highest (ks : list float) (best : float) : float :=
  fold_left (fun best p => if JsNum.gt p best then p else best) ks best.

Definition getBestAsk (b : t) : option float :=
  if Nat.eqb (NumMap.size (asks b)) 0 then None
  else
    let best := lowest (NumMap.keys (asks b)) PrimFloat.infinity in
    if JsNum.strict_eq best PrimFloat.infinity then None else Some best.

Definition getBestBid (b : t) : option float :=
  if Nat.eqb (NumMap.size (bids b)) 0 then None
  else
    let best := highest (NumMap.keys (bids b)) PrimFloat.neg_infinity in
    if JsNum.strict_eq best PrimFloat.neg_infinity then None else Some best.

(** [for (const c of changes) book.applyChange(...)] in [handleMessage]. *)
Definition applyChanges (cs : list Change) (b : t) : t :=
  fold_left (fun acc c => applyChange (c_price c) (c_side c) (c_size c) acc) cs b.

End OrderBook.

(** ** Records of arbDetector.ts and markets.ts *)

Module Market.
Record t := mk {
  marketId : string;
  question : string;
  timeframe : string;
  startAt : string;
  expiresAt : string;
  yesTokenId : string;
  noTokenId : string
}.
End Market.

(** [timestamp] is the clock reading that the code renders with
    [toISOString]. *)
Module ArbEvent.
Record t := mk {
  timestamp : Z;
  marketId : string;
  question : string;
  timeframe : string;
  yesAsk : float;
  noAsk : float;
  combined : float;
  spread : float;
  isArb : bool
}.
End ArbEvent.

(** [windowStart] and [windowEnd] are the millisecond stamps that the code
    renders with [toISOString]. *)
Module ArbWindow.
Record t := mk {
  windowStart : Z;
  windowEnd : Z;
  durationMs : Z;
  marketId : string;
  question : string;
  timeframe : string;
  tickCount : Z;
  peakSpread : float;
  avgSpread : float;
  openCombined : float;
  closeCombined : float
}.
End ArbWindow.

Module WindowState.
Record t := mk {
  startTs : Z;
  lastArbTickTs : Z;
  openCombined : float;
  spreads : list float
}.
End WindowState.

Module MarketStats.
Record t := mk {
  marketId : string;
  question : string;
  timeframe : string;
  startAt : string;
  tickCount : Z;
  windowCount : Z;
  bestSpread : float;
  sumArbSpread : float;
  arbTickCount : Z;
  avgWindowDurationMs : float;
  longestWindowMs : Z;
  sumWindowDurationMs : Z;
  lastArbAt : option Z;
  currentCombined : option float
}.
End MarketStats.

(** The two entries of [config] that the detector reads.  [MIN_ARB_TICKS]
    is the result of [parseInt]; a non-numeric setting (NaN) is outside
    this model. *)
Record Config := mkConfig {
  MIN_COMBINED_THRESHOLD : float;
  MIN_ARB_TICKS : Z
}.

(** The defaults of config.ts: ['1.00'] and ['2']. *)
Definition defaultConfig : Config := mkConfig 1%float 2.

(** ** [class OrderbookWatcher] (websocket.ts) *)

Inductive ReadyState := CONNECTING | OPEN | CLOSING | CLOSED.

(** A parsed frame element: [asset_id] (absent: [None]) and what
    [event_type] selects.  A payload that is an array is handled element
    by element, and the elements after one that throws are not handled at
    all: a sequence of [Msg] lists the elements that [handleMessage] is
    called with.  The last three are the elements that
    [handleMessage] does not get through: an array of a [book] or
    [price_change] element holds an entry that is not an object ([null]),
    or is no array at all, so that the loop over it throws there, after
    the entries before it have been applied; the [catch] of the message
    handler swallows the exception.  [EvBookBadAsks asks]: the loop over
    the asks throws after the entries [asks]; [EvBookBadBids asks bids]:
    the asks are all read, the loop over the bids throws after the
    entries [bids]; [EvPriceChangeBad changes]: the loop over the changes
    throws after the entries [changes]. *)
Inductive EventBody :=
| EvBook (asks bids : list Level)
| EvPriceChange (changes : list Change)
| EvOther
| EvBookBadAsks (asks : list Level)
| EvBookBadBids (asks bids : list Level)
| EvPriceChangeBad (changes : list Change).

Record Msg := mkMsg { asset_id : option string; body : EventBody }.

(** What the watcher does to the outside: a subscription frame
    [{assets_ids, type: 'Book'}] written to the socket, a call of
    [onUpdate], a [sleep] of the reconnect loop. *)
Inductive WOut :=
| Send (assets_ids : list string)
| OnUpdate (tokenId : string)
| Sleep (ms : Z).

Module OrderbookWatcher.

(** [ws] is the socket's [readyState], [None] while [this.ws] is null. *)
Record t := mk {
  ws : option ReadyState;
  books : gmap string OrderBook.t;
  bestAsks : gmap string float;
  bestBids : gmap string float;
  subscribedTokens : list string;
  reconnectDelay : Z;
  shouldRun : bool;
  totalUpdates : Z
}.

Definition new : t := mk None ∅ ∅ ∅ [] 1000 true 0.

Definition getBestAsk (tokenId : string) (w : t) : option float :=
  bestAsks w !! tokenId.

Definition getBestBid (tokenId : string) (w : t) : option float :=
  bestBids w !! tokenId.

Definition getTotalUpdates (w : t) : Z := totalUpdates w.

Definition sendSubscription (tokenIds : list string) (w : t) : list WOut :=
  match ws w with
  | Some OPEN => [Send tokenIds]
  | _ => []
  end.

(** The inner loop body of [addMarkets]; the second component collects
    [newTokens]. *)
Definition addToken (acc : t * list string) (tokenId : string) : t * list string :=
  let '(w, newTokens) := acc in
  if bool_decide (tokenId ∈ subscribedTokens w) then acc
  else (mk (ws w) (<[tokenId := OrderBook.new]> (books w)) (bestAsks w) (bestBids w)
           (subscribedTokens w ++ [tokenId]) (reconnectDelay w) (shouldRun w)
           (totalUpdates w),
        newTokens ++ [tokenId]).

Definition addMarkets (ms : list Market.t) (w : t) : t * list WOut :=
  let '(w', newTokens) :=
    fold_left
      (fun acc m => fold_left addToken [Market.yesTokenId m; Market.noTokenId m] acc)
      ms (w, []) in
  (w', if (0 <? Z.of_nat (length newTokens)) then sendSubscription newTokens w' else []).

Definition removeToken (w : t) (tokenId : string) : t :=
  mk (ws w) (delete tokenId (books w)) (delete tokenId (bestAsks w))
     (delete tokenId (bestBids w))
     (List.filter (fun x => negb (String.eqb x tokenId)) (subscribedTokens w))
     (reconnectDelay w) (shouldRun w) (totalUpdates w).

Definition removeMarkets (ms : list Market.t) (w : t) : t :=
  fold_left
    (fun w m => fold_left removeToken [Market.yesTokenId m; Market.noTokenId m] w)
    ms w.

Definition updateBestPrices (tokenId : string) (book : OrderBook.t) (w : t)
  : t * list WOut :=
  let bestAsk := OrderBook.getBestAsk book in
  let bestBid := OrderBook.getBestBid book in
  let asks' := match bestAsk with
               | Some a => <[tokenId := a]> (bestAsks w)
               | None => bestAsks w
               end in
  let bids' := match bestBid with
               | Some b => <[tokenId := b]> (bestBids w)
               | None => bestBids w
               end in
  if not_null bestAsk || not_null bestBid
  then (mk (ws w) (books w) asks' bids' (subscribedTokens w) (reconnectDelay w)
           (shouldRun w) (totalUpdates w + 1),
        [OnUpdate tokenId])
  else (mk (ws w) (books w) asks' bids' (subscribedTokens w) (reconnectDelay w)
           (shouldRun w) (totalUpdates w),
        []).

(** The book is mutated in place, so the entry of [books] changes with it. *)
Definition withBook (tokenId : string) (book : OrderBook.t) (w : t) : t :=
  mk (ws w) (<[tokenId := book]> (books w)) (bestAsks w) (bestBids w)
     (subscribedTokens w) (reconnectDelay w) (shouldRun w) (totalUpdates w).

(** [handleMessage(msg)] with the [catch] of the message handler around
    it: when a loop throws, [updateBestPrices] is not reached. *)
Definition handleMessage (msg : Msg) (w : t) : t * list WOut :=
  match asset_id msg with
  | None => (w, [])
  | Some tokenId =>
      if String.eqb tokenId "" then (w, [])
      else
        match books w !! tokenId with
        | None => (w, [])
        | Some book =>
            match body msg with
            | EvBook asks0 bids0 =>
                let book' := OrderBook.applySnapshot asks0 bids0 book in
                updateBestPrices tokenId book' (withBook tokenId book' w)
            | EvPriceChange changes =>
                let book' := OrderBook.applyChanges changes book in
                updateBestPrices tokenId book' (withBook tokenId book' w)
            | EvOther => (w, [])
            | EvBookBadAsks asks0 =>
                (withBook tokenId
                   (OrderBook.mk (OrderBook.setLevels asks0 NumMap.empty)
                      (OrderBook.bids book)) w,
                 [])
            | EvBookBadBids asks0 bids0 =>
                (withBook tokenId (OrderBook.applySnapshot asks0 bids0 book) w, [])
            | EvPriceChangeBad changes =>
                (withBook tokenId (OrderBook.applyChanges changes book) w, [])
            end
        end
  end.

Definition withSocket (r : option ReadyState) (w : t) : t :=
  mk r (books w) (bestAsks w) (bestBids w) (subscribedTokens w)
     (reconnectDelay w) (shouldRun w) (totalUpdates w).

Definition withDelay (d : Z) (w : t) : t :=
  mk (ws w) (books w) (bestAsks w) (bestBids w) (subscribedTokens w)
     d (shouldRun w) (totalUpdates w).

(** The ['open'] handler of [connectOnce]; it runs once the socket of
    [this.ws] is in state [OPEN]. *)
Definition onOpen (w : t) : t * list WOut :=
  let w1 := withDelay 1000 w in
  let allTokens := subscribedTokens w1 in
  (w1, if (0 <? Z.of_nat (length allTokens))
       then sendSubscription allTokens w1 else []).

(** How one call of [connectOnce] ends: the socket fails before it
    opens, or it opens, the frames of [msgs] arrive, and it closes. *)
Inductive Attempt :=
| Failed
| Opened (msgs : list Msg).

Definition handleMessages (msgs : list Msg) (acc : t * list WOut) : t * list WOut :=
  fold_left (fun acc msg =>
               let '(w', o) := handleMessage msg (fst acc) in (w', snd acc ++ o))
            msgs acc.

Definition connectOnce (a : Attempt) (w : t) : t * list WOut :=
  let w0 := withSocket (Some CONNECTING) w in
  match a with
  | Failed => (withSocket (Some CLOSED) w0, [])
  | Opened msgs =>
      let '(w1, o) := handleMessages msgs (onOpen (withSocket (Some OPEN) w0)) in
      (withSocket (Some CLOSED) w1, o)
  end.

(** One turn of the [while (this.shouldRun)] loop of [connect]. *)
Definition connectTurn (a : Attempt) (w : t) : t * list WOut :=
  if shouldRun w then
    let '(w1, o) := connectOnce a w in
    if shouldRun w1 then
      (withDelay (Z.min (reconnectDelay w1 * 2) 30000) w1,
       o ++ [Sleep (reconnectDelay w1)])
    else (w1, o)
  else (w, []).

(** The loop of [connect] over the given attempts. *)
Definition connect (attempts : list Attempt) (w : t) : t * list WOut :=
  fold_left (fun acc a =>
               let '(w', o) := connectTurn a (fst acc) in (w', snd acc ++ o))
            attempts (w, []).

Definition stop (w : t) : t :=
  mk (match ws w with Some _ => Some CLOSING | None => None end)
     (books w) (bestAsks w) (bestBids w) (subscribedTokens w)
     (reconnectDelay w) false (totalUpdates w).

End OrderbookWatcher.

(** ** [class ArbDetector] (arbDetector.ts) *)

(** The two callbacks of the detector. *)
Inductive DOut :=
| OnEvent (e : ArbEvent.t)
| OnWindow (w : ArbWindow.t).

Module ArbDetector.

Record t := mk {
  markets : gmap string Market.t;
  tokenToMarket : gmap string string;
  stats : gmap string MarketStats.t;
  windows : gmap string WindowState.t
}.

Definition new : t := mk ∅ ∅ ∅ ∅.

(** The object literal that [addMarkets] stores in [stats]. *)
Definition initStats (m : Market.t) : MarketStats.t :=
  MarketStats.mk (Market.marketId m) (Market.question m) (Market.timeframe m)
    (Market.startAt m) 0 0 PrimFloat.zero PrimFloat.zero 0 PrimFloat.zero 0 0
    None None.

Definition addMarket (d : t) (m : Market.t) : t :=
  match markets d !! Market.marketId m with
  | Some _ => d
  | None =>
      mk (<[Market.marketId m := m]> (markets d))
         (<[Market.noTokenId m := Market.marketId m]>
            (<[Market.yesTokenId m := Market.marketId m]> (tokenToMarket d)))
         (<[Market.marketId m := initStats m]> (stats d))
         (windows d)
  end.

Definition addMarkets (ms : list Market.t) (d : t) : t :=
  fold_left addMarket ms d.

(** [s.tickCount++; s.currentCombined = combined]. *)
Definition tickStats (combined : float) (s : MarketStats.t) : MarketStats.t :=
  MarketStats.mk (MarketStats.marketId s) (MarketStats.question s)
    (MarketStats.timeframe s) (MarketStats.startAt s)
    (MarketStats.tickCount s + 1) (MarketStats.windowCount s)
    (MarketStats.bestSpread s) (MarketStats.sumArbSpread s)
    (MarketStats.arbTickCount s) (MarketStats.avgWindowDurationMs s)
    (MarketStats.longestWindowMs s) (MarketStats.sumWindowDurationMs s)
    (MarketStats.lastArbAt s) (Some combined).

(** [s.lastArbAt = now; s.sumArbSpread += spread; s.arbTickCount++;
    if (spread > s.bestSpread) s.bestSpread = spread]. *)
Definition arbStats (now : Z) (spread : float) (s : MarketStats.t) : MarketStats.t :=
  MarketStats.mk (MarketStats.marketId s) (MarketStats.question s)
    (MarketStats.timeframe s) (MarketStats.startAt s)
    (MarketStats.tickCount s) (MarketStats.windowCount s)
    (if JsNum.gt spread (MarketStats.bestSpread s)
     then spread else MarketStats.bestSpread s)
    (PrimFloat.add (MarketStats.sumArbSpread s) spread)
    (MarketStats.arbTickCount s + 1) (MarketStats.avgWindowDurationMs s)
    (MarketStats.longestWindowMs s) (MarketStats.sumWindowDurationMs s)
    (Some now) (MarketStats.currentCombined s).

(** The updates of [closeWindow] on the stats of the market. *)
Definition closeStats (durationMs : Z) (peakSpread : float) (s : MarketStats.t)
  : MarketStats.t :=
  let windowCount := MarketStats.windowCount s + 1 in
  let sumWindowDurationMs := MarketStats.sumWindowDurationMs s + durationMs in
  MarketStats.mk (MarketStats.marketId s) (MarketStats.question s)
    (MarketStats.timeframe s) (MarketStats.startAt s)
    (MarketStats.tickCount s) windowCount
    (if JsNum.gt peakSpread (MarketStats.bestSpread s)
     then peakSpread else MarketStats.bestSpread s)
    (MarketStats.sumArbSpread s) (MarketStats.arbTickCount s)
    (PrimFloat.div (JsNum.of_Z sumWindowDurationMs) (JsNum.of_Z windowCount))
    (if durationMs >? MarketStats.longestWindowMs s
     then durationMs else MarketStats.longestWindowMs s)
    sumWindowDurationMs
    (MarketStats.lastArbAt s) (MarketStats.currentCombined s).

(** The record that [closeWindow] hands to [onWindow]. *)
Definition arbWindow (marketId : string) (market : Market.t)
    (w : WindowState.t) (closeCombined : float) : ArbWindow.t :=
  let n := Z.of_nat (length (WindowState.spreads w)) in
  ArbWindow.mk (WindowState.startTs w) (WindowState.lastArbTickTs w)
    (WindowState.lastArbTickTs w - WindowState.startTs w)
    marketId (Market.question market) (Market.timeframe market)
    n
    (JsNum.max_list (WindowState.spreads w))
    (PrimFloat.div (JsNum.sum_list (WindowState.spreads w)) (JsNum.of_Z n))
    (WindowState.openCombined w) closeCombined.

Definition withWindows (ws : gmap string WindowState.t) (d : t) : t :=
  mk (markets d) (tokenToMarket d) (stats d) ws.

Definition withStats (st : gmap string MarketStats.t) (d : t) : t :=
  mk (markets d) (tokenToMarket d) st (windows d).

(** A result of [None] is a [TypeError] that escapes the method: the
    non-null assertion [this.stats.get(marketId)!] met [undefined].
    [Math.max(...w.spreads)] is taken to return, as it does while the
    window holds no more spreads than the engine takes as arguments of one
    call; [Engine.closeWindow] below says what happens beyond. *)
Definition closeWindow (cfg : Config) (marketId : string) (market : Market.t)
    (closeCombined : float) (d : t) : option (t * list DOut) :=
  match windows d !! marketId with
  | None => Some (d, [])
  | Some w =>
      let d1 := withWindows (delete marketId (windows d)) d in
      if Z.of_nat (length (WindowState.spreads w)) <? MIN_ARB_TICKS cfg
      then Some (d1, [])
      else
        let durationMs := WindowState.lastArbTickTs w - WindowState.startTs w in
        let peakSpread := JsNum.max_list (WindowState.spreads w) in
        match stats d1 !! marketId with
        | None => None
        | Some s =>
            Some (withStats (<[marketId := closeStats durationMs peakSpread s]>
                               (stats d1)) d1,
                  [OnWindow (arbWindow marketId market w closeCombined)])
        end
  end.

(** [check(tokenId)]: [watcher] is the state of the order-book watcher
    that the detector reads, [now] the value of [Date.now()] and [stamp]
    the later clock reading of the event's [timestamp]. *)
Definition check (cfg : Config) (watcher : OrderbookWatcher.t) (now stamp : Z)
    (tokenId : string) (d : t) : option (t * list DOut) :=
  match tokenToMarket d !! tokenId with
  | None => Some (d, [])
  | Some marketId =>
      if String.eqb marketId "" then Some (d, [])
      else
        match markets d !! marketId with
        | None => Some (d, [])
        | Some market =>
            match OrderbookWatcher.getBestAsk (Market.yesTokenId market) watcher,
                  OrderbookWatcher.getBestAsk (Market.noTokenId market) watcher with
            | Some yesAsk, Some noAsk =>
                let combined := PrimFloat.add yesAsk noAsk in
                let spread := PrimFloat.sub PrimFloat.one combined in
                let isArb := JsNum.lt combined (MIN_COMBINED_THRESHOLD cfg) in
                match stats d !! marketId with
                | None => None
                | Some s0 =>
                    let s := tickStats combined s0 in
                    let d0 := withStats (<[marketId := s]> (stats d)) d in
                    let event :=
                      OnEvent (ArbEvent.mk stamp marketId (Market.question market)
                                 (Market.timeframe market) yesAsk noAsk combined
                                 spread isArb) in
                    let r :=
                      match isArb, windows d !! marketId with
                      | true, None =>
                          Some (mk (markets d) (tokenToMarket d)
                                  (<[marketId := arbStats now spread s]> (stats d))
                                  (<[marketId := WindowState.mk now now combined [spread]]>
                                     (windows d)),
                                [])
                      | true, Some w =>
                          Some (mk (markets d) (tokenToMarket d)
                                  (<[marketId := arbStats now spread s]> (stats d))
                                  (<[marketId :=
                                       WindowState.mk (WindowState.startTs w) now
                                         (WindowState.openCombined w)
                                         (WindowState.spreads w ++ [spread])]>
                                     (windows d)),
                                [])
                      | false, Some _ => closeWindow cfg marketId market combined d0
                      | false, None => Some (d0, [])
                      end in
                    match r with
                    | None => None
                    | Some (d', out) => Some (d', out ++ [event])
                    end
                end
            | _, _ => Some (d, [])
            end
        end
  end.

(** [?.currentCombined ?? 1.0] *)
Definition lastCombined (marketId : string) (d : t) : float :=
  match stats d !! marketId with
  | Some s =>
      match MarketStats.currentCombined s with
      | Some c => c
      | None => PrimFloat.one
      end
  | None => PrimFloat.one
  end.

(** The loop body of [removeMarkets]. *)
Definition removeMarket (cfg : Config) (m : Market.t) (d : t)
  : option (t * list DOut) :=
  let r := match windows d !! Market.marketId m with
           | Some _ =>
               closeWindow cfg (Market.marketId m) m
                 (lastCombined (Market.marketId m) d) d
           | None => Some (d, [])
           end in
  match r with
  | None => None
  | Some (d1, out) =>
      Some (mk (delete (Market.marketId m) (markets d1))
               (delete (Market.noTokenId m)
                  (delete (Market.yesTokenId m) (tokenToMarket d1)))
               (delete (Market.marketId m) (stats d1))
               (windows d1),
            out)
  end.

Fixpoint removeMarkets (cfg : Config) (ms : list Market.t) (d : t)
  : option (t * list DOut) :=
  match ms with
  | [] => Some (d, [])
  | m :: ms' =>
      match removeMarket cfg m d with
      | None => None
      | Some (d1, out1) =>
          match removeMarkets cfg ms' d1 with
          | None => None
          | Some (d2, out2) => Some (d2, out1 ++ out2)
          end
      end
  end.

Definition getWatchedCount (d : t) : Z := Z.of_nat (size (markets d)).

End ArbDetector.

(** ** Order-book operations as a sequence *)

Inductive BookOp :=
| OpSnapshot (asks0 bids0 : list Level)
| OpChange (c : Change).

Definition applyOp (b : OrderBook.t) (op : BookOp) : OrderBook.t :=
  match op with
  | OpSnapshot asks0 bids0 => OrderBook.applySnapshot asks0 bids0 b
  | OpChange c => OrderBook.applyChange (c_price c) (c_side c) (c_size c) b
  end.

Definition applyOps (ops : list BookOp) (b : OrderBook.t) : OrderBook.t :=
  fold_left applyOp ops b.

(** Every stored entry has size > 0. *)
Definition sizes_positive (b : OrderBook.t) : Prop :=
  forall v : float,
    In v (NumMap.values (OrderBook.asks b) ++ NumMap.values (OrderBook.bids b)) ->
    JsNum.gt v PrimFloat.zero = true.

Definition all_positive (m : NumMap.t) : Prop :=
  forall v : float, In v (NumMap.values m) -> JsNum.gt v PrimFloat.zero = true.

(** [r] is the minimum of [ks] for [<=], and null stands for no key. *)
Definition is_minimum (ks : list float) (r : option float) : Prop :=
  match r with
  | None => ks = []
  | Some p => In p ks /\ forall q : float, In q ks -> PrimFloat.leb p q = true
  end.

(** [r] is the maximum of [ks] for [<=], and null stands for no key. *)
Definition is_maximum (ks : list float) (r : option float) : Prop :=
  match r with
  | None => ks = []
  | Some p => In p ks /\ forall q : float, In q ks -> PrimFloat.leb q p = true
  end.

(** The book invariant as the specification words it. *)
Definition book_invariant (b : OrderBook.t) : Prop :=
  sizes_positive b
  /\ is_minimum (NumMap.keys (OrderBook.asks b)) (OrderBook.getBestAsk b)
  /\ is_maximum (NumMap.keys (OrderBook.bids b)) (OrderBook.getBestBid b).

(** [r] is what the loop of [getBestAsk] yields: a key that no key is
    below, or null when no key is below Infinity. *)
Definition is_lowest (ks : list float) (r : option float) : Prop :=
  match r with
  | None => forall q : float, In q ks -> JsNum.lt q PrimFloat.infinity = false
  | Some p => In p ks /\ forall q : float, In q ks -> JsNum.lt q p = false
  end.

(** [r] is what the loop of [getBestBid] yields: a key that no key is
    above, or null when no key is above -Infinity. *)
Definition is_highest (ks : list float) (r : option float) : Prop :=
  match r with
  | None => forall q : float, In q ks -> JsNum.gt q PrimFloat.neg_infinity = false
  | Some p => In p ks /\ forall q : float, In q ks -> JsNum.gt q p = false
  end.

(** A size that [applyChange] either deletes on or stores as positive. *)
Definition size_ok (sz : float) : bool :=
  JsNum.strict_eq sz PrimFloat.zero || JsNum.gt sz PrimFloat.zero.

Definition op_ok (op : BookOp) : Prop :=
  match op with
  | OpSnapshot _ _ => True
  | OpChange c => size_ok (c_size c) = true
  end.

(** Best ask >= best bid whenever both exist. *)
Definition uncrossed (b : OrderBook.t) : Prop :=
  forall a d : float,
    OrderBook.getBestAsk b = Some a -> OrderBook.getBestBid b = Some d ->
    PrimFloat.leb d a = true.

(** The prices that a change sequence stores on one side of the book. *)
Definition stored_prices (side : string) (cs : list Change) : list float :=
  List.map c_price
    (List.filter
       (fun c => String.eqb (c_side c) side
                 && negb (JsNum.strict_eq (c_size c) PrimFloat.zero)) cs).

(** ** Detector calls and what they emit *)

(** The market that [check] resolves a token to, if any. *)
Definition marketOf (d : ArbDetector.t) (tokenId : string) : option Market.t :=
  match ArbDetector.tokenToMarket d !! tokenId with
  | Some marketId => ArbDetector.markets d !! marketId
  | None => None
  end.

(** The calls of [onWindow] in a trace, in order. *)
Definition surfaced (out : list DOut) : list ArbWindow.t :=
  omap (fun o => match o with OnWindow w => Some w | OnEvent _ => None end) out.

(** The calls of [onEvent] in a trace, in order. *)
Definition events (out : list DOut) : list ArbEvent.t :=
  omap (fun o => match o with OnEvent e => Some e | OnWindow _ => None end) out.

Inductive DetOp :=
| OpAdd (ms : list Market.t)
| OpCheck (watcher : OrderbookWatcher.t) (now stamp : Z) (tokenId : string)
| OpRemove (ms : list Market.t).

Definition detStep (cfg : Config) (d : ArbDetector.t) (op : DetOp)
  : option (ArbDetector.t * list DOut) :=
  match op with
  | OpAdd ms => Some (ArbDetector.addMarkets ms d, [])
  | OpCheck watcher now stamp tokenId =>
      ArbDetector.check cfg watcher now stamp tokenId d
  | OpRemove ms => ArbDetector.removeMarkets cfg ms d
  end.

(** A sequence of calls on the detector; the traces are concatenated. *)
Fixpoint detRun (cfg : Config) (ops : list DetOp) (d : ArbDetector.t)
  : option (ArbDetector.t * list DOut) :=
  match ops with
  | [] => Some (d, [])
  | op :: ops' =>
      match detStep cfg d op with
      | None => None
      | Some (d1, out1) =>
          match detRun cfg ops' d1 with
          | None => None
          | Some (d2, out2) => Some (d2, out1 ++ out2)
          end
      end
  end.


(** ** Sample data *)

Definition sampleMarket : Market.t :=
  Market.mk "0xabc" "Bitcoin Up or Down - February 23, 7:35PM-7:40PM ET" "5-min"
    "2026-02-23T19:35:00.000Z" "2026-02-23T19:40:00.000Z" "tok-up" "tok-down".

(** A watcher whose cache holds the given best asks of the sample market's
    two tokens, [None] for a side not yet heard of. *)
Definition sampleQuotes (yesAsk noAsk : option float) : OrderbookWatcher.t :=
  let put tokenId (o : option float) (m : gmap string float) :=
    match o with Some a => <[tokenId := a]> m | None => m end in
  OrderbookWatcher.mk (Some OPEN)
    (<["tok-down" := OrderBook.new]> (<["tok-up" := OrderBook.new]> ∅))
    (put "tok-down" noAsk (put "tok-up" yesAsk ∅)) ∅
    ["tok-up"; "tok-down"] 1000 true 0.

Definition sampleDetector : ArbDetector.t :=
  ArbDetector.addMarkets [sampleMarket] ArbDetector.new.


(** ** Ticks on one market *)

(** One call of [check]: the watcher state it reads, the two clock
    readings, and the token of the price update. *)
Record Tick := mkTick {
  t_watcher : OrderbookWatcher.t;
  t_now : Z;
  t_stamp : Z;
  t_token : string
}.

Definition checkTick (t : Tick) : DetOp :=
  OpCheck (t_watcher t) (t_now t) (t_stamp t) (t_token t).

(** How a tick on market [m] is classified: [None] when it is dropped for
    a missing best ask, else whether combined < MIN_COMBINED_THRESHOLD. *)
Definition tickIsArb (cfg : Config) (m : Market.t) (watcher : OrderbookWatcher.t)
  : option bool :=
  match OrderbookWatcher.getBestAsk (Market.yesTokenId m) watcher,
        OrderbookWatcher.getBestAsk (Market.noTokenId m) watcher with
  | Some yesAsk, Some noAsk =>
      Some (JsNum.lt (PrimFloat.add yesAsk noAsk) (MIN_COMBINED_THRESHOLD cfg))
  | _, _ => None
  end.






(** ** Removal of markets *)

(** Every market with an open window has its stats: what [check] leaves
    behind, and what [closeWindow] relies on. *)
Definition windows_have_stats (d : ArbDetector.t) : Prop :=
  forall marketId : string,
    is_Some (ArbDetector.windows d !! marketId) ->
    is_Some (ArbDetector.stats d !! marketId).

(** The windows that a trace surfaces for one market. *)
Definition surfacedFor (marketId : string) (out : list DOut) : list ArbWindow.t :=
  List.filter (fun w => String.eqb (ArbWindow.marketId w) marketId) (surfaced out).

(** Market [m] is in none of the detector's maps. *)
Definition absent (m : Market.t) (d : ArbDetector.t) : Prop :=
  ArbDetector.markets d !! Market.marketId m = None
  /\ ArbDetector.stats d !! Market.marketId m = None
  /\ ArbDetector.windows d !! Market.marketId m = None
  /\ ArbDetector.tokenToMarket d !! Market.yesTokenId m = None
  /\ ArbDetector.tokenToMarket d !! Market.noTokenId m = None.

(** The detector's maps with the entries of market [m] deleted. *)
Definition removed (d : ArbDetector.t) (m : Market.t) : ArbDetector.t :=
  ArbDetector.mk
    (delete (Market.marketId m) (ArbDetector.markets d))
    (delete (Market.noTokenId m)
       (delete (Market.yesTokenId m) (ArbDetector.tokenToMarket d)))
    (delete (Market.marketId m) (ArbDetector.stats d))
    (delete (Market.marketId m) (ArbDetector.windows d)).


(** The sample market is added and two arbitrage ticks arrive: a window of
    two ticks is open. *)
Definition opsOpenWindow : list DetOp :=
  [OpAdd [sampleMarket];
   OpCheck (sampleQuotes (Some 0.46%float) (Some 0.49%float)) 1000 1000 "tok-up";
   OpCheck (sampleQuotes (Some 0.46%float) (Some 0.48%float)) 1250 1250 "tok-down"].

Definition detectorOpenWindow : ArbDetector.t :=
  match detRun defaultConfig opsOpenWindow ArbDetector.new with
  | Some (d, _) => d
  | None => ArbDetector.new
  end.

Definition sampleWindow : WindowState.t :=
  WindowState.mk 1000 1250 (0.46 + 0.49)%float
    [(1 - (0.46 + 0.49))%float; (1 - (0.46 + 0.48))%float].


(** ** What the watcher emits *)

(** The durations of the [sleep] calls in a trace. *)
Definition sleeps (out : list WOut) : list Z :=
  omap (fun o => match o with Sleep ms => Some ms | _ => None end) out.

(** The [assets_ids] of the subscription frames in a trace. *)
Definition frames (out : list WOut) : list (list string) :=
  omap (fun o => match o with Send ids => Some ids | _ => None end) out.

(** The delay after [i] consecutive failures when the first delay is
    [base]: doubled each time, capped at 30 s. *)
Definition backoff (base : Z) (i : nat) : Z := Z.min (base * 2 ^ Z.of_nat i) 30000.

(** The reconnect discipline of the specification with [base] as first
    delay: a new watcher starts at [base]; consecutive failures sleep
    [base], 2 [base], 4 [base], ... up to the cap; an open resets the delay
    to [base], so that the failures after an opened connection start over. *)
Definition backoff_law (base : Z) : Prop :=
  OrderbookWatcher.reconnectDelay OrderbookWatcher.new = base
  /\ (forall n : nat,
        sleeps (snd (OrderbookWatcher.connect
                       (repeat OrderbookWatcher.Failed n) OrderbookWatcher.new))
        = List.map (backoff base) (seq 0 n))
  /\ (forall w : OrderbookWatcher.t,
        OrderbookWatcher.reconnectDelay (fst (OrderbookWatcher.onOpen w)) = base)
  /\ (forall (w : OrderbookWatcher.t) (msgs : list Msg) (n : nat),
        OrderbookWatcher.shouldRun w = true ->
        sleeps (snd (OrderbookWatcher.connect
                       (OrderbookWatcher.Opened msgs
                          :: repeat OrderbookWatcher.Failed n) w))
        = List.map (backoff base) (seq 0 (S n))).

(** The subscription on connect as the specification words it: one or
    more frames, which together carry the watched tokens, each of at most
    500 identifiers. *)
Definition subscribes_in_chunks (w : OrderbookWatcher.t) : Prop :=
  let fs := frames (snd (OrderbookWatcher.onOpen w)) in
  fs <> []
  /\ (forall t : string, In t (concat fs) <-> In t (OrderbookWatcher.subscribedTokens w))
  /\ Forall (fun f : list string => (length f <= 500)%nat) fs.

(** [n] markets with tokens of their own. *)
Definition manyMarkets (n : nat) : list Market.t :=
  List.map
    (fun i : nat =>
       Market.mk ("0x" +:+ pretty i) "Bitcoin Up or Down" "5-min" "" ""
         ("up-" +:+ pretty i) ("down-" +:+ pretty i))
    (seq 0 n).

(** A watcher of 251 markets, so of 502 tokens, whose socket has opened. *)
Definition watcher502 : OrderbookWatcher.t :=
  OrderbookWatcher.withSocket (Some OPEN)
    (fst (OrderbookWatcher.addMarkets (manyMarkets 251) OrderbookWatcher.new)).


(** A watcher of the sample market's two tokens, before any frame. *)
Definition sampleWatcher : OrderbookWatcher.t :=
  OrderbookWatcher.withSocket (Some OPEN)
    (fst (OrderbookWatcher.addMarkets [sampleMarket] OrderbookWatcher.new)).

(** A snapshot that puts one ask on the book of ["tok-up"], then a price
    change that takes it off again. *)
Definition msgAsk : Msg :=
  mkMsg (Some "tok-up") (EvBook [mkLevel 0.4 25] []).

Definition msgAskGone : Msg :=
  mkMsg (Some "tok-up") (EvPriceChange [mkChange 0.4 "SELL" 0]).


(** Every known market has its stats: what [addMarkets] sets up, and what
    the non-null assertion in [check] relies on. *)
Definition markets_have_stats (d : ArbDetector.t) : Prop :=
  forall marketId : string,
    is_Some (ArbDetector.markets d !! marketId) ->
    is_Some (ArbDetector.stats d !! marketId).

(** The watcher after the frame [msgAsk]: 0.4 is cached for ["tok-up"]. *)
Definition watcherWithAsk : OrderbookWatcher.t :=
  fst (OrderbookWatcher.handleMessage msgAsk sampleWatcher).


(** ** Calls on the watcher *)

(** What happens to a watcher: the two public calls, a frame from the
    socket, the socket's ['open'] event, one turn of the reconnect loop,
    and [stop]. *)
Inductive WatcherOp :=
| WAdd (ms : list Market.t)
| WRemove (ms : list Market.t)
| WFrame (msg : Msg)
| WOpen
| WTurn (a : OrderbookWatcher.Attempt)
| WStop.

Definition watcherStep (w : OrderbookWatcher.t) (op : WatcherOp)
  : OrderbookWatcher.t * list WOut :=
  match op with
  | WAdd ms => OrderbookWatcher.addMarkets ms w
  | WRemove ms => (OrderbookWatcher.removeMarkets ms w, [])
  | WFrame msg => OrderbookWatcher.handleMessage msg w
  | WOpen => OrderbookWatcher.onOpen (OrderbookWatcher.withSocket (Some OPEN) w)
  | WTurn a => OrderbookWatcher.connectTurn a w
  | WStop => (OrderbookWatcher.stop w, [])
  end.

Definition watcherRun (ops : list WatcherOp) (w : OrderbookWatcher.t)
  : OrderbookWatcher.t * list WOut :=
  fold_left (fun acc op =>
               let '(w', o) := watcherStep (fst acc) op in (w', snd acc ++ o))
            ops (w, []).

(** The tokens of the [onUpdate] calls in a trace. *)
Definition updates (out : list WOut) : list string :=
  omap (fun o => match o with OnUpdate t => Some t | _ => None end) out.

(** [subscribedTokens] is a set; a token has a book exactly when it is
    subscribed; a cached price belongs to a subscribed token. *)
Definition subscription_ok (w : OrderbookWatcher.t) : Prop :=
  NoDup (OrderbookWatcher.subscribedTokens w)
  /\ (forall t : string,
        t ∈ OrderbookWatcher.subscribedTokens w
        <-> is_Some (OrderbookWatcher.books w !! t))
  /\ (forall t : string,
        is_Some (OrderbookWatcher.bestAsks w !! t)
        \/ is_Some (OrderbookWatcher.bestBids w !! t) ->
        t ∈ OrderbookWatcher.subscribedTokens w).

(** An element that [handleMessage] gets through: every entry of its
    arrays is an object. *)
Definition wellFormed (msg : Msg) : bool :=
  match body msg with
  | EvBook _ _ | EvPriceChange _ | EvOther => true
  | EvBookBadAsks _ | EvBookBadBids _ _ | EvPriceChangeBad _ => false
  end.

(** The elements that a call hands to [handleMessage]. *)
Definition msgsOf (op : WatcherOp) : list Msg :=
  match op with
  | WFrame msg => [msg]
  | WTurn (OrderbookWatcher.Opened msgs) => msgs
  | _ => []
  end.

(** Whenever the book of a token has a best ask (bid), the cache holds it. *)
Definition cache_fresh (w : OrderbookWatcher.t) : Prop :=
  forall (t : string) (book : OrderBook.t),
    OrderbookWatcher.books w !! t = Some book ->
    (forall a, OrderBook.getBestAsk book = Some a ->
               OrderbookWatcher.bestAsks w !! t = Some a)
    /\ (forall b, OrderBook.getBestBid book = Some b ->
                  OrderbookWatcher.bestBids w !! t = Some b).

(** The tokens of a list of markets, in the order [addMarkets] and
    [removeMarkets] visit them. *)
Definition tokensOf (ms : list Market.t) : list string :=
  List.concat (List.map (fun m => [Market.yesTokenId m; Market.noTokenId m]) ms).


(** The prices of the levels of a [book] message that carry a size > 0. *)
Definition positivePrices (levels : list Level) : list float :=
  List.map lv_price
    (List.filter (fun l => JsNum.gt (lv_size l) PrimFloat.zero) levels).


(** ** More on the detector's states *)

(** The detector's maps agree: stats are kept exactly for the known
    markets, a window is open only on a known market, and an open window
    has recorded at least one tick. *)
Definition detector_ok (d : ArbDetector.t) : Prop :=
  (forall marketId : string,
      is_Some (ArbDetector.markets d !! marketId)
      <-> is_Some (ArbDetector.stats d !! marketId))
  /\ (forall marketId : string,
        is_Some (ArbDetector.windows d !! marketId) ->
        is_Some (ArbDetector.markets d !! marketId))
  /\ (forall (marketId : string) (w : WindowState.t),
        ArbDetector.windows d !! marketId = Some w ->
        WindowState.spreads w <> []).

(** The values of [Date.now()] that the [check] calls of a sequence read. *)
Definition nowsOf (ops : list DetOp) : list Z :=
  omap (fun op => match op with OpCheck _ now _ _ => Some now | _ => None end) ops.



(** The combined ask that [check] computes on a tick of market [m]
    ([None] when the tick is dropped for a missing best ask). *)
Definition tickCombined (m : Market.t) (watcher : OrderbookWatcher.t) : option float :=
  match OrderbookWatcher.getBestAsk (Market.yesTokenId m) watcher,
        OrderbookWatcher.getBestAsk (Market.noTokenId m) watcher with
  | Some yesAsk, Some noAsk => Some (PrimFloat.add yesAsk noAsk)
  | _, _ => None
  end.

(** The same with 1.0 for a dropped tick, for stating what a run of
    processed ticks records. *)
Definition combinedOf (m : Market.t) (t : Tick) : float :=
  match tickCombined m (t_watcher t) with
  | Some c => c
  | None => PrimFloat.one
  end.

(** The window state that a run of arbitrage ticks [first :: rest] leaves. *)
Definition windowOfRun (m : Market.t) (first : Tick) (rest : list Tick)
  : WindowState.t :=
  WindowState.mk (t_now first) (t_now (List.last rest first)) (combinedOf m first)
    (List.map (fun t => PrimFloat.sub PrimFloat.one (combinedOf m t)) (first :: rest)).

(** Scenario S2 of the specification without its trade flags: three
    arbitrage ticks, then a closing tick. *)
Definition ticksS2 : list Tick :=
  [mkTick (sampleQuotes (Some 0.45%float) (Some 0.50%float)) 1000 1000 "tok-down";
   mkTick (sampleQuotes (Some 0.45%float) (Some 0.49%float)) 1100 1100 "tok-down";
   mkTick (sampleQuotes (Some 0.45%float) (Some 0.49%float)) 1300 1300 "tok-up";
   mkTick (sampleQuotes (Some 0.47%float) (Some 0.54%float)) 1450 1450 "tok-up"].


(** ** logger.ts *)

(** A [Map<string, V>] whose order of iteration matters (the tables of
    [printLeaderboard] are rendered from [map.entries()]): the entries in
    insertion order; [set] on a present key keeps its place. *)
Module StrMap.
Section StrMap.
Context {V : Type}.

Fixpoint get (k : string) (m : list (string * V)) : option V :=
  match m with
  | [] => None
  | (k', v) :: m' => if String.eqb k' k then Some v else get k m'
  end.

Definition has (k : string) (m : list (string * V)) : bool :=
  match get k m with
  | Some _ => true
  | None => false
  end.

Fixpoint set (k : string) (v : V) (m : list (string * V)) : list (string * V) :=
  match m with
  | [] => [(k, v)]
  | (k', v') :: m' =>
      if String.eqb k' k then (k, v) :: m' else (k', v') :: set k v m'
  end.

End StrMap.
End StrMap.

(** [marketsObserved] is a [Set<string>]: its elements in insertion order. *)
Module TimeframeStats.
Record t := mk {
  windowCount : Z;
  totalDurationMs : Z;
  longestWindowMs : Z;
  sumPeakSpread : float;
  sumAvgSpread : float;
  marketsObserved : list string
}.
End TimeframeStats.

Definition emptyTimeframeStats : TimeframeStats.t :=
  TimeframeStats.mk 0 0 0 PrimFloat.zero PrimFloat.zero [].

(** [Set.prototype.add] *)
Definition set_add (x : string) (s : list string) : list string :=
  if bool_decide (x ∈ s) then s else s ++ [x].

(** The updates that [accumulateWindow] makes on the entry [tf]. *)
Definition accumulateInto (tf : TimeframeStats.t) (w : ArbWindow.t)
  : TimeframeStats.t :=
  TimeframeStats.mk
    (TimeframeStats.windowCount tf + 1)
    (TimeframeStats.totalDurationMs tf + ArbWindow.durationMs w)
    (if ArbWindow.durationMs w >? TimeframeStats.longestWindowMs tf
     then ArbWindow.durationMs w else TimeframeStats.longestWindowMs tf)
    (PrimFloat.add (TimeframeStats.sumPeakSpread tf) (ArbWindow.peakSpread w))
    (PrimFloat.add (TimeframeStats.sumAvgSpread tf) (ArbWindow.avgSpread w))
    (set_add (ArbWindow.marketId w) (TimeframeStats.marketsObserved tf)).

(** [accumulateWindow(map, w)]; the entry is mutated in place, which keeps
    its position in the map. *)
Definition accumulateWindow (map : list (string * TimeframeStats.t))
    (w : ArbWindow.t) : list (string * TimeframeStats.t) :=
  let map1 :=
    if StrMap.has (ArbWindow.timeframe w) map then map
    else StrMap.set (ArbWindow.timeframe w) emptyTimeframeStats map in
  match StrMap.get (ArbWindow.timeframe w) map1 with
  | Some tf => StrMap.set (ArbWindow.timeframe w) (accumulateInto tf w) map1
  | None => map1
  end.

(** Strings are sequences of code units; the parser tells apart only the
    double quote and the comma. *)
Definition dquote : Ascii.ascii :=
  Ascii.Ascii false true false false false true false false.
Definition comma : Ascii.ascii :=
  Ascii.Ascii false false true true false true false false.

(** [parseCsvLine]: the loop over [line], from index [i] on; the jump
    [i++] over an escaped quote is the recursive call on the tail of the
    tail. *)
Fixpoint parseCsvLoop (line : string) (fields : list string) (current : string)
    (inQuotes : bool) : list string :=
  match line with
  | EmptyString => fields ++ [current]
  | String ch rest =>
      if Ascii.eqb ch dquote then
        match inQuotes, rest with
        | true, String ch' rest' =>
            if Ascii.eqb ch' dquote
            then parseCsvLoop rest' fields (current +:+ String dquote EmptyString) inQuotes
            else parseCsvLoop rest fields current (negb inQuotes)
        | _, _ => parseCsvLoop rest fields current (negb inQuotes)
        end
      else if Ascii.eqb ch comma && negb inQuotes
      then parseCsvLoop rest (fields ++ [current]) EmptyString inQuotes
      else parseCsvLoop rest fields (current +:+ String ch EmptyString) inQuotes
  end.

Definition parseCsvLine (line : string) : list string :=
  parseCsvLoop line [] EmptyString false.

(** The [replace] call of [logWindow]: every double quote of the string
    is written twice. *)
Fixpoint doubleQuotes (s : string) : string :=
  match s with
  | EmptyString => EmptyString
  | String ch rest =>
      if Ascii.eqb ch dquote
      then String dquote (String dquote (doubleQuotes rest))
      else String ch (doubleQuotes rest)
  end.

(** The cell of the question in the row of [logWindow]: the question with
    its double quotes doubled, between two double quotes. *)
Definition quotedCell (s : string) : string :=
  String dquote (doubleQuotes s +:+ String dquote EmptyString).

(** [cells.join(',')] *)
Fixpoint joinCells (cells : list string) : string :=
  match cells with
  | [] => EmptyString
  | [c] => c
  | c :: cells' => c +:+ String comma (joinCells cells')
  end.

(** A cell of a row as [logWindow] writes it: inserted as it is, or
    quoted as the question is. *)
Inductive Cell :=
| Bare (s : string)
| Quoted (s : string).

Definition cellText (c : Cell) : string :=
  match c with
  | Bare s => s
  | Quoted s => quotedCell s
  end.

Definition cellValue (c : Cell) : string :=
  match c with
  | Bare s => s
  | Quoted s => s
  end.

(** No double quote and no comma in the string. *)
Fixpoint isBare (s : string) : bool :=
  match s with
  | EmptyString => true
  | String ch rest => negb (Ascii.eqb ch dquote) && negb (Ascii.eqb ch comma) && isBare rest
  end.

Definition bareCell (c : Cell) : bool :=
  match c with
  | Bare s => isBare s
  | Quoted _ => true
  end.

(** [class Logger]: the counters and the two tables.  The row that
    [logWindow] appends to the CSV file is not part of the state; its
    number cells ([toFixed(4)]) are not modelled, its question cell is
    [quotedCell]. *)
Module Logger.

Record t := mk {
  totalWindows : Z;
  sessionByTimeframe : list (string * TimeframeStats.t);
  lifetimeByTimeframe : list (string * TimeframeStats.t);
  lifetimeWindowsAtStart : Z
}.

Definition logWindow (window : ArbWindow.t) (lg : t) : t :=
  mk (totalWindows lg + 1)
     (accumulateWindow (sessionByTimeframe lg) window)
     (accumulateWindow (lifetimeByTimeframe lg) window)
     (lifetimeWindowsAtStart lg).

End Logger.

(** The windows of [ws] reach [logWindow] one after the other (the
    [onWindow] callback of index.ts). *)
Definition logWindows (ws : list ArbWindow.t) (lg : Logger.t) : Logger.t :=
  fold_left (fun lg w => Logger.logWindow w lg) ws lg.

(** The WINDOWS column of a table, summed. *)
Definition tableWindows (map : list (string * TimeframeStats.t)) : Z :=
  fold_right Z.add 0 (List.map (fun kv => TimeframeStats.windowCount (snd kv)) map).

(** The windows of one time frame. *)
Definition ofTimeframe (tf : string) (ws : list ArbWindow.t) : list ArbWindow.t :=
  List.filter (fun w => String.eqb (ArbWindow.timeframe w) tf) ws.

(** What an entry of a table says about the windows [sel] of its time
    frame. *)
Definition summarises (sel : list ArbWindow.t) (s : TimeframeStats.t) : Prop :=
  TimeframeStats.windowCount s = Z.of_nat (length sel)
  /\ TimeframeStats.totalDurationMs s
     = fold_right Z.add 0 (List.map ArbWindow.durationMs sel)
  /\ TimeframeStats.longestWindowMs s
     = fold_right Z.max 0 (List.map ArbWindow.durationMs sel)
  /\ TimeframeStats.sumPeakSpread s
     = fold_left PrimFloat.add (List.map ArbWindow.peakSpread sel) PrimFloat.zero
  /\ TimeframeStats.sumAvgSpread s
     = fold_left PrimFloat.add (List.map ArbWindow.avgSpread sel) PrimFloat.zero
  /\ NoDup (TimeframeStats.marketsObserved s)
  /\ (forall marketId : string,
        marketId ∈ TimeframeStats.marketsObserved s
        <-> marketId ∈ List.map ArbWindow.marketId sel).

(** [formatDuration(ms)] for an integer [ms]: [Math.floor] of a quotient
    is [Z.div], [%] is the remainder that takes the sign of the dividend. *)
Definition formatDuration (ms : Z) : string :=
  let s := ms / 1000 in
  let h := s / 3600 in
  let m := Z.rem s 3600 / 60 in
  let sec := Z.rem s 60 in
  if h >? 0 then pretty h +:+ "h " +:+ pretty m +:+ "m " +:+ pretty sec +:+ "s"
  else if m >? 0 then pretty m +:+ "m " +:+ pretty sec +:+ "s"
  else pretty sec +:+ "s".

(** [formatAgo(ts)], [now] being the value of [Date.now()]. *)
Definition formatAgo (now ts : Z) : string :=
  let s := (now - ts) / 1000 in
  if s <? 60 then pretty s +:+ "s ago"
  else
    let m := s / 60 in
    if m <? 60 then pretty m +:+ "m ago"
    else pretty (m / 60) +:+ "h ago".


(** ** markets.ts *)

Inductive Period := AM | PM.

(** The groups of a match of the time range in a title: [match[1]],
    [match[2]], [match[4]] and [match[5]] after [parseInt] (runs of
    digits, so integers from 0 on), [match[3]] and [match[6]] after
    [toUpperCase].  A field is the integer that its run of digits denotes:
    this is what [parseInt] returns, and what the arithmetic of
    [parseTimeframe] and the conversion of its result to a string work on,
    as long as the integer is below 2^53; a run of digits that denotes a
    larger number is rounded by [parseInt] and lies outside this model.
    The hours and minutes of a clock reading are far inside it. *)
Record TimeRange := mkTimeRange {
  startH : Z;
  startM : Z;
  startPeriod : Period;
  endH : Z;
  endM : Z;
  endPeriod : Period
}.

Definition isPM (p : Period) : bool :=
  match p with PM => true | AM => false end.

Definition isAM (p : Period) : bool :=
  match p with AM => true | PM => false end.

(** [parseTimeframe(title)] from the result of [title.match(...)] on:
    [None] is no match. *)
Definition parseTimeframe (m : option TimeRange) : string :=
  match m with
  | None => "unknown"
  | Some r =>
      let startH1 := if isPM (startPeriod r) && negb (startH r =? 12)
                     then startH r + 12 else startH r in
      let startH2 := if isAM (startPeriod r) && (startH1 =? 12) then 0 else startH1 in
      let endH1 := if isPM (endPeriod r) && negb (endH r =? 12)
                   then endH r + 12 else endH r in
      let endH2 := if isAM (endPeriod r) && (endH1 =? 12) then 0 else endH1 in
      let diffMin := endH2 * 60 + endM r - (startH2 * 60 + startM r) in
      if diffMin >? 0 then pretty diffMin +:+ "-min" else "unknown"
  end.

(** The minute of the day of a reading of the 12-hour clock: 12 AM is
    midnight, 12 PM is noon. *)
Definition minuteOfDay (h m : Z) (p : Period) : Z :=
  (h mod 12 + (if isPM p then 12 else 0)) * 60 + m.




(** A change that keeps to its side of the book [b] it is applied to: a
    SELL that stores a size is priced at or above the best bid of [b], a
    BUY that stores a size at or below its best ask.  A change of size 0
    deletes and is free. *)
Definition keeps_side (b : OrderBook.t) (c : Change) : Prop :=
  JsNum.strict_eq (c_size c) PrimFloat.zero = false ->
  (c_side c = "SELL" ->
   forall d : float, OrderBook.getBestBid b = Some d ->
                     PrimFloat.leb d (c_price c) = true)
  /\ (c_side c = "BUY" ->
      forall a : float, OrderBook.getBestAsk b = Some a ->
                        PrimFloat.leb (c_price c) a = true).

(** Every change of the sequence keeps to its side of the book that the
    changes before it have left. *)
Fixpoint feed_uncrossed (cs : list Change) (b : OrderBook.t) : Prop :=
  match cs with
  | [] => True
  | c :: cs' =>
      keeps_side b c
      /\ feed_uncrossed cs' (OrderBook.applyChange (c_price c) (c_side c) (c_size c) b)
  end.


(** ** The detector on an engine that limits the arguments of a call *)

(** [Math.max(...w.spreads)] in [closeWindow] passes every spread as an
    argument of one call.  An engine takes only so many arguments in a
    call (how many depends on the engine and on the stack it has left);
    with more, the call throws a RangeError.  [ArbDetector] above says
    what the methods do while that limit is not met.  The definitions of
    [Engine] take the limit [maxArgs] and say of every call whether it
    returns or throws, with the state and the callbacks it leaves behind:
    an exception ends the method and its callers up to the [catch] of the
    message handler or of the refresh in index.ts, and the detector stays
    in use as it is at that point. *)
Inductive Outcome :=
| Returns (d : ArbDetector.t) (out : list DOut)
| Throws (d : ArbDetector.t) (out : list DOut).

Definition stateOf (o : Outcome) : ArbDetector.t :=
  match o with Returns d _ => d | Throws d _ => d end.

Definition callsOf (o : Outcome) : list DOut :=
  match o with Returns _ out => out | Throws _ out => out end.

Definition threw (o : Outcome) : bool :=
  match o with Returns _ _ => false | Throws _ _ => true end.

Module Engine.

(** [closeWindow]: the window is deleted first; the RangeError of
    [Math.max(...w.spreads)] and the TypeError of [s.windowCount++] on a
    missing stats object both come after that and before [onWindow]. *)
Definition closeWindow (maxArgs : Z) (cfg : Config) (marketId : string)
    (market : Market.t) (closeCombined : float) (d : ArbDetector.t) : Outcome :=
  match ArbDetector.windows d !! marketId with
  | None => Returns d []
  | Some w =>
      let d1 := ArbDetector.withWindows (delete marketId (ArbDetector.windows d)) d in
      if Z.of_nat (length (WindowState.spreads w)) <? MIN_ARB_TICKS cfg
      then Returns d1 []
      else if maxArgs <? Z.of_nat (length (WindowState.spreads w))
      then Throws d1 []
      else
        let durationMs := WindowState.lastArbTickTs w - WindowState.startTs w in
        let peakSpread := JsNum.max_list (WindowState.spreads w) in
        match ArbDetector.stats d1 !! marketId with
        | None => Throws d1 []
        | Some s =>
            Returns
              (ArbDetector.withStats
                 (<[marketId := ArbDetector.closeStats durationMs peakSpread s]>
                    (ArbDetector.stats d1)) d1)
              [OnWindow (ArbDetector.arbWindow marketId market w closeCombined)]
        end
  end.

(** [check(tokenId)]: when [closeWindow] throws, [onEvent] is not reached. *)
Definition check (maxArgs : Z) (cfg : Config) (watcher : OrderbookWatcher.t)
    (now stamp : Z) (tokenId : string) (d : ArbDetector.t) : Outcome :=
  match ArbDetector.tokenToMarket d !! tokenId with
  | None => Returns d []
  | Some marketId =>
      if String.eqb marketId "" then Returns d []
      else
        match ArbDetector.markets d !! marketId with
        | None => Returns d []
        | Some market =>
            match OrderbookWatcher.getBestAsk (Market.yesTokenId market) watcher,
                  OrderbookWatcher.getBestAsk (Market.noTokenId market) watcher with
            | Some yesAsk, Some noAsk =>
                let combined := PrimFloat.add yesAsk noAsk in
                let spread := PrimFloat.sub PrimFloat.one combined in
                let isArb := JsNum.lt combined (MIN_COMBINED_THRESHOLD cfg) in
                match ArbDetector.stats d !! marketId with
                | None => Throws d []
                | Some s0 =>
                    let s := ArbDetector.tickStats combined s0 in
                    let d0 :=
                      ArbDetector.withStats (<[marketId := s]> (ArbDetector.stats d)) d in
                    let event :=
                      OnEvent (ArbEvent.mk stamp marketId (Market.question market)
                                 (Market.timeframe market) yesAsk noAsk combined
                                 spread isArb) in
                    match isArb, ArbDetector.windows d !! marketId with
                    | true, None =>
                        Returns
                          (ArbDetector.mk (ArbDetector.markets d)
                             (ArbDetector.tokenToMarket d)
                             (<[marketId := ArbDetector.arbStats now spread s]>
                                (ArbDetector.stats d))
                             (<[marketId := WindowState.mk now now combined [spread]]>
                                (ArbDetector.windows d)))
                          [event]
                    | true, Some w =>
                        Returns
                          (ArbDetector.mk (ArbDetector.markets d)
                             (ArbDetector.tokenToMarket d)
                             (<[marketId := ArbDetector.arbStats now spread s]>
                                (ArbDetector.stats d))
                             (<[marketId :=
                                  WindowState.mk (WindowState.startTs w) now
                                    (WindowState.openCombined w)
                                    (WindowState.spreads w ++ [spread])]>
                                (ArbDetector.windows d)))
                          [event]
                    | false, Some _ =>
                        match closeWindow maxArgs cfg marketId market combined d0 with
                        | Returns d' out => Returns d' (out ++ [event])
                        | Throws d' out => Throws d' out
                        end
                    | false, None => Returns d0 [event]
                    end
                end
            | _, _ => Returns d []
            end
        end
  end.

(** The loop body of [removeMarkets]: when [closeWindow] throws, the four
    deletes are not reached. *)
Definition removeMarket (maxArgs : Z) (cfg : Config) (m : Market.t)
    (d : ArbDetector.t) : Outcome :=
  let r := match ArbDetector.windows d !! Market.marketId m with
           | Some _ =>
               closeWindow maxArgs cfg (Market.marketId m) m
                 (ArbDetector.lastCombined (Market.marketId m) d) d
           | None => Returns d []
           end in
  match r with
  | Throws d1 out => Throws d1 out
  | Returns d1 out =>
      Returns
        (ArbDetector.mk
           (delete (Market.marketId m) (ArbDetector.markets d1))
           (delete (Market.noTokenId m)
              (delete (Market.yesTokenId m) (ArbDetector.tokenToMarket d1)))
           (delete (Market.marketId m) (ArbDetector.stats d1))
           (ArbDetector.windows d1))
        out
  end.

(** [removeMarkets]: an exception leaves the markets after it untouched. *)
Fixpoint removeMarkets (maxArgs : Z) (cfg : Config) (ms : list Market.t)
    (d : ArbDetector.t) : Outcome :=
  match ms with
  | [] => Returns d []
  | m :: ms' =>
      match removeMarket maxArgs cfg m d with
      | Throws d1 out1 => Throws d1 out1
      | Returns d1 out1 =>
          match removeMarkets maxArgs cfg ms' d1 with
          | Returns d2 out2 => Returns d2 (out1 ++ out2)
          | Throws d2 out2 => Throws d2 (out1 ++ out2)
          end
      end
  end.

Definition detStep (maxArgs : Z) (cfg : Config) (d : ArbDetector.t) (op : DetOp)
  : Outcome :=
  match op with
  | OpAdd ms => Returns (ArbDetector.addMarkets ms d) []
  | OpCheck watcher now stamp tokenId => check maxArgs cfg watcher now stamp tokenId d
  | OpRemove ms => removeMarkets maxArgs cfg ms d
  end.

(** A sequence of calls; a call that throws leaves its state to the calls
    after it.  The flag says whether any call threw. *)
Fixpoint detRun (maxArgs : Z) (cfg : Config) (ops : list DetOp) (d : ArbDetector.t)
  : ArbDetector.t * list DOut * bool :=
  match ops with
  | [] => (d, [], false)
  | op :: ops' =>
      let o := detStep maxArgs cfg d op in
      let '(d2, out2, t2) := detRun maxArgs cfg ops' (stateOf o) in
      (d2, callsOf o ++ out2, threw o || t2)
  end.

End Engine.

(** No open window holds more than [n] spreads. *)
Definition windows_within (n : Z) (d : ArbDetector.t) : Prop :=
  forall (marketId : string) (w : WindowState.t),
    ArbDetector.windows d !! marketId = Some w ->
    Z.of_nat (length (WindowState.spreads w)) <= n.

(** The sample market as a caller may pass it: the same id, other tokens. *)
Definition sampleMarketOtherTokens : Market.t :=
  Market.mk "0xabc" "Bitcoin Up or Down - February 23, 7:35PM-7:40PM ET" "5-min"
    "2026-02-23T19:35:00.000Z" "2026-02-23T19:40:00.000Z" "tok-x" "tok-y".

(** The window of the sample market after 130001 arbitrage ticks in a
    row. *)
Definition longWindow : WindowState.t :=
  WindowState.mk 1000 2000 (0.46 + 0.48)%float
    (List.repeat (1 - (0.46 + 0.48))%float (Z.to_nat 130001)).

Definition detectorLongWindow : ArbDetector.t :=
  ArbDetector.withWindows (<["0xabc" := longWindow]> ∅) sampleDetector.


(** ** index.ts *)

(** [Set.prototype.delete] *)
Definition set_delete (x : string) (s : list string) : list string :=
  List.filter (fun y => negb (String.eqb y x)) s.

(** [new Set(ms.map((m) => m.marketId))] *)
Definition idSet (ms : list Market.t) : list string :=
  fold_left (fun s m => set_add (Market.marketId m) s) ms [].

(** What [main] keeps: the detector, the watcher and the logger that it
    wires together, [watchedMarkets] and [watchedIds]. *)
Module Scanner.
Record t := mk {
  detector : ArbDetector.t;
  watcher : OrderbookWatcher.t;
  logger : Logger.t;
  watchedMarkets : list Market.t;
  watchedIds : list string
}.
End Scanner.

(** The start of [main] once the markets are selected: both objects are
    told to watch them.  The socket is not open yet, nothing is sent. *)
Definition startWatching (lg : Logger.t) (watched : list Market.t) : Scanner.t :=
  Scanner.mk (ArbDetector.addMarkets watched ArbDetector.new)
    (fst (OrderbookWatcher.addMarkets watched OrderbookWatcher.new))
    lg watched (idSet watched).

(** The refresh of the interval timer, from [desired] on (the list that
    [selectWatchedMarkets] returned), on an engine that takes [maxArgs]
    arguments in a call.  Windows that the detector closes go to the
    logger; the frames that the watcher sends are the trace.  When
    [detector.removeMarkets] throws, the refresh is left for its [catch]
    block: the watcher is not told to remove anything, [watchedIds] keeps
    the ids added so far and [watchedMarkets] stays as it was; the flag
    of the result says so. *)
Definition refreshWatched (maxArgs : Z) (cfg : Config) (desired : list Market.t)
    (st : Scanner.t) : Scanner.t * list WOut * bool :=
  let desiredIds := idSet desired in
  let toAdd :=
    List.filter (fun m => negb (bool_decide (Market.marketId m ∈ Scanner.watchedIds st)))
      desired in
  let '(d1, (w1, sent), ids1) :=
    if 0 <? Z.of_nat (length toAdd)
    then (ArbDetector.addMarkets toAdd (Scanner.detector st),
          OrderbookWatcher.addMarkets toAdd (Scanner.watcher st),
          fold_left (fun s m => set_add (Market.marketId m) s) toAdd
            (Scanner.watchedIds st))
    else (Scanner.detector st, (Scanner.watcher st, []), Scanner.watchedIds st) in
  let toRemove :=
    List.filter (fun m => negb (bool_decide (Market.marketId m ∈ desiredIds)))
      (Scanner.watchedMarkets st) in
  if 0 <? Z.of_nat (length toRemove)
  then
    match Engine.removeMarkets maxArgs cfg toRemove d1 with
    | Throws d2 out =>
        (Scanner.mk d2 w1 (logWindows (surfaced out) (Scanner.logger st))
           (Scanner.watchedMarkets st) ids1,
         sent, true)
    | Returns d2 out =>
        (Scanner.mk d2 (OrderbookWatcher.removeMarkets toRemove w1)
           (logWindows (surfaced out) (Scanner.logger st)) desired
           (fold_left (fun s m => set_delete (Market.marketId m) s) toRemove ids1),
         sent, false)
    end
  else (Scanner.mk d1 w1 (Scanner.logger st) desired ids1, sent, false).

(** The detector watches exactly the markets of [watchedIds], and these
    are the ids of [watchedMarkets]. *)
Definition scanner_ok (st : Scanner.t) : Prop :=
  detector_ok (Scanner.detector st)
  /\ (forall marketId : string,
        marketId ∈ Scanner.watchedIds st
        <-> marketId ∈ List.map Market.marketId (Scanner.watchedMarkets st))
  /\ (forall marketId : string,
        is_Some (ArbDetector.markets (Scanner.detector st) !! marketId)
        <-> marketId ∈ Scanner.watchedIds st).


(** * Properties *)

(** ** Comparison of binary64 numbers *)

Section Float_order.

Lemma SFcompare_lt_trans a b c :
  SFcompare a b = Some Lt -> SFcompare b c = Some Lt -> SFcompare a c = Some Lt.
Proof.
  destruct a as [sa|sa| |sa ma ea], b as [sb|sb| |sb mb eb], c as [sc|sc| |sc mc ec];
    cbn; try discriminate; try reflexivity;
    repeat match goal with s : bool |- _ => destruct s end;
    cbn; try discriminate; try reflexivity; try (intros; assumption).
  all: rewrite ?Pos.compare_cont_spec; cbn.
  all: destruct (Z.compare_spec ea eb), (Z.compare_spec eb ec), (Z.compare_spec ea ec);
    try discriminate; try reflexivity; try lia; subst.
  all: destruct (Pos.compare_spec ma mb), (Pos.compare_spec mb mc),
         (Pos.compare_spec ma mc);
    cbn; try discriminate; try reflexivity; try lia.
Qed.

Lemma SFcompare_refl_not_lt a : SFcompare a a <> Some Lt.
Proof.
  destruct a as [s|s| |s m e]; cbn; try discriminate; destruct s; try discriminate.
  all: rewrite Z.compare_refl, Pos.compare_cont_spec, Pos.compare_refl; discriminate.
Qed.

Lemma ltb_irrefl x : PrimFloat.ltb x x = false.
Proof.
  rewrite FloatAxioms.ltb_spec. unfold SFltb.
  destruct (SFcompare (Prim2SF x) (Prim2SF x)) as [[]|] eqn:E; try reflexivity.
  now apply SFcompare_refl_not_lt in E.
Qed.

Lemma ltb_trans x y z :
  PrimFloat.ltb x y = true -> PrimFloat.ltb y z = true -> PrimFloat.ltb x z = true.
Proof.
  rewrite !FloatAxioms.ltb_spec. unfold SFltb.
  destruct (SFcompare (Prim2SF x) (Prim2SF y)) as [[]|] eqn:E1; try discriminate.
  destruct (SFcompare (Prim2SF y) (Prim2SF z)) as [[]|] eqn:E2; try discriminate.
  now rewrite (SFcompare_lt_trans _ _ _ E1 E2).
Qed.



(** [x == 0] makes [x] one of the two zeros. *)
Lemma eqb_zero_inv x :
  PrimFloat.eqb x PrimFloat.zero = true -> exists s, Prim2SF x = S754_zero s.
Proof.
  rewrite FloatAxioms.eqb_spec. unfold SFeqb.
  change (Prim2SF PrimFloat.zero) with (S754_zero false).
  destruct (Prim2SF x) as [s|s| |s m e]; cbn; try discriminate.
  - eauto.
  - destruct s; discriminate.
  - destruct s; discriminate.
Qed.

Lemma SFcompare_zero_l s y : SFcompare (S754_zero s) y = SFcompare (S754_zero false) y.
Proof. destruct y; reflexivity. Qed.

Lemma SFcompare_zero_r s x : SFcompare x (S754_zero s) = SFcompare x (S754_zero false).
Proof. destruct x; reflexivity. Qed.

Lemma leb_norm_key_r x y : PrimFloat.leb x (JsNum.norm_key y) = PrimFloat.leb x y.
Proof.
  unfold JsNum.norm_key.
  destruct (PrimFloat.eqb y PrimFloat.zero) eqn:Ey; [|reflexivity].
  apply eqb_zero_inv in Ey as [sy Hy].
  rewrite !FloatAxioms.leb_spec, Hy. unfold SFleb.
  change (Prim2SF PrimFloat.zero) with (S754_zero false).
  now rewrite (SFcompare_zero_r sy).
Qed.

Lemma leb_norm_key_l x y : PrimFloat.leb (JsNum.norm_key x) y = PrimFloat.leb x y.
Proof.
  unfold JsNum.norm_key.
  destruct (PrimFloat.eqb x PrimFloat.zero) eqn:Ex; [|reflexivity].
  apply eqb_zero_inv in Ex as [sx Hx].
  rewrite !FloatAxioms.leb_spec, Hx. unfold SFleb.
  change (Prim2SF PrimFloat.zero) with (S754_zero false).
  now rewrite (SFcompare_zero_l sx).
Qed.

(** [x == Infinity] only for Infinity itself. *)
Lemma eqb_infinity_inv x :
  PrimFloat.eqb x PrimFloat.infinity = true -> x = PrimFloat.infinity.
Proof.
  rewrite FloatAxioms.eqb_spec. unfold SFeqb. intros H.
  apply Prim2SF_inj.
  change (Prim2SF PrimFloat.infinity) with (S754_infinity false) in *.
  destruct (Prim2SF x) as [s|s| |s m e]; cbn in H; try discriminate;
    destruct s; try discriminate; reflexivity.
Qed.

Lemma eqb_neg_infinity_inv x :
  PrimFloat.eqb x PrimFloat.neg_infinity = true -> x = PrimFloat.neg_infinity.
Proof.
  rewrite FloatAxioms.eqb_spec. unfold SFeqb. intros H.
  apply Prim2SF_inj.
  change (Prim2SF PrimFloat.neg_infinity) with (S754_infinity true) in *.
  destruct (Prim2SF x) as [s|s| |s m e]; cbn in H; try discriminate;
    destruct s; try discriminate; reflexivity.
Qed.

End Float_order.

(** ** The loops of [getBestAsk] and [getBestBid] *)

Section Pick.

Variable better : float -> float -> bool.
Hypothesis better_irrefl : forall x, better x x = false.
Hypothesis better_trans :
  forall x y z, better x y = true -> better y z = true -> better x z = true.

Local Abbreviation pick :=
  (fold_left (fun best p => if better p best then p else best)).

Lemma pick_init_or_in ks best :
  pick ks best = best \/ (In (pick ks best) ks /\ better (pick ks best) best = true).
Proof.
  revert best. induction ks as [|p ks IH]; intros best; cbn; [now left|].
  destruct (better p best) eqn:E.
  - destruct (IH p) as [->|[Hin Hb]].
    + right. split; [now left | exact E].
    + right. split; [now right | eauto].
  - destruct (IH best) as [->|[Hin Hb]]; [now left|].
    right. split; [now right | exact Hb].
Qed.

Lemma pick_none_better ks best q : In q ks -> better q (pick ks best) = false.
Proof.
  revert best. induction ks as [|p ks IH]; intros best Hq; [destruct Hq|].
  destruct Hq as [->|Hq]; [|cbn; now apply IH].
  cbn. destruct (better q best) eqn:E.
  - destruct (pick_init_or_in ks q) as [->|[_ Hb]]; [apply better_irrefl|].
    destruct (better q (pick ks q)) eqn:E2; [|reflexivity].
    pose proof (better_trans _ _ _ E2 Hb) as H.
    now rewrite better_irrefl in H.
  - destruct (pick_init_or_in ks best) as [->|[_ Hb]]; [exact E|].
    destruct (better q (pick ks best)) eqn:E2; [|reflexivity].
    pose proof (better_trans _ _ _ E2 Hb) as H. congruence.
Qed.

End Pick.

Lemma gt_trans x y z :
  JsNum.gt x y = true -> JsNum.gt y z = true -> JsNum.gt x z = true.
Proof. unfold JsNum.gt. intros H1 H2. exact (ltb_trans _ _ _ H2 H1). Qed.

Lemma getBestAsk_lowest (b : OrderBook.t) :
  is_lowest (NumMap.keys (OrderBook.asks b)) (OrderBook.getBestAsk b).
Proof.
  unfold OrderBook.getBestAsk.
  destruct (Nat.eqb_spec (NumMap.size (OrderBook.asks b)) 0) as [E|E].
  - unfold NumMap.size in E. apply length_zero_iff_nil in E. rewrite E.
    intros q [].
  - set (ks := NumMap.keys (OrderBook.asks b)).
    unfold JsNum.strict_eq.
    destruct (PrimFloat.eqb (OrderBook.lowest ks infinity) infinity) eqn:Eb.
    + apply eqb_infinity_inv in Eb. intros q Hq.
      rewrite <- Eb. apply (pick_none_better JsNum.lt ltb_irrefl ltb_trans _ _ _ Hq).
    + split.
      * destruct (pick_init_or_in JsNum.lt ltb_trans ks infinity) as [H|[H _]]; [|exact H].
        unfold OrderBook.lowest in Eb. rewrite H in Eb. discriminate Eb.
      * intros q Hq.
        apply (pick_none_better JsNum.lt ltb_irrefl ltb_trans _ _ _ Hq).
Qed.

Lemma getBestBid_highest (b : OrderBook.t) :
  is_highest (NumMap.keys (OrderBook.bids b)) (OrderBook.getBestBid b).
Proof.
  unfold OrderBook.getBestBid.
  destruct (Nat.eqb_spec (NumMap.size (OrderBook.bids b)) 0) as [E|E].
  - unfold NumMap.size in E. apply length_zero_iff_nil in E. rewrite E.
    intros q [].
  - set (ks := NumMap.keys (OrderBook.bids b)).
    unfold JsNum.strict_eq.
    destruct (PrimFloat.eqb (OrderBook.highest ks neg_infinity) neg_infinity) eqn:Eb.
    + apply eqb_neg_infinity_inv in Eb. intros q Hq.
      rewrite <- Eb. apply (pick_none_better JsNum.gt ltb_irrefl gt_trans _ _ _ Hq).
    + split.
      * destruct (pick_init_or_in JsNum.gt gt_trans ks neg_infinity) as [H|[H _]]; [|exact H].
        unfold OrderBook.highest in Eb. rewrite H in Eb. discriminate Eb.
      * intros q Hq.
        apply (pick_none_better JsNum.gt ltb_irrefl gt_trans _ _ _ Hq).
Qed.

(** ** What [set] and [delete] leave in a [Map<number, number>] *)

Lemma NumMap_set_values k x m v :
  In v (NumMap.values (NumMap.set k x m)) -> v = x \/ In v (NumMap.values m).
Proof.
  induction m as [|[k' v'] m IH]; cbn.
  - intros [<-|[]]. now left.
  - destruct (JsNum.same_value_zero k' k); cbn.
    + intros [<-|H]; [now left | right; now right].
    + intros [<-|H]; [right; now left|].
      destruct (IH H) as [->|H']; [now left | right; now right].
Qed.

Lemma NumMap_set_keys k x m k0 :
  In k0 (NumMap.keys (NumMap.set k x m)) ->
  k0 = JsNum.norm_key k \/ In k0 (NumMap.keys m).
Proof.
  induction m as [|[k' v'] m IH]; cbn.
  - intros [<-|[]]. now left.
  - destruct (JsNum.same_value_zero k' k); cbn.
    + intros H. now right.
    + intros [<-|H]; [right; now left|].
      destruct (IH H) as [->|H']; [now left | right; now right].
Qed.

Lemma NumMap_delete_incl k m e : In e (NumMap.delete k m) -> In e m.
Proof. unfold NumMap.delete. intros H. now apply List.filter_In in H as [H _]. Qed.

Lemma NumMap_delete_values k m v :
  In v (NumMap.values (NumMap.delete k m)) -> In v (NumMap.values m).
Proof.
  unfold NumMap.values. rewrite !in_map_iff.
  intros [e [<- He]]. exists e. split; [reflexivity | eapply NumMap_delete_incl, He].
Qed.

Lemma NumMap_delete_keys k m k0 :
  In k0 (NumMap.keys (NumMap.delete k m)) -> In k0 (NumMap.keys m).
Proof.
  unfold NumMap.keys. rewrite !in_map_iff.
  intros [e [<- He]]. exists e. split; [reflexivity | eapply NumMap_delete_incl, He].
Qed.

Lemma setLevels_positive ls m : all_positive m -> all_positive (OrderBook.setLevels ls m).
Proof.
  unfold OrderBook.setLevels. revert m.
  induction ls as [|l ls IH]; intros m Hm; cbn; [exact Hm|].
  apply IH. destruct (JsNum.gt (lv_size l) PrimFloat.zero) eqn:E; [|exact Hm].
  intros v Hv. apply NumMap_set_values in Hv as [->|Hv]; [exact E | now apply Hm].
Qed.

Lemma sizes_positive_split b :
  sizes_positive b <-> all_positive (OrderBook.asks b) /\ all_positive (OrderBook.bids b).
Proof.
  unfold sizes_positive, all_positive. split.
  - intros H. split; intros v Hv; apply H, in_or_app; [now left | now right].
  - intros [Ha Hb] v Hv. apply in_app_or in Hv as [Hv|Hv]; [now apply Ha | now apply Hb].
Qed.

Lemma applyOp_positive op b : op_ok op -> sizes_positive b -> sizes_positive (applyOp b op).
Proof.
  rewrite !sizes_positive_split. intros Hok [Ha Hb].
  destruct op as [asks0 bids0|[p side sz]]; cbn in *.
  - split; apply setLevels_positive; intros v [].
  - unfold OrderBook.applyChange, size_ok in *.
    destruct (String.eqb side "SELL"); [|destruct (String.eqb side "BUY")].
    + destruct (JsNum.strict_eq sz PrimFloat.zero) eqn:E; cbn in *; split; try exact Hb.
      * intros v Hv. eapply Ha, NumMap_delete_values, Hv.
      * intros v Hv. apply NumMap_set_values in Hv as [->|Hv]; [exact Hok | now apply Ha].
    + destruct (JsNum.strict_eq sz PrimFloat.zero) eqn:E; cbn in *; split; try exact Ha.
      * intros v Hv. eapply Hb, NumMap_delete_values, Hv.
      * intros v Hv. apply NumMap_set_values in Hv as [->|Hv]; [exact Hok | now apply Hb].
    + now split.
Qed.

Lemma applyOps_positive ops b :
  Forall op_ok ops -> sizes_positive b -> sizes_positive (applyOps ops b).
Proof.
  unfold applyOps. revert b.
  induction ops as [|op ops IH]; intros b Hok Hb; cbn; [exact Hb|].
  inversion Hok; subst. apply IH; [assumption|]. now apply applyOp_positive.
Qed.

(** ** Keys of the book after a change sequence *)

Lemma applyChange_ask_keys p side sz b k :
  In k (NumMap.keys (OrderBook.asks (OrderBook.applyChange p side sz b))) ->
  In k (NumMap.keys (OrderBook.asks b))
  \/ (k = JsNum.norm_key p /\ In p (stored_prices "SELL" [mkChange p side sz])).
Proof.
  unfold OrderBook.applyChange, stored_prices. cbn.
  destruct (String.eqb side "SELL"); [|destruct (String.eqb side "BUY")]; cbn.
  - destruct (JsNum.strict_eq sz PrimFloat.zero); cbn; intros H.
    + left. eapply NumMap_delete_keys, H.
    + apply NumMap_set_keys in H as [->|H]; [right; split; [reflexivity|now left] | now left].
  - destruct (JsNum.strict_eq sz PrimFloat.zero); cbn; intros H; now left.
  - intros H; now left.
Qed.

Lemma applyChange_bid_keys p side sz b k :
  In k (NumMap.keys (OrderBook.bids (OrderBook.applyChange p side sz b))) ->
  In k (NumMap.keys (OrderBook.bids b))
  \/ (k = JsNum.norm_key p /\ In p (stored_prices "BUY" [mkChange p side sz])).
Proof.
  unfold OrderBook.applyChange, stored_prices. cbn.
  destruct (String.eqb side "SELL") eqn:Es; [|destruct (String.eqb side "BUY") eqn:Eb]; cbn.
  - apply String.eqb_eq in Es. subst side. cbn.
    destruct (JsNum.strict_eq sz PrimFloat.zero); cbn; intros H; now left.
  - destruct (JsNum.strict_eq sz PrimFloat.zero); cbn; intros H.
    + left. eapply NumMap_delete_keys, H.
    + apply NumMap_set_keys in H as [->|H]; [right; split; [reflexivity|now left] | now left].
  - intros H; now left.
Qed.

Lemma stored_prices_cons side c cs :
  stored_prices side (c :: cs) = stored_prices side [c] ++ stored_prices side cs.
Proof.
  unfold stored_prices. cbn.
  destruct (String.eqb (c_side c) side && negb (JsNum.strict_eq (c_size c) PrimFloat.zero)); reflexivity.
Qed.

Lemma applyChanges_ask_keys cs b k :
  In k (NumMap.keys (OrderBook.asks (OrderBook.applyChanges cs b))) ->
  In k (NumMap.keys (OrderBook.asks b))
  \/ exists p, k = JsNum.norm_key p /\ In p (stored_prices "SELL" cs).
Proof.
  unfold OrderBook.applyChanges. revert b.
  induction cs as [|[p side sz] cs IH]; intros b H; [now left|].
  cbn [fold_left c_price c_side c_size] in H. apply IH in H as [H|[q [-> Hq]]].
  - apply applyChange_ask_keys in H as [H|[-> Hp]]; [now left|].
    right. exists p. split; [reflexivity|].
    rewrite stored_prices_cons. apply in_or_app. now left.
  - right. exists q. split; [reflexivity|].
    rewrite stored_prices_cons. apply in_or_app. now right.
Qed.

Lemma applyChanges_bid_keys cs b k :
  In k (NumMap.keys (OrderBook.bids (OrderBook.applyChanges cs b))) ->
  In k (NumMap.keys (OrderBook.bids b))
  \/ exists p, k = JsNum.norm_key p /\ In p (stored_prices "BUY" cs).
Proof.
  unfold OrderBook.applyChanges. revert b.
  induction cs as [|[p side sz] cs IH]; intros b H; [now left|].
  cbn [fold_left c_price c_side c_size] in H. apply IH in H as [H|[q [-> Hq]]].
  - apply applyChange_bid_keys in H as [H|[-> Hp]]; [now left|].
    right. exists p. split; [reflexivity|].
    rewrite stored_prices_cons. apply in_or_app. now left.
  - right. exists q. split; [reflexivity|].
    rewrite stored_prices_cons. apply in_or_app. now right.
Qed.

Lemma getBestAsk_in b a :
  OrderBook.getBestAsk b = Some a -> In a (NumMap.keys (OrderBook.asks b)).
Proof.
  intros H. pose proof (getBestAsk_lowest b) as L. rewrite H in L. apply L.
Qed.

Lemma getBestBid_in b d :
  OrderBook.getBestBid b = Some d -> In d (NumMap.keys (OrderBook.bids b)).
Proof.
  intros H. pose proof (getBestBid_highest b) as L. rewrite H in L. apply L.
Qed.

(** ** The order book *)

(** C4, as stated, fails: [applyChange] stores whatever price it is given
    on the side it is given, so a SELL at 0.5 and a BUY at 0.6 leave a
    book whose best ask 0.5 is below its best bid 0.6; and a book that a
    snapshot left crossed stays crossed when no change follows. *)
Lemma applyChange_crossed_book :
  ~ uncrossed
      (OrderBook.applyChanges
         [mkChange 0.5 "SELL" 1; mkChange 0.6 "BUY" 1] OrderBook.new)
  /\ ~ uncrossed
         (OrderBook.applyChanges []
            (OrderBook.applySnapshot [mkLevel 0.5 1] [mkLevel 0.6 1] OrderBook.new)).
Proof.
  split; intros H; specialize (H 0.5%float 0.6%float eq_refl eq_refl);
    vm_compute in H; discriminate H.
Qed.

(** C5, as stated, fails twice over.  [applyChange] stores every size
    other than 0, a negative one included; and [getBestAsk] answers null
    on a side that is not empty when no stored price is below Infinity. *)
Lemma book_invariant_fails :
  ~ book_invariant
      (applyOps [OpChange (mkChange 0.5 "SELL" (-1))] OrderBook.new)
  /\ ~ book_invariant
      (applyOps [OpSnapshot [mkLevel infinity 1] []] OrderBook.new).
Proof.
  split.
  - intros [H _]. specialize (H (-1)%float (or_introl eq_refl)).
    vm_compute in H. discriminate H.
  - intros [_ [H _]]. vm_compute in H. discriminate H.
Qed.

(** C5 (amended): for every order book reached from a new one by
    [applySnapshot] and [applyChange] operations whose change sizes are
    0 or positive, every stored entry has size > 0; and on every book
    [getBestAsk] returns a stored ask price that no stored ask price is
    below, or null when no stored ask price is below Infinity (so on an
    empty side), while [getBestBid] returns a stored bid price that no
    stored bid price is above, or null when none is above -Infinity. *)
Theorem book_invariant_amended (ops : list BookOp) :
  Forall op_ok ops ->
  sizes_positive (applyOps ops OrderBook.new)
  /\ is_lowest (NumMap.keys (OrderBook.asks (applyOps ops OrderBook.new)))
       (OrderBook.getBestAsk (applyOps ops OrderBook.new))
  /\ is_highest (NumMap.keys (OrderBook.bids (applyOps ops OrderBook.new)))
       (OrderBook.getBestBid (applyOps ops OrderBook.new)).
Proof.
  intros Hok. split; [|split].
  - apply applyOps_positive; [exact Hok|]. intros v [].
  - apply getBestAsk_lowest.
  - apply getBestBid_highest.
Qed.

Lemma book_invariant_amended_witness :
  let ops := [OpSnapshot [mkLevel 0.5 1; mkLevel 0.25 2; mkLevel 0.75 0]
                         [mkLevel 0.2 3];
              OpChange (mkChange 0.25 "SELL" 0);
              OpChange (mkChange 0.21 "BUY" 4)] in
  sizes_positive (applyOps ops OrderBook.new)
  /\ is_lowest (NumMap.keys (OrderBook.asks (applyOps ops OrderBook.new)))
       (OrderBook.getBestAsk (applyOps ops OrderBook.new))
  /\ is_highest (NumMap.keys (OrderBook.bids (applyOps ops OrderBook.new)))
       (OrderBook.getBestBid (applyOps ops OrderBook.new)).
Proof.
  apply (book_invariant_amended
           [OpSnapshot [mkLevel 0.5 1; mkLevel 0.25 2; mkLevel 0.75 0]
                       [mkLevel 0.2 3];
            OpChange (mkChange 0.25 "SELL" 0);
            OpChange (mkChange 0.21 "BUY" 4)]).
  repeat constructor.
Defined.

(** C6: a snapshot replaces the book: whatever the book was, whatever
    snapshot and changes were applied before, the state after
    [applySnapshot] is the one [applySnapshot] gives on a new book. *)
Theorem applySnapshot_converges
    (b0 : OrderBook.t) (asks1 bids1 : list Level) (delta : list Change)
    (asks2 bids2 : list Level) :
  OrderBook.applySnapshot asks2 bids2
    (OrderBook.applyChanges delta (OrderBook.applySnapshot asks1 bids1 b0))
  = OrderBook.applySnapshot asks2 bids2 OrderBook.new.
Proof. reflexivity. Qed.

(** ** The detector: one call of [check] *)

(** C7: a tick for a token whose market the detector does not know, or
    for a market whose yes-side or no-side best ask is missing, is
    dropped: [check] returns with the detector state as it was and calls
    neither [onEvent] nor [onWindow]. *)
Theorem check_drops_tick
    (cfg : Config) (watcher : OrderbookWatcher.t) (now stamp : Z)
    (tokenId : string) (d : ArbDetector.t) :
  marketOf d tokenId = None
  \/ (exists m, marketOf d tokenId = Some m
        /\ (OrderbookWatcher.getBestAsk (Market.yesTokenId m) watcher = None
            \/ OrderbookWatcher.getBestAsk (Market.noTokenId m) watcher = None)) ->
  ArbDetector.check cfg watcher now stamp tokenId d = Some (d, []).
Proof.
  unfold marketOf, ArbDetector.check.
  destruct (ArbDetector.tokenToMarket d !! tokenId) as [marketId|]; [|reflexivity].
  destruct (String.eqb marketId ""); [reflexivity|].
  intros [H|[m [H Hask]]]; rewrite H; [reflexivity|].
  destruct Hask as [-> | Hno]; [reflexivity|].
  rewrite Hno.
  destruct (OrderbookWatcher.getBestAsk (Market.yesTokenId m) watcher); reflexivity.
Qed.

Lemma check_drops_tick_witness :
  ArbDetector.check defaultConfig (sampleQuotes (Some 0.48%float) None) 10 11
    "tok-up" sampleDetector
  = Some (sampleDetector, []).
Proof.
  apply (check_drops_tick defaultConfig (sampleQuotes (Some 0.48%float) None) 10 11
           "tok-up" sampleDetector).
  right. exists sampleMarket. split; [reflexivity|]. right. reflexivity.
Defined.

(** What [closeWindow] answers when the stats of the market are there. *)
Lemma closeWindow_ok cfg marketId market closeCombined d s :
  ArbDetector.stats d !! marketId = Some s ->
  exists d' out,
    ArbDetector.closeWindow cfg marketId market closeCombined d = Some (d', out)
    /\ ArbDetector.windows d' = delete marketId (ArbDetector.windows d)
    /\ ArbDetector.markets d' = ArbDetector.markets d
    /\ ArbDetector.tokenToMarket d' = ArbDetector.tokenToMarket d
    /\ (exists s', ArbDetector.stats d' = <[marketId := s']> (ArbDetector.stats d)
                   /\ MarketStats.currentCombined s' = MarketStats.currentCombined s)
    /\ events out = []
    /\ surfaced out =
         match ArbDetector.windows d !! marketId with
         | Some w =>
             if Z.of_nat (length (WindowState.spreads w)) <? MIN_ARB_TICKS cfg
             then []
             else [ArbDetector.arbWindow marketId market w closeCombined]
         | None => []
         end.
Proof.
  intros Hs. unfold ArbDetector.closeWindow.
  destruct (ArbDetector.windows d !! marketId) as [w|] eqn:Hw.
  - destruct (Z.of_nat (length (WindowState.spreads w)) <? MIN_ARB_TICKS cfg).
    + eexists _, _. split; [reflexivity|]. cbn.
      repeat split; try reflexivity.
      exists s. split; [now rewrite insert_id | reflexivity].
    + cbn. rewrite Hs. eexists _, _. split; [reflexivity|]. cbn.
      repeat split; try reflexivity.
      eexists. split; reflexivity.
  - eexists _, _. split; [reflexivity|].
    repeat split; try reflexivity.
    + now rewrite delete_id.
    + exists s. split; [now rewrite insert_id | reflexivity].
Qed.



(** ** The detector: windows that surface *)

Lemma surfaced_app out1 out2 : surfaced (out1 ++ out2) = surfaced out1 ++ surfaced out2.
Proof. apply omap_app. Qed.







(** ** The detector: removal of markets *)

Lemma removeMarket_spec cfg m d :
  windows_have_stats d ->
  exists out,
    ArbDetector.removeMarket cfg m d = Some (removed d m, out)
    /\ events out = []
    /\ surfaced out =
         match ArbDetector.windows d !! Market.marketId m with
         | Some w =>
             if Z.of_nat (length (WindowState.spreads w)) <? MIN_ARB_TICKS cfg
             then []
             else [ArbDetector.arbWindow (Market.marketId m) m w
                     (ArbDetector.lastCombined (Market.marketId m) d)]
         | None => []
         end.
Proof.
  intros Hwf. unfold ArbDetector.removeMarket.
  destruct (ArbDetector.windows d !! Market.marketId m) as [w|] eqn:Hw.
  - destruct (Hwf (Market.marketId m)) as [s Hs]; [rewrite Hw; eauto|].
    destruct (closeWindow_ok cfg (Market.marketId m) m
                (ArbDetector.lastCombined (Market.marketId m) d) d s Hs)
      as (d1 & out & Hc & Hwin & Hmk & Htm & (s' & Hst & _) & Hev & Hsf).
    rewrite Hc. exists out. rewrite Hw in Hsf.
    split; [|split; assumption].
    unfold removed. rewrite Hwin, Hmk, Htm, Hst, delete_insert_eq. reflexivity.
  - exists []. split; [|split; reflexivity].
    unfold removed. rewrite (delete_id (ArbDetector.windows d)) by exact Hw.
    reflexivity.
Qed.

Lemma removed_have_stats d m : windows_have_stats d -> windows_have_stats (removed d m).
Proof.
  intros Hwf k. unfold removed. cbn.
  destruct (decide (k = Market.marketId m)) as [->|Hne].
  - rewrite lookup_delete_eq. intros H. now apply is_Some_None in H.
  - rewrite !lookup_delete_ne by congruence. apply Hwf.
Qed.

Lemma removeMarkets_spec cfg ms d :
  windows_have_stats d ->
  exists out,
    ArbDetector.removeMarkets cfg ms d = Some (fold_left removed ms d, out)
    /\ events out = [].
Proof.
  revert d. induction ms as [|m ms IH]; intros d Hwf; cbn.
  - exists []. split; reflexivity.
  - destruct (removeMarket_spec cfg m d Hwf) as (out1 & -> & Hev1 & _).
    destruct (IH (removed d m) (removed_have_stats d m Hwf)) as (out2 & -> & Hev2).
    exists (out1 ++ out2). split; [reflexivity|].
    unfold events in *. now rewrite omap_app, Hev1, Hev2.
Qed.

Lemma surfacedFor_app marketId out1 out2 :
  surfacedFor marketId (out1 ++ out2)
  = surfacedFor marketId out1 ++ surfacedFor marketId out2.
Proof. unfold surfacedFor. now rewrite surfaced_app, List.filter_app. Qed.

Lemma removeMarket_surfaced_other cfg m d out d1 marketId :
  windows_have_stats d ->
  ArbDetector.removeMarket cfg m d = Some (d1, out) ->
  Market.marketId m <> marketId ->
  surfacedFor marketId out = [].
Proof.
  intros Hwf Hr Hne.
  destruct (removeMarket_spec cfg m d Hwf) as (out' & Hr' & _ & Hsf).
  rewrite Hr in Hr'. injection Hr' as _ <-.
  unfold surfacedFor. rewrite Hsf.
  destruct (ArbDetector.windows d !! Market.marketId m) as [w|]; [|reflexivity].
  destruct (_ <? _); [reflexivity|]. cbn.
  destruct (String.eqb_spec (Market.marketId m) marketId); [contradiction | reflexivity].
Qed.

Lemma removeMarkets_surfaced_none cfg ms :
  forall d d' out marketId,
    windows_have_stats d ->
    ArbDetector.windows d !! marketId = None ->
    ArbDetector.removeMarkets cfg ms d = Some (d', out) ->
    surfacedFor marketId out = [].
Proof.
  induction ms as [|m ms IH]; intros d d' out marketId Hwf Hnone; cbn.
  - intros [= <- <-]. reflexivity.
  - intros Hr.
    destruct (removeMarket_spec cfg m d Hwf) as (out1 & Hr1 & _ & Hsf).
    rewrite Hr1 in Hr.
    destruct (ArbDetector.removeMarkets cfg ms (removed d m)) as [[d2 out2]|] eqn:Hr2;
      [|discriminate].
    injection Hr as <- <-. rewrite surfacedFor_app.
    rewrite (IH (removed d m) d2 out2 marketId (removed_have_stats d m Hwf)); cycle 1.
    { unfold removed. cbn. apply lookup_delete_None. now right. }
    { exact Hr2. }
    rewrite app_nil_r.
    destruct (decide (Market.marketId m = marketId)) as [E|Hne].
    + unfold surfacedFor. rewrite Hsf, E, Hnone. reflexivity.
    + apply (removeMarket_surfaced_other cfg m d out1 _ marketId Hwf Hr1 Hne).
Qed.

Lemma fold_removed_lookup ms d :
  (forall k v, ArbDetector.markets (fold_left removed ms d) !! k = Some v ->
               ArbDetector.markets d !! k = Some v)
  /\ (forall k v, ArbDetector.stats (fold_left removed ms d) !! k = Some v ->
                  ArbDetector.stats d !! k = Some v)
  /\ (forall k v, ArbDetector.windows (fold_left removed ms d) !! k = Some v ->
                  ArbDetector.windows d !! k = Some v)
  /\ (forall k v, ArbDetector.tokenToMarket (fold_left removed ms d) !! k = Some v ->
                  ArbDetector.tokenToMarket d !! k = Some v).
Proof.
  revert d. induction ms as [|m ms IH]; intros d; cbn; [tauto|].
  destruct (IH (removed d m)) as (H1 & H2 & H3 & H4).
  repeat split; intros k v H;
    [apply H1 in H | apply H2 in H | apply H3 in H | apply H4 in H];
    cbn in H; repeat (apply lookup_delete_Some in H as [_ H]); exact H.
Qed.

Lemma absent_removed d m : absent m (removed d m).
Proof.
  unfold absent, removed. cbn. rewrite !lookup_delete_eq.
  repeat split. apply lookup_delete_None. right. apply lookup_delete_eq.
Qed.

Lemma absent_fold_removed ms d m : absent m d -> absent m (fold_left removed ms d).
Proof.
  intros (H1 & H2 & H3 & H4 & H5).
  destruct (fold_removed_lookup ms d) as (F1 & F2 & F3 & F4).
  unfold absent.
  repeat split; apply eq_None_not_Some; intros [v Hv];
    [apply F1 in Hv | apply F2 in Hv | apply F3 in Hv | apply F4 in Hv | apply F4 in Hv];
    congruence.
Qed.

Lemma absent_after_removal ms d m : In m ms -> absent m (fold_left removed ms d).
Proof.
  revert d. induction ms as [|m' ms IH]; intros d Hin; [destruct Hin|].
  destruct Hin as [->|Hin]; cbn.
  - apply absent_fold_removed, absent_removed.
  - now apply IH.
Qed.

Lemma removeMarkets_surfaced_target cfg ms :
  forall d m w d' out,
    windows_have_stats d ->
    In m ms ->
    ArbDetector.windows d !! Market.marketId m = Some w ->
    MIN_ARB_TICKS cfg <= Z.of_nat (length (WindowState.spreads w)) ->
    ArbDetector.removeMarkets cfg ms d = Some (d', out) ->
    exists m0,
      In m0 ms /\ Market.marketId m0 = Market.marketId m
      /\ surfacedFor (Market.marketId m) out
         = [ArbDetector.arbWindow (Market.marketId m) m0 w
              (ArbDetector.lastCombined (Market.marketId m) d)].
Proof.
  induction ms as [|m' ms IH]; intros d m w d' out Hwf Hin Hw Hmin Hr;
    [destruct Hin|].
  cbn in Hr.
  destruct (removeMarket_spec cfg m' d Hwf) as (out1 & Hr1 & _ & Hsf).
  rewrite Hr1 in Hr.
  destruct (ArbDetector.removeMarkets cfg ms (removed d m')) as [[d2 out2]|] eqn:Hr2;
    [|discriminate].
  injection Hr as <- <-. rewrite surfacedFor_app.
  destruct (decide (Market.marketId m' = Market.marketId m)) as [E|Hne].
  - exists m'. split; [now left|]. split; [exact E|].
    rewrite E, Hw in Hsf.
    assert (El : (Z.of_nat (length (WindowState.spreads w)) <? MIN_ARB_TICKS cfg) = false)
      by (apply Z.ltb_ge; lia).
    rewrite El in Hsf.
    rewrite (removeMarkets_surfaced_none cfg ms (removed d m') d2 out2
               (Market.marketId m) (removed_have_stats d m' Hwf)); cycle 1.
    { unfold removed. cbn. rewrite E. apply lookup_delete_eq. }
    { exact Hr2. }
    unfold surfacedFor. rewrite Hsf. cbn. rewrite String.eqb_refl. reflexivity.
  - destruct Hin as [->|Hin]; [contradiction|].
    rewrite (removeMarket_surfaced_other cfg m' d out1 _ (Market.marketId m) Hwf Hr1 Hne).
    destruct (IH (removed d m') m w d2 out2) as (m0 & Hin0 & Hid0 & Hs0);
      try assumption.
    + apply removed_have_stats, Hwf.
    + unfold removed. cbn. rewrite lookup_delete_ne by exact Hne. exact Hw.
    + exists m0. split; [now right|]. split; [exact Hid0|].
      cbn. rewrite Hs0. unfold ArbDetector.lastCombined, removed. cbn.
      rewrite lookup_delete_ne by exact Hne. reflexivity.
Qed.

Lemma NoDup_map_eq {A B} (f : A -> B) (l : list A) (a b : A) :
  NoDup (List.map f l) -> In a l -> In b l -> f a = f b -> a = b.
Proof.
  induction l as [|x l IH]; intros Hnd Ha Hb Hf; [destruct Ha|].
  cbn in Hnd. apply NoDup_cons in Hnd as [Hx Hnd].
  destruct Ha as [->|Ha], Hb as [->|Hb]; try reflexivity.
  - exfalso. apply Hx. rewrite Hf. apply list_elem_of_In, in_map, Hb.
  - exfalso. apply Hx. rewrite <- Hf. apply list_elem_of_In, in_map, Ha.
  - now apply IH.
Qed.

(** The property that the removal theorem assumes holds in every state
    that calls of [addMarkets], [check] and [removeMarkets] can reach. *)
Lemma addMarkets_have_stats ms d :
  windows_have_stats d -> windows_have_stats (ArbDetector.addMarkets ms d).
Proof.
  unfold ArbDetector.addMarkets. revert d.
  induction ms as [|m ms IH]; intros d Hwf; cbn; [exact Hwf|].
  apply IH. unfold ArbDetector.addMarket.
  destruct (ArbDetector.markets d !! Market.marketId m); [exact Hwf|].
  intros k Hk. cbn in *.
  destruct (decide (Market.marketId m = k)) as [->|Hne].
  - rewrite lookup_insert_eq. eauto.
  - rewrite lookup_insert_ne by exact Hne. now apply Hwf.
Qed.

Lemma closeWindow_have_stats cfg marketId market closeCombined d d' out :
  windows_have_stats d ->
  ArbDetector.closeWindow cfg marketId market closeCombined d = Some (d', out) ->
  windows_have_stats d'.
Proof.
  intros Hwf. unfold ArbDetector.closeWindow.
  destruct (ArbDetector.windows d !! marketId) as [w|] eqn:Hw;
    [|intros [= <- <-]; exact Hwf].
  destruct (_ <? _).
  - intros [= <- <-] k Hk. cbn in *.
    apply lookup_delete_is_Some in Hk as [_ Hk]. now apply Hwf.
  - cbn. destruct (ArbDetector.stats d !! marketId) as [s|]; [|discriminate].
    intros [= <- <-] k Hk. cbn in *.
    apply lookup_delete_is_Some in Hk as [Hne Hk].
    rewrite lookup_insert_ne by exact Hne. now apply Hwf.
Qed.

Lemma check_have_stats cfg watcher now stamp tokenId d d' out :
  windows_have_stats d ->
  ArbDetector.check cfg watcher now stamp tokenId d = Some (d', out) ->
  windows_have_stats d'.
Proof.
  intros Hwf. unfold ArbDetector.check.
  destruct (ArbDetector.tokenToMarket d !! tokenId) as [marketId|];
    [|intros [= <- <-]; exact Hwf].
  destruct (String.eqb marketId ""); [intros [= <- <-]; exact Hwf|].
  destruct (ArbDetector.markets d !! marketId) as [market|];
    [|intros [= <- <-]; exact Hwf].
  destruct (OrderbookWatcher.getBestAsk (Market.yesTokenId market) watcher) as [yesAsk|];
    [|intros [= <- <-]; exact Hwf].
  destruct (OrderbookWatcher.getBestAsk (Market.noTokenId market) watcher) as [noAsk|];
    [|intros [= <- <-]; exact Hwf].
  destruct (ArbDetector.stats d !! marketId) as [s0|] eqn:Hs; [|discriminate].
  assert (Hwf0 : windows_have_stats
                   (ArbDetector.withStats
                      (<[marketId := ArbDetector.tickStats (yesAsk + noAsk) s0]>
                         (ArbDetector.stats d)) d)).
  { intros k Hk. cbn in *. apply lookup_insert_is_Some'. right. now apply Hwf. }
  destruct (JsNum.lt _ _), (ArbDetector.windows d !! marketId) as [w|] eqn:Hw.
  - intros [= <- <-] k Hk. cbn in *. apply lookup_insert_is_Some'.
    apply lookup_insert_is_Some' in Hk as [Hk|Hk]; [now left | right; now apply Hwf].
  - intros [= <- <-] k Hk. cbn in *. apply lookup_insert_is_Some'.
    apply lookup_insert_is_Some' in Hk as [Hk|Hk]; [now left | right; now apply Hwf].
  - destruct (ArbDetector.closeWindow _ _ _ _ _) as [[d1 out1]|] eqn:Hc; [|discriminate].
    intros [= <- <-]. eapply closeWindow_have_stats, Hc. exact Hwf0.
  - intros [= <- <-]. exact Hwf0.
Qed.

Lemma detRun_have_stats cfg ops d d' out :
  windows_have_stats d -> detRun cfg ops d = Some (d', out) -> windows_have_stats d'.
Proof.
  revert d d' out. induction ops as [|op ops IH]; intros d d' out Hwf; cbn.
  - intros [= <- <-]. exact Hwf.
  - destruct (detStep cfg d op) as [[d1 out1]|] eqn:Hs; [|discriminate].
    destruct (detRun cfg ops d1) as [[d2 out2]|] eqn:Hr; [|discriminate].
    intros [= <- <-]. eapply IH; [|exact Hr].
    destruct op as [ms|watcher now stamp tokenId|ms]; cbn in Hs.
    + injection Hs as <- _. now apply addMarkets_have_stats.
    + eapply check_have_stats; eauto.
    + destruct (removeMarkets_spec cfg ms d Hwf) as (out' & Hr' & _).
      rewrite Hr' in Hs. injection Hs as <- _.
      clear -Hwf. revert d Hwf. induction ms as [|m ms IHm]; intros d Hwf; cbn;
        [exact Hwf | apply IHm, removed_have_stats, Hwf].
Qed.

Lemma new_have_stats : windows_have_stats ArbDetector.new.
Proof. intros k [w Hw]. cbn in Hw. now rewrite lookup_empty in Hw. Qed.

(** ** The watcher: reconnection *)

Lemma sleeps_app out1 out2 : sleeps (out1 ++ out2) = sleeps out1 ++ sleeps out2.
Proof. apply omap_app. Qed.

Lemma backoff_next d i :
  Z.min (Z.min (d * 2) 30000 * 2 ^ Z.of_nat i) 30000
  = Z.min (d * 2 ^ Z.of_nat (S i)) 30000.
Proof.
  rewrite Nat2Z.inj_succ, Z.pow_succ_r by lia.
  assert (Hp : 1 <= 2 ^ Z.of_nat i) by (apply Z.pow_le_mono_r with (b := 0); lia).
  destruct (Z.le_gt_cases (d * 2) 30000) as [H|H].
  - rewrite (Z.min_l (d * 2) 30000) by exact H. f_equal. ring.
  - rewrite (Z.min_r (d * 2) 30000) by lia.
    rewrite !Z.min_r; [reflexivity | nia | nia].
Qed.

Lemma connect_failed n :
  forall (w : OrderbookWatcher.t) (acc : list WOut),
    OrderbookWatcher.shouldRun w = true ->
    OrderbookWatcher.reconnectDelay w <= 30000 ->
    sleeps (snd (fold_left
                   (fun acc a =>
                      let '(w', o) := OrderbookWatcher.connectTurn a (fst acc) in
                      (w', snd acc ++ o))
                   (repeat OrderbookWatcher.Failed n) (w, acc)))
    = sleeps acc
      ++ List.map (backoff (OrderbookWatcher.reconnectDelay w)) (seq 0 n).
Proof.
  induction n as [|n IH]; intros w acc Hrun Hd; cbn [repeat fold_left].
  - cbn. now rewrite app_nil_r.
  - cbn [fst snd]. unfold OrderbookWatcher.connectTurn at 2. rewrite Hrun.
    unfold OrderbookWatcher.connectOnce.
    cbn [OrderbookWatcher.shouldRun OrderbookWatcher.withSocket
           OrderbookWatcher.reconnectDelay].
    rewrite Hrun, IH; cbn; [|exact Hrun|lia].
    rewrite sleeps_app. cbn. rewrite <- app_assoc. cbn. f_equal. f_equal.
    + unfold backoff. cbn. lia.
    + rewrite <- seq_shift, List.map_map. apply List.map_ext. intros i.
      unfold backoff. apply backoff_next.
Qed.

Lemma updateBestPrices_frame tokenId book w :
  let w' := fst (OrderbookWatcher.updateBestPrices tokenId book w) in
  OrderbookWatcher.reconnectDelay w' = OrderbookWatcher.reconnectDelay w
  /\ OrderbookWatcher.shouldRun w' = OrderbookWatcher.shouldRun w
  /\ OrderbookWatcher.books w' = OrderbookWatcher.books w
  /\ sleeps (snd (OrderbookWatcher.updateBestPrices tokenId book w)) = [].
Proof.
  unfold OrderbookWatcher.updateBestPrices.
  destruct (not_null _ || not_null _); cbn; repeat split.
Qed.

Lemma handleMessage_frame msg w :
  let w' := fst (OrderbookWatcher.handleMessage msg w) in
  OrderbookWatcher.reconnectDelay w' = OrderbookWatcher.reconnectDelay w
  /\ OrderbookWatcher.shouldRun w' = OrderbookWatcher.shouldRun w
  /\ sleeps (snd (OrderbookWatcher.handleMessage msg w)) = [].
Proof.
  unfold OrderbookWatcher.handleMessage.
  destruct (asset_id msg) as [tokenId|]; [|repeat split].
  destruct (String.eqb tokenId ""); [repeat split|].
  destruct (OrderbookWatcher.books w !! tokenId) as [book|]; [|repeat split].
  destruct (body msg) as [asks0 bids0|changes| |asks0|asks0 bids0|changes];
    [| |repeat split..].
  - destruct (updateBestPrices_frame tokenId
                (OrderBook.applySnapshot asks0 bids0 book)
                (OrderbookWatcher.withBook tokenId
                   (OrderBook.applySnapshot asks0 bids0 book) w))
      as (H1 & H2 & _ & H4).
    cbn in *. now rewrite H1, H2, H4.
  - destruct (updateBestPrices_frame tokenId
                (OrderBook.applyChanges changes book)
                (OrderbookWatcher.withBook tokenId
                   (OrderBook.applyChanges changes book) w))
      as (H1 & H2 & _ & H4).
    cbn in *. now rewrite H1, H2, H4.
Qed.

Lemma handleMessages_frame msgs :
  forall acc : OrderbookWatcher.t * list WOut,
    let r := OrderbookWatcher.handleMessages msgs acc in
    OrderbookWatcher.reconnectDelay (fst r) = OrderbookWatcher.reconnectDelay (fst acc)
    /\ OrderbookWatcher.shouldRun (fst r) = OrderbookWatcher.shouldRun (fst acc)
    /\ sleeps (snd r) = sleeps (snd acc).
Proof.
  unfold OrderbookWatcher.handleMessages.
  induction msgs as [|msg msgs IH]; intros acc; cbn [fold_left]; [repeat split|].
  destruct (handleMessage_frame msg (fst acc)) as (H1 & H2 & H3).
  destruct (OrderbookWatcher.handleMessage msg (fst acc)) as [w' o] eqn:E.
  cbn [fst snd] in *. destruct (IH (w', snd acc ++ o)) as (I1 & I2 & I3).
  cbn [fst snd] in *.
  rewrite I1, I2, I3, H1, H2, sleeps_app, H3, app_nil_r. repeat split.
Qed.

Lemma onOpen_sleeps w : sleeps (snd (OrderbookWatcher.onOpen w)) = [].
Proof.
  unfold OrderbookWatcher.onOpen, OrderbookWatcher.sendSubscription. cbn.
  destruct (0 <? _); [|reflexivity]. now destruct (OrderbookWatcher.ws w) as [[]|].
Qed.

(** C8, as stated, fails: the first delay of the reconnect loop is 1000 ms,
    not 100 ms. *)
Lemma backoff_does_not_start_at_100ms : ~ backoff_law 100.
Proof. intros [H _]. vm_compute in H. discriminate H. Qed.

(** C8 (amended): the reconnect delay starts at 1000 ms, doubles after each
    failed attempt up to a cap of 30 000 ms, and is reset to 1000 ms by a
    successful open. *)
Theorem backoff_starts_at_1s : backoff_law 1000.
Proof.
  repeat split.
  - intros n. unfold OrderbookWatcher.connect.
    rewrite connect_failed; cbn; [reflexivity | reflexivity | lia].
  - intros w msgs n Hrun. unfold OrderbookWatcher.connect. cbn [fold_left fst snd].
    unfold OrderbookWatcher.connectTurn at 2. rewrite Hrun.
    unfold OrderbookWatcher.connectOnce.
    destruct (handleMessages_frame msgs
                (OrderbookWatcher.onOpen
                   (OrderbookWatcher.withSocket (Some OPEN)
                      (OrderbookWatcher.withSocket (Some CONNECTING) w))))
      as (H1 & H2 & H3).
    destruct (OrderbookWatcher.handleMessages msgs _) as [w1 o] eqn:E.
    cbn [fst snd] in H1, H2, H3. rewrite onOpen_sleeps in H3.
    cbn in H1, H2. cbn [fst snd OrderbookWatcher.shouldRun OrderbookWatcher.withSocket
                          OrderbookWatcher.reconnectDelay].
    rewrite H2, Hrun, H1.
    rewrite connect_failed; [|cbn; rewrite H2; exact Hrun|cbn; lia].
    cbn [app]. rewrite sleeps_app, H3.
    cbn [sleeps omap list_omap app OrderbookWatcher.reconnectDelay
           OrderbookWatcher.withDelay seq List.map].
    f_equal.
    rewrite <- seq_shift, List.map_map. apply List.map_ext. intros i.
    unfold backoff. apply backoff_next.
Qed.

(** ** The watcher: subscription on connect *)

Lemma onOpen_frames w :
  OrderbookWatcher.ws w = Some OPEN ->
  frames (snd (OrderbookWatcher.onOpen w))
  = match OrderbookWatcher.subscribedTokens w with
    | [] => []
    | _ :: _ => [OrderbookWatcher.subscribedTokens w]
    end.
Proof.
  intros Hws. unfold OrderbookWatcher.onOpen, OrderbookWatcher.sendSubscription.
  cbn. rewrite Hws. now destruct (OrderbookWatcher.subscribedTokens w).
Qed.

(** C9, as stated, fails: the tokens go out in one frame whatever their
    number, so 502 watched tokens make a frame of 502 identifiers. *)
Lemma subscription_not_chunked : ~ subscribes_in_chunks watcher502.
Proof.
  intros (_ & _ & H). unfold subscribes_in_chunks in H.
  rewrite onOpen_frames in H by reflexivity.
  assert (E : length (OrderbookWatcher.subscribedTokens watcher502) = 502%nat)
    by (vm_compute; reflexivity).
  destruct (OrderbookWatcher.subscribedTokens watcher502) as [|t ts] eqn:Et;
    [discriminate E|].
  apply Forall_cons in H as [H _]. rewrite E in H. lia.
Qed.

(** C9 (amended): on connect the watcher sends the watched tokens in one
    subscription frame that carries all of them, however many they are,
    and no frame at all when no token is watched. *)
Theorem onOpen_subscribes_in_one_frame (w : OrderbookWatcher.t) :
  OrderbookWatcher.ws w = Some OPEN ->
  snd (OrderbookWatcher.onOpen w)
  = match OrderbookWatcher.subscribedTokens w with
    | [] => []
    | _ :: _ => [Send (OrderbookWatcher.subscribedTokens w)]
    end.
Proof.
  intros Hws. unfold OrderbookWatcher.onOpen, OrderbookWatcher.sendSubscription.
  cbn. rewrite Hws. now destruct (OrderbookWatcher.subscribedTokens w).
Qed.

Lemma onOpen_subscribes_in_one_frame_witness :
  snd (OrderbookWatcher.onOpen sampleWatcher) = [Send ["tok-up"; "tok-down"]].
Proof.
  apply (onOpen_subscribes_in_one_frame sampleWatcher). reflexivity.
Defined.

(** ** The watcher: cached best prices *)

Lemma updateBestPrices_asks tokenId book w t :
  OrderbookWatcher.bestAsks
    (fst (OrderbookWatcher.updateBestPrices tokenId book w)) !! t
  = match OrderBook.getBestAsk book with
    | Some a => if decide (tokenId = t) then Some a
                else OrderbookWatcher.bestAsks w !! t
    | None => OrderbookWatcher.bestAsks w !! t
    end.
Proof.
  unfold OrderbookWatcher.updateBestPrices.
  destruct (OrderBook.getBestAsk book) as [a|],
           (not_null (OrderBook.getBestBid book)) eqn:Eb; cbn;
    rewrite ?lookup_insert; reflexivity.
Qed.

Lemma updateBestPrices_bids tokenId book w t :
  OrderbookWatcher.bestBids
    (fst (OrderbookWatcher.updateBestPrices tokenId book w)) !! t
  = match OrderBook.getBestBid book with
    | Some a => if decide (tokenId = t) then Some a
                else OrderbookWatcher.bestBids w !! t
    | None => OrderbookWatcher.bestBids w !! t
    end.
Proof.
  unfold OrderbookWatcher.updateBestPrices.
  destruct (OrderBook.getBestBid book) as [a|],
           (not_null (OrderBook.getBestAsk book)) eqn:Eb; cbn;
    rewrite ?lookup_insert; reflexivity.
Qed.

(** What a frame does to the book and to the cached prices of token [t]:
    nothing, or the frame is for [t] and the cache takes the best prices
    of the new book where they are not null. *)
Lemma handleMessage_cache msg w t :
  let w' := fst (OrderbookWatcher.handleMessage msg w) in
  (OrderbookWatcher.bestAsks w' !! t = OrderbookWatcher.bestAsks w !! t
   /\ OrderbookWatcher.bestBids w' !! t = OrderbookWatcher.bestBids w !! t)
  \/ (exists book,
        OrderbookWatcher.books w' !! t = Some book
        /\ OrderbookWatcher.bestAsks w' !! t
           = match OrderBook.getBestAsk book with
             | Some a => Some a
             | None => OrderbookWatcher.bestAsks w !! t
             end
        /\ OrderbookWatcher.bestBids w' !! t
           = match OrderBook.getBestBid book with
             | Some a => Some a
             | None => OrderbookWatcher.bestBids w !! t
             end).
Proof.
  unfold OrderbookWatcher.handleMessage.
  destruct (asset_id msg) as [tokenId|]; [|now left].
  destruct (String.eqb tokenId ""); [now left|].
  destruct (OrderbookWatcher.books w !! tokenId) as [book|]; [|now left].
  assert (Hgen : forall book',
    let w' := fst (OrderbookWatcher.updateBestPrices tokenId book'
                     (OrderbookWatcher.withBook tokenId book' w)) in
    (OrderbookWatcher.bestAsks w' !! t = OrderbookWatcher.bestAsks w !! t
     /\ OrderbookWatcher.bestBids w' !! t = OrderbookWatcher.bestBids w !! t)
    \/ (exists book,
          OrderbookWatcher.books w' !! t = Some book
          /\ OrderbookWatcher.bestAsks w' !! t
             = match OrderBook.getBestAsk book with
               | Some a => Some a
               | None => OrderbookWatcher.bestAsks w !! t
               end
          /\ OrderbookWatcher.bestBids w' !! t
             = match OrderBook.getBestBid book with
               | Some a => Some a
               | None => OrderbookWatcher.bestBids w !! t
               end)).
  { intros book'. cbn zeta.
    destruct (updateBestPrices_frame tokenId book'
                (OrderbookWatcher.withBook tokenId book' w)) as (_ & _ & Hb & _).
    rewrite updateBestPrices_asks, updateBestPrices_bids, Hb. cbn.
    destruct (decide (tokenId = t)) as [->|Hne].
    - right. exists book'. rewrite lookup_insert_eq. repeat split.
    - left. rewrite ?lookup_insert_ne by exact Hne.
      destruct (OrderBook.getBestAsk book'), (OrderBook.getBestBid book');
        repeat split. }
  destruct (body msg) as [asks0 bids0|changes| |asks0|asks0 bids0|changes];
    [apply Hgen | apply Hgen | now left..].
Qed.

Lemma getBestAsk_empty_side book :
  OrderBook.asks book = [] -> OrderBook.getBestAsk book = None.
Proof. unfold OrderBook.getBestAsk. now intros ->. Qed.

Lemma getBestBid_empty_side book :
  OrderBook.bids book = [] -> OrderBook.getBestBid book = None.
Proof. unfold OrderBook.getBestBid. now intros ->. Qed.

Lemma removeMarkets_keeps_null ms :
  forall w t,
    (OrderbookWatcher.bestAsks w !! t = None ->
     OrderbookWatcher.bestAsks (OrderbookWatcher.removeMarkets ms w) !! t = None)
    /\ (OrderbookWatcher.bestBids w !! t = None ->
        OrderbookWatcher.bestBids (OrderbookWatcher.removeMarkets ms w) !! t = None).
Proof.
  unfold OrderbookWatcher.removeMarkets.
  induction ms as [|m ms IH]; intros w t; cbn [fold_left]; [tauto|].
  destruct (IH (OrderbookWatcher.removeToken
                  (OrderbookWatcher.removeToken w (Market.yesTokenId m))
                  (Market.noTokenId m)) t) as [Ha Hb].
  split; intros H; [apply Ha | apply Hb]; cbn;
    apply lookup_delete_None; right; apply lookup_delete_None; now right.
Qed.

Lemma removeMarkets_clears ms :
  forall w m t,
    In m ms -> t = Market.yesTokenId m \/ t = Market.noTokenId m ->
    OrderbookWatcher.getBestAsk t (OrderbookWatcher.removeMarkets ms w) = None
    /\ OrderbookWatcher.getBestBid t (OrderbookWatcher.removeMarkets ms w) = None.
Proof.
  unfold OrderbookWatcher.getBestAsk, OrderbookWatcher.getBestBid.
  induction ms as [|m' ms IH]; intros w m t Hin Ht; [destruct Hin|].
  destruct Hin as [->|Hin].
  - change (OrderbookWatcher.removeMarkets (m :: ms) w)
      with (OrderbookWatcher.removeMarkets ms
              (OrderbookWatcher.removeToken
                 (OrderbookWatcher.removeToken w (Market.yesTokenId m))
                 (Market.noTokenId m))).
    destruct (removeMarkets_keeps_null ms
                (OrderbookWatcher.removeToken
                   (OrderbookWatcher.removeToken w (Market.yesTokenId m))
                   (Market.noTokenId m)) t) as [Ha Hb].
    split; [apply Ha | apply Hb]; cbn; destruct Ht as [-> | ->];
      rewrite ?lookup_delete_eq; try reflexivity;
      apply lookup_delete_None; right; apply lookup_delete_eq.
  - apply (IH _ m t Hin Ht).
Qed.

(** C10: once the watcher has cached a best ask (best bid) for a token, no
    frame clears it: after a frame that leaves the token's ask (bid) side
    empty, [getBestAsk] ([getBestBid]) still returns the value cached
    before, and after any frames whatever it returns some number, never
    null.  [removeMarkets] on the token's market is what clears it. *)
Theorem stale_best_price_survives
    (w : OrderbookWatcher.t) (tokenId : string) (cached : float) :
  (OrderbookWatcher.getBestAsk tokenId w = Some cached ->
   (forall msg book,
       OrderbookWatcher.books (fst (OrderbookWatcher.handleMessage msg w)) !! tokenId
         = Some book ->
       OrderBook.asks book = [] ->
       OrderbookWatcher.getBestAsk tokenId (fst (OrderbookWatcher.handleMessage msg w))
       = Some cached)
   /\ (forall msgs,
         OrderbookWatcher.getBestAsk tokenId
           (fst (OrderbookWatcher.handleMessages msgs (w, []))) <> None))
  /\ (OrderbookWatcher.getBestBid tokenId w = Some cached ->
      (forall msg book,
          OrderbookWatcher.books (fst (OrderbookWatcher.handleMessage msg w)) !! tokenId
            = Some book ->
          OrderBook.bids book = [] ->
          OrderbookWatcher.getBestBid tokenId (fst (OrderbookWatcher.handleMessage msg w))
          = Some cached)
      /\ (forall msgs,
            OrderbookWatcher.getBestBid tokenId
              (fst (OrderbookWatcher.handleMessages msgs (w, []))) <> None))
  /\ (forall ms m,
         In m ms ->
         tokenId = Market.yesTokenId m \/ tokenId = Market.noTokenId m ->
         OrderbookWatcher.getBestAsk tokenId (OrderbookWatcher.removeMarkets ms w) = None
         /\ OrderbookWatcher.getBestBid tokenId (OrderbookWatcher.removeMarkets ms w)
            = None).
Proof.
  unfold OrderbookWatcher.getBestAsk, OrderbookWatcher.getBestBid.
  split; [|split].
  - intros Hc. split.
    + intros msg book Hb He.
      destruct (handleMessage_cache msg w tokenId) as [(Ha & _)|(b & Hb' & Ha & _)].
      * now rewrite Ha.
      * rewrite Hb in Hb'. injection Hb' as <-.
        now rewrite Ha, (getBestAsk_empty_side book He).
    + intros msgs. unfold OrderbookWatcher.handleMessages.
      generalize (@nil WOut). revert w cached Hc.
      induction msgs as [|msg msgs IH]; intros w cached Hc out; cbn [fold_left fst snd];
        [congruence|].
      destruct (OrderbookWatcher.handleMessage msg w) as [w' o] eqn:E.
      assert (Hsome : exists c, OrderbookWatcher.bestAsks w' !! tokenId = Some c).
      { destruct (handleMessage_cache msg w tokenId) as [(Ha & _)|(b & _ & Ha & _)];
          rewrite E in Ha; cbn in Ha; rewrite Ha.
        - eauto.
        - destruct (OrderBook.getBestAsk b); eauto. }
      destruct Hsome as [c Hc']. apply (IH w' c Hc').
  - intros Hc. split.
    + intros msg book Hb He.
      destruct (handleMessage_cache msg w tokenId) as [(_ & Ha)|(b & Hb' & _ & Ha)].
      * now rewrite Ha.
      * rewrite Hb in Hb'. injection Hb' as <-.
        now rewrite Ha, (getBestBid_empty_side book He).
    + intros msgs. unfold OrderbookWatcher.handleMessages.
      generalize (@nil WOut). revert w cached Hc.
      induction msgs as [|msg msgs IH]; intros w cached Hc out; cbn [fold_left fst snd];
        [congruence|].
      destruct (OrderbookWatcher.handleMessage msg w) as [w' o] eqn:E.
      assert (Hsome : exists c, OrderbookWatcher.bestBids w' !! tokenId = Some c).
      { destruct (handleMessage_cache msg w tokenId) as [(_ & Ha)|(b & _ & _ & Ha)];
          rewrite E in Ha; cbn in Ha; rewrite Ha.
        - eauto.
        - destruct (OrderBook.getBestBid b); eauto. }
      destruct Hsome as [c Hc']. apply (IH w' c Hc').
  - intros ms m Hin Ht. apply (removeMarkets_clears ms w m tokenId Hin Ht).
Qed.

Lemma stale_best_price_survives_witness :
  OrderbookWatcher.getBestAsk "tok-up" watcherWithAsk = Some 0.4%float
  /\ OrderBook.getBestAsk
       (OrderBook.applyChanges [mkChange 0.4 "SELL" 0]
          (OrderBook.applySnapshot [mkLevel 0.4 25] [] OrderBook.new)) = None
  /\ OrderbookWatcher.getBestAsk "tok-up"
       (fst (OrderbookWatcher.handleMessage msgAskGone watcherWithAsk))
     = Some 0.4%float.
Proof.
  split; [reflexivity|]. split; [reflexivity|].
  destruct (stale_best_price_survives watcherWithAsk "tok-up" 0.4) as [H _].
  destruct (H eq_refl) as [Hkept _].
  apply (Hkept msgAskGone
           (OrderBook.applyChanges [mkChange 0.4 "SELL" 0]
              (OrderBook.applySnapshot [mkLevel 0.4 25] [] OrderBook.new)));
    reflexivity.
Defined.

(** ** The detector never throws on the states it reaches *)




Lemma check_total cfg watcher now stamp tokenId d :
  markets_have_stats d ->
  exists d' out,
    ArbDetector.check cfg watcher now stamp tokenId d = Some (d', out)
    /\ markets_have_stats d'.
Proof.
  intros Hms. unfold ArbDetector.check.
  destruct (ArbDetector.tokenToMarket d !! tokenId) as [marketId|]; [|eauto].
  destruct (String.eqb marketId ""); [eauto|].
  destruct (ArbDetector.markets d !! marketId) as [market|] eqn:Hm; [|eauto].
  destruct (OrderbookWatcher.getBestAsk (Market.yesTokenId market) watcher) as [yesAsk|];
    [|eauto].
  destruct (OrderbookWatcher.getBestAsk (Market.noTokenId market) watcher) as [noAsk|];
    [|eauto].
  destruct (Hms marketId) as [s0 Hs]; [rewrite Hm; eauto|]. rewrite Hs.
  assert (Hins : forall s ws,
            markets_have_stats
              (ArbDetector.mk (ArbDetector.markets d) (ArbDetector.tokenToMarket d)
                 (<[marketId := s]> (ArbDetector.stats d)) ws)).
  { intros s ws k Hk. cbn in *. apply lookup_insert_is_Some'. right. now apply Hms. }
  destruct (JsNum.lt _ _), (ArbDetector.windows d !! marketId) as [w|] eqn:Hw.
  - eexists _, _. split; [reflexivity | apply Hins].
  - eexists _, _. split; [reflexivity | apply Hins].
  - edestruct (closeWindow_ok cfg marketId market (yesAsk + noAsk)
                 (ArbDetector.withStats
                    (<[marketId := ArbDetector.tickStats (yesAsk + noAsk) s0]>
                       (ArbDetector.stats d)) d))
      as (d' & out & Hc & _ & Hmk & _ & (s' & Hst & _) & _).
    { cbn. apply lookup_insert_eq. }
    rewrite Hc. eexists _, _. split; [reflexivity|].
    intros k Hk. rewrite Hmk in Hk. rewrite Hst. cbn in *.
    apply lookup_insert_is_Some'. right. apply lookup_insert_is_Some'. right.
    now apply Hms.
  - eexists _, _. split; [reflexivity | apply Hins].
Qed.


(** ** The detector: a window needs MIN_ARB_TICKS ticks *)



(** * Further properties of the code *)

(** ** The watcher: what every call preserves *)

(** A frame leaves the watcher as it is, or replaces the book of a known
    token and refreshes its cache, or (a frame with an entry that is not an
    object) replaces the book of a known token and does nothing more. *)
Lemma handleMessage_cases msg w :
  OrderbookWatcher.handleMessage msg w = (w, [])
  \/ (exists tokenId book book',
        asset_id msg = Some tokenId
        /\ OrderbookWatcher.books w !! tokenId = Some book
        /\ OrderbookWatcher.handleMessage msg w
           = OrderbookWatcher.updateBestPrices tokenId book'
               (OrderbookWatcher.withBook tokenId book' w))
  \/ (exists tokenId book book',
        asset_id msg = Some tokenId
        /\ OrderbookWatcher.books w !! tokenId = Some book
        /\ wellFormed msg = false
        /\ OrderbookWatcher.handleMessage msg w
           = (OrderbookWatcher.withBook tokenId book' w, [])).
Proof.
  unfold OrderbookWatcher.handleMessage, wellFormed.
  destruct (asset_id msg) as [tokenId|]; [|now left].
  destruct (String.eqb tokenId ""); [now left|].
  destruct (OrderbookWatcher.books w !! tokenId) as [book|] eqn:Hb; [|now left].
  destruct (body msg) as [asks0 bids0|changes| |asks0|asks0 bids0|changes];
    [right; left|right; left|now left|right; right..];
    exists tokenId, book; eexists; (split; [reflexivity|]);
    (split; [exact Hb|]); try (split; [reflexivity|]); reflexivity.
Qed.

Lemma updateBestPrices_data tokenId book w :
  let r := OrderbookWatcher.updateBestPrices tokenId book w in
  OrderbookWatcher.subscribedTokens (fst r) = OrderbookWatcher.subscribedTokens w
  /\ OrderbookWatcher.books (fst r) = OrderbookWatcher.books w
  /\ OrderbookWatcher.ws (fst r) = OrderbookWatcher.ws w
  /\ OrderbookWatcher.totalUpdates (fst r)
     = OrderbookWatcher.totalUpdates w + Z.of_nat (length (updates (snd r)))
  /\ frames (snd r) = [].
Proof.
  unfold OrderbookWatcher.updateBestPrices.
  destruct (not_null _ || not_null _); cbn; repeat split; lia.
Qed.

(** A predicate on the watcher that the socket state, the delay and the
    stop flag do not enter, and that the frames satisfying [Q] preserve, is
    preserved by a turn of the reconnect loop whose frames satisfy [Q]. *)
Lemma connectTurn_inv_on (Q : Msg -> Prop) (P : OrderbookWatcher.t -> Prop) :
  (forall w r, P w -> P (OrderbookWatcher.withSocket r w)) ->
  (forall w d, P w -> P (OrderbookWatcher.withDelay d w)) ->
  (forall w msg, Q msg -> P w -> P (fst (OrderbookWatcher.handleMessage msg w))) ->
  forall a w, Forall Q (msgsOf (WTurn a)) -> P w ->
              P (fst (OrderbookWatcher.connectTurn a w)).
Proof.
  intros Hs Hd Hm a w Hq Hw. unfold OrderbookWatcher.connectTurn.
  destruct (OrderbookWatcher.shouldRun w); [|exact Hw].
  assert (Hc : P (fst (OrderbookWatcher.connectOnce a w))).
  { unfold OrderbookWatcher.connectOnce. destruct a as [|msgs]; cbn [fst].
    - now apply Hs, Hs.
    - cbn [msgsOf] in Hq.
      assert (Hms : forall acc, P (fst acc) ->
                P (fst (OrderbookWatcher.handleMessages msgs acc))).
      { unfold OrderbookWatcher.handleMessages.
        induction Hq as [|msg msgs Hmsg Hq IH]; intros acc Hacc; cbn [fold_left];
          [exact Hacc|].
        apply IH. specialize (Hm (fst acc) msg Hmsg Hacc).
        now destruct (OrderbookWatcher.handleMessage msg (fst acc)). }
      specialize (Hms (OrderbookWatcher.onOpen
                         (OrderbookWatcher.withSocket (Some OPEN)
                            (OrderbookWatcher.withSocket (Some CONNECTING) w)))).
      destruct (OrderbookWatcher.handleMessages msgs _) as [w1 o].
      cbn [fst] in *. apply Hs, Hms. unfold OrderbookWatcher.onOpen. cbn [fst].
      now apply Hd, Hs, Hs. }
  destruct (OrderbookWatcher.connectOnce a w) as [w1 o]. cbn [fst] in *.
  destruct (OrderbookWatcher.shouldRun w1); cbn [fst]; [now apply Hd | exact Hc].
Qed.

Lemma Forall_True {A} (l : list A) : Forall (fun _ => True) l.
Proof. induction l; constructor; trivial. Qed.

Lemma connectTurn_inv (P : OrderbookWatcher.t -> Prop) :
  (forall w r, P w -> P (OrderbookWatcher.withSocket r w)) ->
  (forall w d, P w -> P (OrderbookWatcher.withDelay d w)) ->
  (forall w msg, P w -> P (fst (OrderbookWatcher.handleMessage msg w))) ->
  forall a w, P w -> P (fst (OrderbookWatcher.connectTurn a w)).
Proof.
  intros Hs Hd Hm a w Hw.
  apply (connectTurn_inv_on (fun _ => True) P Hs Hd); [|apply Forall_True|exact Hw].
  intros w0 msg _. apply Hm.
Qed.

Lemma addToken_fold ts :
  forall acc : OrderbookWatcher.t * list string,
    let r := fold_left OrderbookWatcher.addToken ts acc in
    OrderbookWatcher.ws (fst r) = OrderbookWatcher.ws (fst acc)
    /\ OrderbookWatcher.bestAsks (fst r) = OrderbookWatcher.bestAsks (fst acc)
    /\ OrderbookWatcher.bestBids (fst r) = OrderbookWatcher.bestBids (fst acc)
    /\ OrderbookWatcher.totalUpdates (fst r) = OrderbookWatcher.totalUpdates (fst acc)
    /\ OrderbookWatcher.reconnectDelay (fst r) = OrderbookWatcher.reconnectDelay (fst acc)
    /\ OrderbookWatcher.shouldRun (fst r) = OrderbookWatcher.shouldRun (fst acc).
Proof.
  induction ts as [|t ts IH]; intros acc; cbn [fold_left]; [repeat split|].
  destruct (IH (OrderbookWatcher.addToken acc t)) as (H1 & H2 & H3 & H4 & H5 & H6).
  cbn zeta. rewrite H1, H2, H3, H4, H5, H6.
  unfold OrderbookWatcher.addToken. destruct acc as [w new].
  destruct (bool_decide _); repeat split.
Qed.

(** [addMarkets] as one pass over the tokens of the markets. *)
Lemma addMarkets_tokens ms w :
  fold_left
    (fun acc m =>
       fold_left OrderbookWatcher.addToken [Market.yesTokenId m; Market.noTokenId m] acc)
    ms (w, [])
  = fold_left OrderbookWatcher.addToken (tokensOf ms) (w, []).
Proof.
  generalize (w, @nil string). unfold tokensOf.
  induction ms as [|m ms IH]; intros acc; cbn; [reflexivity | apply IH].
Qed.

Lemma removeMarkets_tokens ms w :
  OrderbookWatcher.removeMarkets ms w
  = fold_left OrderbookWatcher.removeToken (tokensOf ms) w.
Proof.
  unfold OrderbookWatcher.removeMarkets, tokensOf. revert w.
  induction ms as [|m ms IH]; intros w; cbn; [reflexivity | apply IH].
Qed.
Lemma updates_app out1 out2 : updates (out1 ++ out2) = updates out1 ++ updates out2.
Proof. apply omap_app. Qed.

Lemma sendSubscription_updates ts w :
  updates (OrderbookWatcher.sendSubscription ts w) = [].
Proof.
  unfold OrderbookWatcher.sendSubscription.
  now destruct (OrderbookWatcher.ws w) as [[]|].
Qed.

Lemma removeToken_fold ts :
  forall w,
    let w' := fold_left OrderbookWatcher.removeToken ts w in
    OrderbookWatcher.ws w' = OrderbookWatcher.ws w
    /\ OrderbookWatcher.totalUpdates w' = OrderbookWatcher.totalUpdates w
    /\ OrderbookWatcher.reconnectDelay w' = OrderbookWatcher.reconnectDelay w
    /\ OrderbookWatcher.shouldRun w' = OrderbookWatcher.shouldRun w.
Proof.
  induction ts as [|t ts IH]; intros w; cbn [fold_left]; [repeat split|].
  destruct (IH (OrderbookWatcher.removeToken w t)) as (H1 & H2 & H3 & H4).
  cbn zeta. rewrite H1, H2, H3, H4. repeat split.
Qed.

Lemma handleMessage_counts msg w :
  OrderbookWatcher.totalUpdates (fst (OrderbookWatcher.handleMessage msg w))
  = OrderbookWatcher.totalUpdates w
    + Z.of_nat (length (updates (snd (OrderbookWatcher.handleMessage msg w)))).
Proof.
  destruct (handleMessage_cases msg w)
    as [->|[(t & book & book' & _ & _ & ->)|(t & book & book' & _ & _ & _ & ->)]];
    [cbn; lia| |cbn; lia].
  destruct (updateBestPrices_data t book' (OrderbookWatcher.withBook t book' w))
    as (_ & _ & _ & H & _).
  exact H.
Qed.

Lemma handleMessages_counts msgs :
  forall acc : OrderbookWatcher.t * list WOut,
    let r := OrderbookWatcher.handleMessages msgs acc in
    OrderbookWatcher.totalUpdates (fst r) - Z.of_nat (length (updates (snd r)))
    = OrderbookWatcher.totalUpdates (fst acc) - Z.of_nat (length (updates (snd acc))).
Proof.
  unfold OrderbookWatcher.handleMessages.
  induction msgs as [|msg msgs IH]; intros acc; cbn [fold_left]; [reflexivity|].
  pose proof (handleMessage_counts msg (fst acc)) as H.
  destruct (OrderbookWatcher.handleMessage msg (fst acc)) as [w' o].
  cbn [fst snd] in *. cbn zeta in IH. rewrite IH. cbn [fst snd].
  rewrite updates_app, length_app. lia.
Qed.

Lemma watcherStep_counts w op :
  OrderbookWatcher.totalUpdates (fst (watcherStep w op))
  = OrderbookWatcher.totalUpdates w
    + Z.of_nat (length (updates (snd (watcherStep w op)))).
Proof.
  destruct op as [ms|ms|msg| |a|]; cbn [watcherStep].
  - unfold OrderbookWatcher.addMarkets. rewrite addMarkets_tokens.
    destruct (addToken_fold (tokensOf ms) (w, [])) as (_ & _ & _ & H & _).
    destruct (fold_left OrderbookWatcher.addToken (tokensOf ms) (w, [])) as [w' new].
    cbn [fst snd] in *. rewrite H.
    destruct (0 <? _); [rewrite sendSubscription_updates|]; cbn; lia.
  - rewrite removeMarkets_tokens.
    destruct (removeToken_fold (tokensOf ms) w) as (_ & H & _).
    cbn [fst snd]. rewrite H. cbn. lia.
  - apply handleMessage_counts.
  - unfold OrderbookWatcher.onOpen. cbn [fst snd].
    destruct (0 <? _); [rewrite sendSubscription_updates|]; cbn; lia.
  - unfold OrderbookWatcher.connectTurn.
    destruct (OrderbookWatcher.shouldRun w); [|cbn; lia].
    assert (Hc : OrderbookWatcher.totalUpdates (fst (OrderbookWatcher.connectOnce a w))
                 = OrderbookWatcher.totalUpdates w
                   + Z.of_nat (length (updates (snd (OrderbookWatcher.connectOnce a w))))).
    { unfold OrderbookWatcher.connectOnce. destruct a as [|msgs]; [cbn; lia|].
      pose proof (handleMessages_counts msgs
                    (OrderbookWatcher.onOpen
                       (OrderbookWatcher.withSocket (Some OPEN)
                          (OrderbookWatcher.withSocket (Some CONNECTING) w)))) as H.
      destruct (OrderbookWatcher.handleMessages msgs _) as [w1 o].
      cbn [fst snd] in *. unfold OrderbookWatcher.onOpen in H. cbn [fst snd] in H.
      destruct (0 <? _) in H; [rewrite sendSubscription_updates in H|];
        cbn in H; cbn; lia. }
    destruct (OrderbookWatcher.connectOnce a w) as [w1 o]. cbn [fst snd] in *.
    destruct (OrderbookWatcher.shouldRun w1); cbn [fst snd]; [|exact Hc].
    rewrite updates_app, length_app. cbn. lia.
  - cbn. lia.
Qed.

(** X1: [totalUpdates], the "Ticks" figure of the leaderboard, counts the
    calls of [onUpdate]: whatever happens to a watcher, it grows by exactly
    the number of [onUpdate] calls made meanwhile. *)
Theorem totalUpdates_counts_onUpdate (ops : list WatcherOp) (w : OrderbookWatcher.t) :
  OrderbookWatcher.getTotalUpdates (fst (watcherRun ops w))
  = OrderbookWatcher.getTotalUpdates w
    + Z.of_nat (length (updates (snd (watcherRun ops w)))).
Proof.
  unfold watcherRun, OrderbookWatcher.getTotalUpdates.
  assert (H : forall acc : OrderbookWatcher.t * list WOut,
             let r := fold_left
                        (fun acc op =>
                           let '(w', o) := watcherStep (fst acc) op in (w', snd acc ++ o))
                        ops acc in
             OrderbookWatcher.totalUpdates (fst r) - Z.of_nat (length (updates (snd r)))
             = OrderbookWatcher.totalUpdates (fst acc)
               - Z.of_nat (length (updates (snd acc)))).
  { induction ops as [|op ops IH]; intros acc; cbn [fold_left]; [reflexivity|].
    pose proof (watcherStep_counts (fst acc) op) as Hs.
    destruct (watcherStep (fst acc) op) as [w' o]. cbn [fst snd] in *.
    cbn zeta in IH. rewrite IH. cbn [fst snd]. rewrite updates_app, length_app. lia. }
  specialize (H (w, [])). cbn [fst snd] in H. cbn in H. lia.
Qed.

Lemma watcherRun_inv_on (Q : Msg -> Prop) (P : OrderbookWatcher.t -> Prop) :
  (forall w op, Forall Q (msgsOf op) -> P w -> P (fst (watcherStep w op))) ->
  forall ops w, Forall Q (List.concat (List.map msgsOf ops)) -> P w ->
                P (fst (watcherRun ops w)).
Proof.
  intros Hstep ops w Hq Hw. unfold watcherRun. generalize (@nil WOut).
  revert w Hq Hw.
  induction ops as [|op ops IH]; intros w Hq Hw out; cbn [fold_left fst snd];
    [exact Hw|].
  cbn [List.map List.concat] in Hq. apply Forall_app in Hq as [Hq1 Hq2].
  specialize (Hstep w op Hq1 Hw). destruct (watcherStep w op) as [w' o].
  now apply IH.
Qed.

Lemma watcherRun_inv (P : OrderbookWatcher.t -> Prop) :
  (forall w op, P w -> P (fst (watcherStep w op))) ->
  forall ops w, P w -> P (fst (watcherRun ops w)).
Proof.
  intros Hstep ops w Hw.
  apply (watcherRun_inv_on (fun _ => True) P); [|apply Forall_True|exact Hw].
  intros w0 op _. apply Hstep.
Qed.

Lemma watcherStep_inv_on (Q : Msg -> Prop) (P : OrderbookWatcher.t -> Prop) :
  (forall w r, P w -> P (OrderbookWatcher.withSocket r w)) ->
  (forall w d, P w -> P (OrderbookWatcher.withDelay d w)) ->
  (forall w, P w -> P (OrderbookWatcher.stop w)) ->
  (forall w msg, Q msg -> P w -> P (fst (OrderbookWatcher.handleMessage msg w))) ->
  (forall acc t, P (fst acc) -> P (fst (OrderbookWatcher.addToken acc t))) ->
  (forall w t, P w -> P (OrderbookWatcher.removeToken w t)) ->
  forall w op, Forall Q (msgsOf op) -> P w -> P (fst (watcherStep w op)).
Proof.
  intros Hs Hd Hstop Hm Ha Hr w op Hq Hw.
  destruct op as [ms|ms|msg| |a|]; cbn [watcherStep].
  - unfold OrderbookWatcher.addMarkets. rewrite addMarkets_tokens.
    assert (H : forall acc, P (fst acc) ->
              P (fst (fold_left OrderbookWatcher.addToken (tokensOf ms) acc))).
    { induction (tokensOf ms) as [|t ts IH]; intros acc Hacc; cbn [fold_left];
        [exact Hacc | now apply IH, Ha]. }
    specialize (H (w, []) Hw).
    now destruct (fold_left OrderbookWatcher.addToken (tokensOf ms) (w, [])).
  - rewrite removeMarkets_tokens. cbn [fst]. revert w Hw.
    induction (tokensOf ms) as [|t ts IH]; intros w Hw; cbn [fold_left];
      [exact Hw | now apply IH, Hr].
  - cbn [msgsOf] in Hq. apply Hm; [|exact Hw]. now inversion Hq.
  - unfold OrderbookWatcher.onOpen. cbn [fst]. now apply Hd, Hs.
  - now apply (connectTurn_inv_on Q).
  - cbn [fst]. now apply Hstop.
Qed.

Lemma watcherStep_inv (P : OrderbookWatcher.t -> Prop) :
  (forall w r, P w -> P (OrderbookWatcher.withSocket r w)) ->
  (forall w d, P w -> P (OrderbookWatcher.withDelay d w)) ->
  (forall w, P w -> P (OrderbookWatcher.stop w)) ->
  (forall w msg, P w -> P (fst (OrderbookWatcher.handleMessage msg w))) ->
  (forall acc t, P (fst acc) -> P (fst (OrderbookWatcher.addToken acc t))) ->
  (forall w t, P w -> P (OrderbookWatcher.removeToken w t)) ->
  forall w op, P w -> P (fst (watcherStep w op)).
Proof.
  intros Hs Hd Hstop Hm Ha Hr w op Hw.
  apply (watcherStep_inv_on (fun _ => True) P Hs Hd Hstop); try assumption;
    [|apply Forall_True].
  intros w0 msg _. apply Hm.
Qed.

Lemma updateBestPrices_asks_some tokenId book w t :
  is_Some (OrderbookWatcher.bestAsks
             (fst (OrderbookWatcher.updateBestPrices tokenId book w)) !! t) ->
  t = tokenId \/ is_Some (OrderbookWatcher.bestAsks w !! t).
Proof.
  rewrite updateBestPrices_asks.
  destruct (OrderBook.getBestAsk book); [|now right].
  destruct (decide (tokenId = t)); [now left | now right].
Qed.

Lemma updateBestPrices_bids_some tokenId book w t :
  is_Some (OrderbookWatcher.bestBids
             (fst (OrderbookWatcher.updateBestPrices tokenId book w)) !! t) ->
  t = tokenId \/ is_Some (OrderbookWatcher.bestBids w !! t).
Proof.
  rewrite updateBestPrices_bids.
  destruct (OrderBook.getBestBid book); [|now right].
  destruct (decide (tokenId = t)); [now left | now right].
Qed.

Lemma handleMessage_subscription_ok w msg :
  subscription_ok w -> subscription_ok (fst (OrderbookWatcher.handleMessage msg w)).
Proof.
  intros (Hnd & Hbook & Hcache).
  destruct (handleMessage_cases msg w)
    as [->|[(tok & book & book' & _ & Hb & ->)|(tok & book & book' & _ & Hb & _ & ->)]];
    [exact (conj Hnd (conj Hbook Hcache))| |].
  - destruct (updateBestPrices_data tok book' (OrderbookWatcher.withBook tok book' w))
      as (Ht & Hbk & _).
    assert (Hsub : tok ∈ OrderbookWatcher.subscribedTokens w)
      by (apply Hbook; rewrite Hb; eauto).
    unfold subscription_ok. rewrite Ht, Hbk. cbn.
    split; [exact Hnd|]. split.
    + intros t. rewrite lookup_insert_is_Some'. split.
      * intros H. right. now apply Hbook.
      * intros [<-|H]; [exact Hsub | now apply Hbook].
    + intros t [H|H].
      * apply updateBestPrices_asks_some in H as [->|H]; [exact Hsub|].
        apply Hcache. now left.
      * apply updateBestPrices_bids_some in H as [->|H]; [exact Hsub|].
        apply Hcache. now right.
  - assert (Hsub : tok ∈ OrderbookWatcher.subscribedTokens w)
      by (apply Hbook; rewrite Hb; eauto).
    unfold subscription_ok. cbn.
    split; [exact Hnd|]. split; [|exact Hcache].
    intros t. rewrite lookup_insert_is_Some'. split.
    + intros H. right. now apply Hbook.
    + intros [<-|H]; [exact Hsub | now apply Hbook].
Qed.

Lemma addToken_subscription_ok acc t :
  subscription_ok (fst acc) -> subscription_ok (fst (OrderbookWatcher.addToken acc t)).
Proof.
  destruct acc as [w new]. intros (Hnd & Hbook & Hcache).
  unfold OrderbookWatcher.addToken. cbn [fst].
  destruct (bool_decide_reflect (t ∈ OrderbookWatcher.subscribedTokens w)) as [Hin|Hnin];
    [exact (conj Hnd (conj Hbook Hcache))|].
  unfold subscription_ok. cbn. split; [|split].
  - apply NoDup_app. split; [exact Hnd|]. split; [|apply NoDup_singleton].
    intros x Hx Hx'. apply list_elem_of_singleton in Hx'. now subst.
  - intros x. rewrite elem_of_app, list_elem_of_singleton, lookup_insert_is_Some'.
    rewrite Hbook. split; intros [H|H]; auto.
  - intros x Hx. apply elem_of_app. left. now apply Hcache.
Qed.

Lemma removeToken_subscription_ok w t :
  subscription_ok w -> subscription_ok (OrderbookWatcher.removeToken w t).
Proof.
  intros (Hnd & Hbook & Hcache). unfold subscription_ok. cbn.
  assert (Hf : forall x,
            x ∈ List.filter (fun x => negb (String.eqb x t))
                  (OrderbookWatcher.subscribedTokens w)
            <-> x <> t /\ x ∈ OrderbookWatcher.subscribedTokens w).
  { intros x. rewrite !list_elem_of_In, List.filter_In.
    destruct (String.eqb_spec x t); cbn; split; intros [H1 H2];
      try split; try congruence; auto. }
  split; [|split].
  - clear -Hnd. induction Hnd as [|x l Hx Hnd IH]; cbn; [constructor|].
    destruct (negb (String.eqb x t)); [|exact IH].
    constructor; [|exact IH]. intros H. apply Hx.
    apply list_elem_of_In in H. apply List.filter_In in H as [H _].
    now apply list_elem_of_In.
  - intros x. rewrite Hf, lookup_delete_is_Some, Hbook. split; intros [H1 H2]; auto.
  - intros x [H|H]; apply lookup_delete_is_Some in H as [Hne H]; apply Hf;
      (split; [congruence|]); apply Hcache; [now left | now right].
Qed.

(** X2: in every state that a new watcher reaches, [subscribedTokens]
    holds no token twice, a token has an order book exactly when it is
    subscribed, and a best ask or best bid is cached only for a subscribed
    token. *)
Theorem watcher_subscription_ok (ops : list WatcherOp) :
  subscription_ok (fst (watcherRun ops OrderbookWatcher.new)).
Proof.
  apply watcherRun_inv.
  - apply watcherStep_inv; try (intros w x H; exact H); try (intros w H; exact H).
    + apply handleMessage_subscription_ok.
    + apply addToken_subscription_ok.
    + apply removeToken_subscription_ok.
  - unfold subscription_ok. cbn. split; [constructor|]. split.
    + intros t. rewrite lookup_empty. split; [intros H; inversion H | intros [x [=]]].
    + intros t. rewrite !lookup_empty. intros [[x [=]]|[x [=]]].
Qed.

Lemma handleMessage_cache_fresh w msg :
  wellFormed msg = true ->
  cache_fresh w -> cache_fresh (fst (OrderbookWatcher.handleMessage msg w)).
Proof.
  intros Hwf Hc.
  destruct (handleMessage_cases msg w)
    as [->|[(tok & book & book' & _ & Hb & ->)|(tok & book & book' & _ & _ & Hbad & _)]];
    [exact Hc| |congruence].
  destruct (updateBestPrices_data tok book' (OrderbookWatcher.withBook tok book' w))
    as (_ & Hbk & _).
  intros t b. rewrite Hbk, updateBestPrices_asks, updateBestPrices_bids. cbn.
  destruct (decide (tok = t)) as [->|Hne].
  - rewrite lookup_insert_eq. intros [= <-].
    split; intros x Hx; rewrite Hx; reflexivity.
  - rewrite lookup_insert_ne by exact Hne. intros Hbt.
    destruct (Hc t b Hbt) as [Ha Hbid].
    split; intros x Hx.
    + destruct (OrderBook.getBestAsk book'); now apply Ha.
    + destruct (OrderBook.getBestBid book'); now apply Hbid.
Qed.

Lemma addToken_cache_fresh acc t :
  cache_fresh (fst acc) -> cache_fresh (fst (OrderbookWatcher.addToken acc t)).
Proof.
  destruct acc as [w new]. intros Hc. unfold OrderbookWatcher.addToken. cbn [fst].
  destruct (bool_decide _); [exact Hc|].
  intros x b. cbn. destruct (decide (t = x)) as [->|Hne].
  - rewrite lookup_insert_eq. intros [= <-]. split; intros y Hy; discriminate Hy.
  - rewrite lookup_insert_ne by exact Hne. apply Hc.
Qed.

Lemma removeToken_cache_fresh w t :
  cache_fresh w -> cache_fresh (OrderbookWatcher.removeToken w t).
Proof.
  intros Hc x b. cbn. intros Hb. apply lookup_delete_Some in Hb as [Hne Hb].
  rewrite !lookup_delete_ne by exact Hne. now apply Hc.
Qed.

(** X3: in every state that a new watcher reaches through calls whose
    frame elements are all well formed (every entry of their arrays is an
    object, so that [handleMessage] runs to its end), the cache is fresh
    wherever the book has a price: when the order book of a token has a
    best ask (best bid), [getBestAsk] ([getBestBid]) of the watcher returns
    that very price. *)
Theorem watcher_cache_fresh
    (ops : list WatcherOp) (tokenId : string) (book : OrderBook.t) :
  Forall (fun msg => wellFormed msg = true) (List.concat (List.map msgsOf ops)) ->
  OrderbookWatcher.books (fst (watcherRun ops OrderbookWatcher.new)) !! tokenId
    = Some book ->
  (forall a, OrderBook.getBestAsk book = Some a ->
             OrderbookWatcher.getBestAsk tokenId
               (fst (watcherRun ops OrderbookWatcher.new)) = Some a)
  /\ (forall b, OrderBook.getBestBid book = Some b ->
                OrderbookWatcher.getBestBid tokenId
                  (fst (watcherRun ops OrderbookWatcher.new)) = Some b).
Proof.
  intros Hwf. revert tokenId book.
  change (cache_fresh (fst (watcherRun ops OrderbookWatcher.new))).
  apply (watcherRun_inv_on (fun msg => wellFormed msg = true)); [|exact Hwf|].
  - apply watcherStep_inv_on; try (intros w x H; exact H); try (intros w H; exact H).
    + intros w msg Hmsg. now apply handleMessage_cache_fresh.
    + apply addToken_cache_fresh.
    + apply removeToken_cache_fresh.
  - intros t b Hb. cbn in Hb. now rewrite lookup_empty in Hb.
Qed.

(** A frame whose bids hold an entry that is not an object, after asks
    that are fine: the book takes the new ask, the cache keeps the old
    one. *)
Example malformed_frame_stale_cache :
  let w := fst (watcherRun [WAdd [sampleMarket]; WFrame msgAsk;
                            WFrame (mkMsg (Some "tok-up")
                                      (EvBookBadBids [mkLevel 0.3 10] []))]
                  OrderbookWatcher.new) in
  (exists book, OrderbookWatcher.books w !! "tok-up" = Some book
                /\ OrderBook.getBestAsk book = Some 0.3%float)
  /\ OrderbookWatcher.getBestAsk "tok-up" w = Some 0.4%float.
Proof.
  cbn zeta. split; [eexists; split|]; vm_compute; reflexivity.
Qed.

(** ** More on the comparison of binary64 numbers *)

Lemma SFcompare_eq_inv a b :
  SFcompare a b = Some Eq ->
  a = b \/ exists s s', a = S754_zero s /\ b = S754_zero s'.
Proof.
  destruct a as [sa|sa| |sa ma ea], b as [sb|sb| |sb mb eb]; cbn;
    try discriminate; try (intros _; right; eauto; fail);
    repeat match goal with s : bool |- _ => destruct s end;
    cbn; try discriminate; try (intros _; left; reflexivity).
  all: rewrite Pos.compare_cont_spec; cbn;
    destruct (Z.compare_spec ea eb); try discriminate; subst;
    destruct (Pos.compare_spec ma mb); cbn; try discriminate; subst; now left.
Qed.

Lemma eqb_ltb_l x y z : PrimFloat.eqb x y = true -> PrimFloat.ltb x z = PrimFloat.ltb y z.
Proof.
  rewrite FloatAxioms.eqb_spec, !FloatAxioms.ltb_spec. unfold SFeqb, SFltb.
  destruct (SFcompare (Prim2SF x) (Prim2SF y)) as [[]|] eqn:E; try discriminate.
  intros _. apply SFcompare_eq_inv in E as [->|(s & s' & -> & ->)]; [reflexivity|].
  now rewrite (SFcompare_zero_l s), (SFcompare_zero_l s').
Qed.

Lemma eqb_ltb_r x y z : PrimFloat.eqb x y = true -> PrimFloat.ltb z x = PrimFloat.ltb z y.
Proof.
  rewrite FloatAxioms.eqb_spec, !FloatAxioms.ltb_spec. unfold SFeqb, SFltb.
  destruct (SFcompare (Prim2SF x) (Prim2SF y)) as [[]|] eqn:E; try discriminate.
  intros _. apply SFcompare_eq_inv in E as [->|(s & s' & -> & ->)]; [reflexivity|].
  now rewrite (SFcompare_zero_r s), (SFcompare_zero_r s').
Qed.

Lemma eqb_zero_l x : PrimFloat.eqb x PrimFloat.zero = true -> PrimFloat.eqb PrimFloat.zero x = true.
Proof.
  intros H. apply eqb_zero_inv in H as [s Hs].
  rewrite FloatAxioms.eqb_spec, Hs. reflexivity.
Qed.

(** The key that [set] stores for [k] is [k] itself as far as [Map] and
    [<] can tell. *)
Lemma same_value_zero_norm_key k : JsNum.same_value_zero (JsNum.norm_key k) k = true.
Proof.
  unfold JsNum.same_value_zero, JsNum.norm_key.
  destruct (PrimFloat.eqb k PrimFloat.zero) eqn:E.
  - now rewrite (eqb_zero_l k E).
  - unfold is_nan. now destruct (PrimFloat.eqb k k).
Qed.

Lemma ltb_norm_key_l k x : PrimFloat.ltb (JsNum.norm_key k) x = PrimFloat.ltb k x.
Proof.
  unfold JsNum.norm_key. destruct (PrimFloat.eqb k PrimFloat.zero) eqn:E; [|reflexivity].
  symmetry. now apply eqb_ltb_l.
Qed.

Lemma ltb_norm_key_r k x : PrimFloat.ltb x (JsNum.norm_key k) = PrimFloat.ltb x k.
Proof.
  unfold JsNum.norm_key. destruct (PrimFloat.eqb k PrimFloat.zero) eqn:E; [|reflexivity].
  symmetry. now apply eqb_ltb_r.
Qed.

Lemma ltb_not_nan_l x y : PrimFloat.ltb x y = true -> PrimFloat.eqb x x = true.
Proof.
  rewrite FloatAxioms.ltb_spec, FloatAxioms.eqb_spec. unfold SFltb, SFeqb.
  destruct (Prim2SF x) as [s|s| |s m e], (Prim2SF y) as [s'|s'| |s' m' e'];
    cbn; try discriminate; intros _; try reflexivity.
  all: destruct s; try reflexivity.
  all: now rewrite Z.compare_refl, Pos.compare_cont_spec, Pos.compare_refl.
Qed.

Lemma ltb_not_nan_r x y : PrimFloat.ltb x y = true -> PrimFloat.eqb y y = true.
Proof.
  rewrite FloatAxioms.ltb_spec, FloatAxioms.eqb_spec. unfold SFltb, SFeqb.
  destruct (Prim2SF x) as [s|s| |s m e], (Prim2SF y) as [s'|s'| |s' m' e'];
    cbn; try discriminate; intros _; try reflexivity.
  all: destruct s'; try reflexivity.
  all: now rewrite Z.compare_refl, Pos.compare_cont_spec, Pos.compare_refl.
Qed.

(** A key that [Map] identifies with a number [p] (not NaN) compares with
    every number as [p] does. *)
Lemma same_value_zero_ltb k p :
  JsNum.same_value_zero k p = true -> PrimFloat.eqb p p = true ->
  (forall x, PrimFloat.ltb k x = PrimFloat.ltb p x)
  /\ (forall x, PrimFloat.ltb x k = PrimFloat.ltb x p).
Proof.
  unfold JsNum.same_value_zero, is_nan. intros H Hp. rewrite Hp in H. cbn in H.
  rewrite andb_false_r, orb_false_r in H.
  split; intros x; [now apply eqb_ltb_l | now apply eqb_ltb_r].
Qed.


(** ** The order book: levels and best prices *)

Lemma NumMap_set_keeps k v m k0 :
  In k0 (NumMap.keys m) -> In k0 (NumMap.keys (NumMap.set k v m)).
Proof.
  induction m as [|[k' v'] m IH]; cbn; [intros []|].
  destruct (JsNum.same_value_zero k' k); cbn; [tauto|].
  intros [H|H]; [now left | right; now apply IH].
Qed.

Lemma NumMap_set_has k v m :
  exists k', In k' (NumMap.keys (NumMap.set k v m))
             /\ JsNum.same_value_zero k' k = true.
Proof.
  induction m as [|[k' v'] m IH]; cbn.
  - exists (JsNum.norm_key k). split; [now left | apply same_value_zero_norm_key].
  - destruct (JsNum.same_value_zero k' k) eqn:E; cbn.
    + exists k'. split; [now left | exact E].
    + destruct IH as (k0 & Hin & Hk0). exists k0. split; [now right | exact Hk0].
Qed.

Lemma NumMap_set_fresh k v m :
  (forall k', In k' (NumMap.keys m) -> JsNum.same_value_zero k' k = false) ->
  NumMap.set k v m = m ++ [(JsNum.norm_key k, v)].
Proof.
  induction m as [|[k' v'] m IH]; cbn; intros H; [reflexivity|].
  rewrite (H k') by now left. rewrite IH; [reflexivity|].
  intros k0 Hk0. apply H. now right.
Qed.

Lemma NumMap_delete_fresh k v m :
  (forall k', In k' (NumMap.keys m) -> JsNum.same_value_zero k' k = false) ->
  NumMap.delete k (m ++ [(JsNum.norm_key k, v)]) = m.
Proof.
  unfold NumMap.delete. induction m as [|[k' v'] m IH]; cbn; intros H.
  - now rewrite same_value_zero_norm_key.
  - rewrite (H k') by now left. cbn. rewrite IH; [reflexivity|].
    intros k0 Hk0. apply H. now right.
Qed.

Lemma setLevels_keys ls :
  forall m k,
    In k (NumMap.keys (OrderBook.setLevels ls m)) ->
    In k (NumMap.keys m)
    \/ exists l, In l ls /\ JsNum.gt (lv_size l) PrimFloat.zero = true
                 /\ k = JsNum.norm_key (lv_price l).
Proof.
  unfold OrderBook.setLevels.
  induction ls as [|l ls IH]; intros m k; cbn [fold_left]; [now left|].
  intros H. apply IH in H as [H|(l' & Hin & Hpos & ->)].
  - destruct (JsNum.gt (lv_size l) PrimFloat.zero) eqn:E; [|now left].
    apply NumMap_set_keys in H as [->|H]; [|now left].
    right. exists l. repeat split; [now left | exact E].
  - right. exists l'. repeat split; [now right | exact Hpos].
Qed.

Lemma setLevels_keeps ls :
  forall m k, In k (NumMap.keys m) -> In k (NumMap.keys (OrderBook.setLevels ls m)).
Proof.
  unfold OrderBook.setLevels.
  induction ls as [|l ls IH]; intros m k H; cbn [fold_left]; [exact H|].
  apply IH. destruct (JsNum.gt (lv_size l) PrimFloat.zero); [|exact H].
  now apply NumMap_set_keeps.
Qed.

Lemma setLevels_has ls :
  forall m l,
    In l ls -> JsNum.gt (lv_size l) PrimFloat.zero = true ->
    exists k, In k (NumMap.keys (OrderBook.setLevels ls m))
              /\ JsNum.same_value_zero k (lv_price l) = true.
Proof.
  induction ls as [|l0 ls IH]; intros m l Hin Hpos; [destruct Hin|].
  destruct Hin as [->|Hin].
  - unfold OrderBook.setLevels. cbn [fold_left]. rewrite Hpos.
    destruct (NumMap_set_has (lv_price l) (lv_size l) m) as (k & Hk & Hs).
    exists k. split; [|exact Hs]. now apply (setLevels_keeps ls).
  - unfold OrderBook.setLevels. cbn [fold_left]. now apply IH.
Qed.

(** What the loop of [getBestAsk] answers, read on prices [ps] that the
    keys stand for: every key is (the stored form of) one of [ps], and
    every one of [ps] has a key that [Map] identifies with it. *)
Lemma lowest_of_prices (ks ps : list float) (r : option float) :
  is_lowest ks r ->
  (forall k, In k ks -> exists p, In p ps /\ k = JsNum.norm_key p) ->
  (forall p, In p ps -> exists k, In k ks /\ JsNum.same_value_zero k p = true) ->
  match r with
  | Some a => (exists p, In p ps /\ a = JsNum.norm_key p)
              /\ forall p, In p ps -> JsNum.lt p a = false
  | None => forall p, In p ps -> JsNum.lt p PrimFloat.infinity = false
  end.
Proof.
  unfold JsNum.lt. intros Hlow Hsub Hsup.
  assert (Hcmp : forall p x, In p ps ->
            (forall q, In q ks -> PrimFloat.ltb q x = false) ->
            PrimFloat.ltb p x = false).
  { intros p x Hp Hall. destruct (PrimFloat.ltb p x) eqn:E; [|reflexivity].
    destruct (Hsup p Hp) as (k & Hk & Hs).
    destruct (same_value_zero_ltb k p Hs (ltb_not_nan_l p x E)) as [Hl _].
    rewrite <- Hl, (Hall k Hk) in E. discriminate E. }
  destruct r as [a|].
  - destruct Hlow as [Hin Hmin]. split; [now apply Hsub|].
    intros p Hp. now apply Hcmp.
  - intros p Hp. now apply Hcmp.
Qed.

Lemma highest_of_prices (ks ps : list float) (r : option float) :
  is_highest ks r ->
  (forall k, In k ks -> exists p, In p ps /\ k = JsNum.norm_key p) ->
  (forall p, In p ps -> exists k, In k ks /\ JsNum.same_value_zero k p = true) ->
  match r with
  | Some a => (exists p, In p ps /\ a = JsNum.norm_key p)
              /\ forall p, In p ps -> JsNum.gt p a = false
  | None => forall p, In p ps -> JsNum.gt p PrimFloat.neg_infinity = false
  end.
Proof.
  unfold JsNum.gt. intros Hlow Hsub Hsup.
  assert (Hcmp : forall p x, In p ps ->
            (forall q, In q ks -> PrimFloat.ltb x q = false) ->
            PrimFloat.ltb x p = false).
  { intros p x Hp Hall. destruct (PrimFloat.ltb x p) eqn:E; [|reflexivity].
    destruct (Hsup p Hp) as (k & Hk & Hs).
    destruct (same_value_zero_ltb k p Hs (ltb_not_nan_r x p E)) as [_ Hr].
    rewrite <- Hr, (Hall k Hk) in E. discriminate E. }
  destruct r as [a|].
  - destruct Hlow as [Hin Hmin]. split; [now apply Hsub|].
    intros p Hp. now apply Hcmp.
  - intros p Hp. now apply Hcmp.
Qed.

Lemma positivePrices_in p levels :
  In p (positivePrices levels)
  <-> exists l, In l levels /\ JsNum.gt (lv_size l) PrimFloat.zero = true
                /\ p = lv_price l.
Proof.
  unfold positivePrices. rewrite in_map_iff. split.
  - intros (l & <- & Hl). apply List.filter_In in Hl as [Hin Hpos]. eauto.
  - intros (l & Hin & Hpos & ->). exists l. split; [reflexivity|].
    apply List.filter_In. now split.
Qed.

(** X4: after a [book] snapshot the best ask is the lowest price among the
    ask levels of the message that carry a size > 0 (null when none of
    them is below Infinity, so when there is none), and the best bid the
    highest price among such bid levels; levels of size 0, of negative
    size or of unreadable size do not count. *)
Theorem applySnapshot_best_prices
    (asks0 bids0 : list Level) (b : OrderBook.t) :
  match OrderBook.getBestAsk (OrderBook.applySnapshot asks0 bids0 b) with
  | Some a => (exists p, In p (positivePrices asks0) /\ a = JsNum.norm_key p)
              /\ forall p, In p (positivePrices asks0) -> JsNum.lt p a = false
  | None => forall p, In p (positivePrices asks0) ->
                      JsNum.lt p PrimFloat.infinity = false
  end
  /\ match OrderBook.getBestBid (OrderBook.applySnapshot asks0 bids0 b) with
     | Some d => (exists p, In p (positivePrices bids0) /\ d = JsNum.norm_key p)
                 /\ forall p, In p (positivePrices bids0) -> JsNum.gt p d = false
     | None => forall p, In p (positivePrices bids0) ->
                         JsNum.gt p PrimFloat.neg_infinity = false
     end.
Proof.
  split.
  - apply (lowest_of_prices
             (NumMap.keys (OrderBook.asks (OrderBook.applySnapshot asks0 bids0 b)))).
    + apply getBestAsk_lowest.
    + intros k Hk. cbn in Hk. apply setLevels_keys in Hk as [[]|(l & Hin & Hpos & ->)].
      exists (lv_price l). split; [|reflexivity]. apply positivePrices_in. eauto.
    + intros p Hp. apply positivePrices_in in Hp as (l & Hin & Hpos & ->).
      apply (setLevels_has asks0 NumMap.empty l Hin Hpos).
  - apply (highest_of_prices
             (NumMap.keys (OrderBook.bids (OrderBook.applySnapshot asks0 bids0 b)))).
    + apply getBestBid_highest.
    + intros k Hk. cbn in Hk. apply setLevels_keys in Hk as [[]|(l & Hin & Hpos & ->)].
      exists (lv_price l). split; [|reflexivity]. apply positivePrices_in. eauto.
    + intros p Hp. apply positivePrices_in in Hp as (l & Hin & Hpos & ->).
      apply (setLevels_has bids0 NumMap.empty l Hin Hpos).
Qed.

Lemma applyChange_sell p sz b :
  JsNum.strict_eq sz PrimFloat.zero = false ->
  OrderBook.applyChange p "SELL" sz b
  = OrderBook.mk (NumMap.set p sz (OrderBook.asks b)) (OrderBook.bids b).
Proof. intros H. unfold OrderBook.applyChange. cbn. now rewrite H. Qed.

Lemma applyChange_buy p sz b :
  JsNum.strict_eq sz PrimFloat.zero = false ->
  OrderBook.applyChange p "BUY" sz b
  = OrderBook.mk (OrderBook.asks b) (NumMap.set p sz (OrderBook.bids b)).
Proof. intros H. unfold OrderBook.applyChange. cbn. now rewrite H. Qed.

(** X5: a price change that puts a size other than 0 at price [p] makes
    [p] count for the best price at once: after a SELL at a [p] below
    Infinity the book has a best ask and it is not above [p]; after a BUY
    at a [p] above -Infinity it has a best bid and it is not below [p]. *)
Theorem applyChange_bounds_best (p sz : float) (b : OrderBook.t) :
  JsNum.strict_eq sz PrimFloat.zero = false ->
  (JsNum.lt p PrimFloat.infinity = true ->
   exists a, OrderBook.getBestAsk (OrderBook.applyChange p "SELL" sz b) = Some a
             /\ JsNum.lt p a = false)
  /\ (JsNum.gt p PrimFloat.neg_infinity = true ->
      exists d, OrderBook.getBestBid (OrderBook.applyChange p "BUY" sz b) = Some d
                /\ JsNum.gt p d = false).
Proof.
  intros Hsz. split; intros Hp.
  - pose proof (getBestAsk_lowest (OrderBook.applyChange p "SELL" sz b)) as Hlow.
    rewrite (applyChange_sell p sz b Hsz) in *.
    destruct (NumMap_set_has p sz (OrderBook.asks b)) as (k & Hk & Hs).
    destruct (same_value_zero_ltb k p Hs (ltb_not_nan_l _ _ Hp)) as [Hl _].
    destruct (OrderBook.getBestAsk _) as [a|].
    + exists a. split; [reflexivity|]. destruct Hlow as [_ Hmin].
      unfold JsNum.lt in *. rewrite <- Hl. now apply Hmin.
    + specialize (Hlow k Hk). unfold JsNum.lt in *. rewrite Hl in Hlow. congruence.
  - pose proof (getBestBid_highest (OrderBook.applyChange p "BUY" sz b)) as Hhigh.
    rewrite (applyChange_buy p sz b Hsz) in *.
    destruct (NumMap_set_has p sz (OrderBook.bids b)) as (k & Hk & Hs).
    destruct (same_value_zero_ltb k p Hs (ltb_not_nan_r _ _ Hp)) as [_ Hr].
    destruct (OrderBook.getBestBid _) as [d|].
    + exists d. split; [reflexivity|]. destruct Hhigh as [_ Hmax].
      unfold JsNum.gt in *. rewrite <- Hr. now apply Hmax.
    + specialize (Hhigh k Hk). unfold JsNum.gt in *. rewrite Hr in Hhigh. congruence.
Qed.

Lemma applyChange_bounds_best_witness :
  exists a,
    OrderBook.getBestAsk
      (OrderBook.applyChange 0.47 "SELL" 10
         (OrderBook.applySnapshot [mkLevel 0.5 1; mkLevel 0.52 3] [] OrderBook.new))
    = Some a
    /\ JsNum.lt 0.47 a = false.
Proof.
  destruct (applyChange_bounds_best 0.47 10
              (OrderBook.applySnapshot [mkLevel 0.5 1; mkLevel 0.52 3] [] OrderBook.new))
    as [H _]; [reflexivity|].
  apply H. reflexivity.
Defined.

(** X6: adding a level and deleting it again leaves the book as it was:
    when no ask (bid) is stored at price [p], a SELL (BUY) of a size other
    than 0 at [p] followed by a SELL (BUY) of size 0 at [p] gives back the
    same book, order of the levels included. *)
Theorem applyChange_add_then_delete (p sz : float) (b : OrderBook.t) :
  JsNum.strict_eq sz PrimFloat.zero = false ->
  ((forall k, In k (NumMap.keys (OrderBook.asks b)) ->
              JsNum.same_value_zero k p = false) ->
   OrderBook.applyChange p "SELL" 0 (OrderBook.applyChange p "SELL" sz b) = b)
  /\ ((forall k, In k (NumMap.keys (OrderBook.bids b)) ->
                 JsNum.same_value_zero k p = false) ->
      OrderBook.applyChange p "BUY" 0 (OrderBook.applyChange p "BUY" sz b) = b).
Proof.
  intros Hsz. destruct b as [a d].
  rewrite (applyChange_sell p sz _ Hsz), (applyChange_buy p sz _ Hsz).
  cbn [OrderBook.asks OrderBook.bids]. split; intros Hfresh.
  - change (OrderBook.applyChange p "SELL" 0
              (OrderBook.mk (NumMap.set p sz a) d))
      with (OrderBook.mk (NumMap.delete p (NumMap.set p sz a)) d).
    now rewrite (NumMap_set_fresh p sz a Hfresh), (NumMap_delete_fresh p sz a Hfresh).
  - change (OrderBook.applyChange p "BUY" 0
              (OrderBook.mk a (NumMap.set p sz d)))
      with (OrderBook.mk a (NumMap.delete p (NumMap.set p sz d))).
    now rewrite (NumMap_set_fresh p sz d Hfresh), (NumMap_delete_fresh p sz d Hfresh).
Qed.

Lemma applyChange_add_then_delete_witness :
  let b := OrderBook.applySnapshot [mkLevel 0.5 1; mkLevel 0.52 3] [mkLevel 0.4 2]
             OrderBook.new in
  OrderBook.applyChange 0.47 "SELL" 0 (OrderBook.applyChange 0.47 "SELL" 10 b) = b.
Proof.
  destruct (applyChange_add_then_delete 0.47 10
              (OrderBook.applySnapshot [mkLevel 0.5 1; mkLevel 0.52 3] [mkLevel 0.4 2]
                 OrderBook.new)) as [H _]; [reflexivity|].
  apply H. intros k Hk. cbn in Hk. destruct Hk as [<-|[<-|[]]]; reflexivity.
Defined.

(** ** The watcher: subscribing, unsubscribing, stopping *)

Lemma addToken_fold_spec ts :
  forall (w : OrderbookWatcher.t) (n0 : list string),
    exists new,
      snd (fold_left OrderbookWatcher.addToken ts (w, n0)) = n0 ++ new
      /\ OrderbookWatcher.subscribedTokens
           (fst (fold_left OrderbookWatcher.addToken ts (w, n0)))
         = OrderbookWatcher.subscribedTokens w ++ new
      /\ NoDup new
      /\ (forall t, t ∈ new <-> t ∈ ts /\ t ∉ OrderbookWatcher.subscribedTokens w)
      /\ (forall t,
            OrderbookWatcher.books
              (fst (fold_left OrderbookWatcher.addToken ts (w, n0))) !! t
            = if decide (t ∈ new) then Some OrderBook.new
              else OrderbookWatcher.books w !! t).
Proof.
  induction ts as [|t ts IH]; intros w n0; cbn [fold_left].
  - exists []. rewrite !app_nil_r.
    split; [reflexivity|]. split; [reflexivity|]. split; [constructor|]. split.
    + intros t. split; [intros Hx; inversion Hx | intros [Hx _]; inversion Hx].
    + intros t. rewrite decide_False; [reflexivity | intros Hx; inversion Hx].
  - unfold OrderbookWatcher.addToken at 2 4 6.
    destruct (bool_decide_reflect (t ∈ OrderbookWatcher.subscribedTokens w)) as [Hin|Hnin].
    + destruct (IH w n0) as (new & H1 & H2 & H3 & H4 & H5).
      exists new. split; [exact H1|]. split; [exact H2|]. split; [exact H3|].
      split; [|exact H5].
      intros x. rewrite H4, elem_of_cons.
      split; [intros [Hx Hn]; tauto | intros [[->|Hx] Hn]; [contradiction | tauto]].
    + destruct (IH (OrderbookWatcher.mk (OrderbookWatcher.ws w)
                      (<[t := OrderBook.new]> (OrderbookWatcher.books w))
                      (OrderbookWatcher.bestAsks w) (OrderbookWatcher.bestBids w)
                      (OrderbookWatcher.subscribedTokens w ++ [t])
                      (OrderbookWatcher.reconnectDelay w) (OrderbookWatcher.shouldRun w)
                      (OrderbookWatcher.totalUpdates w)) (n0 ++ [t]))
        as (new & H1 & H2 & H3 & H4 & H5).
      cbn in H2, H4, H5.
      assert (Htn : t ∉ new).
      { intros H. apply H4 in H as [_ H]. apply H, elem_of_app. right. now left. }
      exists (t :: new). rewrite H1, H2, <- !app_assoc. cbn.
      split; [reflexivity|]. split; [reflexivity|].
      split; [now constructor|]. split.
      * intros x. rewrite !elem_of_cons, H4, elem_of_app, list_elem_of_singleton.
        split.
        -- intros [->|[Hx Hn]]; [tauto|]. split; [now right | tauto].
        -- intros [[->|Hx] Hn]; [now left|].
           destruct (decide (x = t)) as [->|Hne]; [now left | right; tauto].
      * intros x. rewrite H5.
        destruct (decide (x ∈ new)) as [Hx|Hx].
        -- rewrite decide_True by (now right). reflexivity.
        -- destruct (decide (x = t)) as [->|Hne].
           ++ rewrite decide_True by (now left). apply lookup_insert_eq.
           ++ rewrite decide_False by (rewrite elem_of_cons; tauto).
              now rewrite lookup_insert_ne.
Qed.

(** X7: [addMarkets] subscribes each token of the markets that is not
    subscribed yet, once and in order: these tokens are appended to
    [subscribedTokens] and each gets an empty book; they are sent in one
    frame when the socket is open, and no frame is sent when it is not or
    when there is no such token; a token already subscribed keeps its book
    and its cached prices and is not sent again. *)
Theorem addMarkets_subscribes_new_tokens (ms : list Market.t) (w : OrderbookWatcher.t) :
  exists new : list string,
    OrderbookWatcher.subscribedTokens (fst (OrderbookWatcher.addMarkets ms w))
    = OrderbookWatcher.subscribedTokens w ++ new
    /\ NoDup new
    /\ (forall t, t ∈ new <-> t ∈ tokensOf ms /\ t ∉ OrderbookWatcher.subscribedTokens w)
    /\ snd (OrderbookWatcher.addMarkets ms w)
       = match OrderbookWatcher.ws w, new with
         | Some OPEN, _ :: _ => [Send new]
         | _, _ => []
         end
    /\ (forall t,
          OrderbookWatcher.books (fst (OrderbookWatcher.addMarkets ms w)) !! t
          = if decide (t ∈ new) then Some OrderBook.new
            else OrderbookWatcher.books w !! t)
    /\ OrderbookWatcher.bestAsks (fst (OrderbookWatcher.addMarkets ms w))
       = OrderbookWatcher.bestAsks w
    /\ OrderbookWatcher.bestBids (fst (OrderbookWatcher.addMarkets ms w))
       = OrderbookWatcher.bestBids w.
Proof.
  unfold OrderbookWatcher.addMarkets. rewrite addMarkets_tokens.
  destruct (addToken_fold_spec (tokensOf ms) w []) as (new & H1 & H2 & H3 & H4 & H5).
  destruct (addToken_fold (tokensOf ms) (w, [])) as (Hws & Ha & Hb & _).
  destruct (fold_left OrderbookWatcher.addToken (tokensOf ms) (w, [])) as [w' new'].
  cbn [fst snd] in *. subst new'. exists new.
  split; [exact H2|]. split; [exact H3|]. split; [exact H4|].
  split; [|split; [exact H5 | split; [exact Ha | exact Hb]]].
  unfold OrderbookWatcher.sendSubscription. rewrite Hws.
  destruct new as [|t new]; cbn; [now destruct (OrderbookWatcher.ws w) as [[]|]|].
  reflexivity.
Qed.

Lemma removeToken_fold_gone ts :
  forall w t,
    (t ∈ ts \/ (OrderbookWatcher.books w !! t = None
                /\ t ∉ OrderbookWatcher.subscribedTokens w)) ->
    OrderbookWatcher.books (fold_left OrderbookWatcher.removeToken ts w) !! t = None
    /\ t ∉ OrderbookWatcher.subscribedTokens
             (fold_left OrderbookWatcher.removeToken ts w).
Proof.
  induction ts as [|t0 ts IH]; intros w t H; cbn [fold_left].
  - destruct H as [H|H]; [inversion H | exact H].
  - apply IH. destruct (decide (t = t0)) as [->|Hne].
    + right. cbn. rewrite lookup_delete_eq. split; [reflexivity|].
      rewrite list_elem_of_In, List.filter_In, String.eqb_refl. cbn. intros [_ [=]].
    + destruct H as [H|[Hb Hs]].
      * apply elem_of_cons in H as [H|H]; [contradiction | now left].
      * right. cbn. rewrite lookup_delete_ne by congruence. split; [exact Hb|].
        rewrite list_elem_of_In, List.filter_In, <- list_elem_of_In. tauto.
Qed.

(** X8: once [removeMarkets] has removed a market, its two tokens are no
    longer subscribed and a frame that still arrives for one of them is
    dropped: the watcher is unchanged and [onUpdate] is not called. *)
Theorem removed_token_frame_dropped
    (ms : list Market.t) (w : OrderbookWatcher.t) (m : Market.t)
    (t : string) (msg : Msg) :
  In m ms ->
  t = Market.yesTokenId m \/ t = Market.noTokenId m ->
  asset_id msg = Some t ->
  (t ∉ OrderbookWatcher.subscribedTokens (OrderbookWatcher.removeMarkets ms w))
  /\ OrderbookWatcher.handleMessage msg (OrderbookWatcher.removeMarkets ms w)
     = (OrderbookWatcher.removeMarkets ms w, []).
Proof.
  intros Hin Ht Hmsg. rewrite removeMarkets_tokens.
  destruct (removeToken_fold_gone (tokensOf ms) w t) as [Hb Hs].
  { left. unfold tokensOf. rewrite list_elem_of_In, in_concat.
    exists [Market.yesTokenId m; Market.noTokenId m]. split.
    - apply in_map_iff. eauto.
    - destruct Ht as [-> | ->]; [now left | right; now left]. }
  split; [exact Hs|].
  unfold OrderbookWatcher.handleMessage. rewrite Hmsg, Hb.
  now destruct (String.eqb t "").
Qed.

Lemma removed_token_frame_dropped_witness :
  OrderbookWatcher.handleMessage msgAsk
    (OrderbookWatcher.removeMarkets [sampleMarket] watcherWithAsk)
  = (OrderbookWatcher.removeMarkets [sampleMarket] watcherWithAsk, []).
Proof.
  apply (removed_token_frame_dropped [sampleMarket] watcherWithAsk sampleMarket
           "tok-up" msgAsk); [now left | now left | reflexivity].
Defined.

Lemma watcherStep_stopped w op :
  OrderbookWatcher.shouldRun w = false ->
  OrderbookWatcher.shouldRun (fst (watcherStep w op)) = false
  /\ sleeps (snd (watcherStep w op)) = [].
Proof.
  intros Hstop. split.
  - revert w op Hstop.
    apply (watcherStep_inv (fun w => OrderbookWatcher.shouldRun w = false));
      try (intros w x H; exact H); try (intros w H; reflexivity).
    + intros w msg H. destruct (handleMessage_frame msg w) as (_ & H2 & _).
      cbn zeta in H2. now rewrite H2.
    + intros [w n] t H. unfold OrderbookWatcher.addToken.
      now destruct (bool_decide _).
  - destruct op as [ms|ms|msg| |a|]; cbn [watcherStep snd]; try reflexivity.
    + unfold OrderbookWatcher.addMarkets.
      destruct (fold_left _ ms (w, [])) as [w' new]. cbn [snd].
      destruct (0 <? _); [|reflexivity].
      unfold OrderbookWatcher.sendSubscription.
      now destruct (OrderbookWatcher.ws w') as [[]|].
    + now destruct (handleMessage_frame msg w) as (_ & _ & H).
    + apply onOpen_sleeps.
    + unfold OrderbookWatcher.connectTurn. now rewrite Hstop.
Qed.

(** X9: [stop] is final: nothing sets [shouldRun] again, so whatever
    happens to the watcher after [stop] the reconnect loop neither sleeps
    nor connects again, and [connect] itself returns at once. *)
Theorem stop_is_final (w : OrderbookWatcher.t) :
  (forall ops : list WatcherOp,
      OrderbookWatcher.shouldRun (fst (watcherRun ops (OrderbookWatcher.stop w))) = false
      /\ sleeps (snd (watcherRun ops (OrderbookWatcher.stop w))) = [])
  /\ (forall attempts : list OrderbookWatcher.Attempt,
        OrderbookWatcher.connect attempts (OrderbookWatcher.stop w)
        = (OrderbookWatcher.stop w, [])).
Proof.
  split.
  - intros ops. unfold watcherRun.
    assert (H : forall acc : OrderbookWatcher.t * list WOut,
               OrderbookWatcher.shouldRun (fst acc) = false ->
               let r := fold_left
                          (fun acc op =>
                             let '(w', o) := watcherStep (fst acc) op in
                             (w', snd acc ++ o)) ops acc in
               OrderbookWatcher.shouldRun (fst r) = false
               /\ sleeps (snd r) = sleeps (snd acc)).
    { induction ops as [|op ops IH]; intros acc Hacc; cbn [fold_left]; [now split|].
      destruct (watcherStep_stopped (fst acc) op Hacc) as [H1 H2].
      destruct (watcherStep (fst acc) op) as [w' o]. cbn [fst snd] in *.
      destruct (IH (w', snd acc ++ o) H1) as [I1 I2]. cbn [fst snd] in *.
      split; [exact I1|]. now rewrite I2, sleeps_app, H2, app_nil_r. }
    apply (H (OrderbookWatcher.stop w, [])). reflexivity.
  - intros attempts. unfold OrderbookWatcher.connect.
    induction attempts as [|a attempts IH]; cbn [fold_left]; [reflexivity|].
    cbn [fst snd]. unfold OrderbookWatcher.connectTurn at 2. cbn. exact IH.
Qed.


(** ** The detector: what one call changes *)

Lemma check_shape cfg watcher now stamp tokenId d d' out :
  ArbDetector.check cfg watcher now stamp tokenId d = Some (d', out) ->
  ArbDetector.markets d' = ArbDetector.markets d
  /\ ArbDetector.tokenToMarket d' = ArbDetector.tokenToMarket d
  /\ ((d' = d /\ out = [])
      \/ exists marketId market s' c,
           ArbDetector.markets d !! marketId = Some market
           /\ ArbDetector.stats d' = <[marketId := s']> (ArbDetector.stats d)
           /\ ((JsNum.lt c (MIN_COMBINED_THRESHOLD cfg) = true
                /\ surfaced out = []
                /\ exists w',
                     ArbDetector.windows d' = <[marketId := w']> (ArbDetector.windows d)
                     /\ ((ArbDetector.windows d !! marketId = None
                          /\ w' = WindowState.mk now now c [PrimFloat.sub PrimFloat.one c])
                         \/ exists w,
                              ArbDetector.windows d !! marketId = Some w
                              /\ w' = WindowState.mk (WindowState.startTs w) now
                                        (WindowState.openCombined w)
                                        (WindowState.spreads w
                                           ++ [PrimFloat.sub PrimFloat.one c])))
               \/ (JsNum.lt c (MIN_COMBINED_THRESHOLD cfg) = false
                   /\ ArbDetector.windows d' = delete marketId (ArbDetector.windows d)
                   /\ surfaced out =
                        match ArbDetector.windows d !! marketId with
                        | Some w =>
                            if Z.of_nat (length (WindowState.spreads w))
                               <? MIN_ARB_TICKS cfg
                            then []
                            else [ArbDetector.arbWindow marketId market w c]
                        | None => []
                        end))).
Proof.
  unfold ArbDetector.check.
  destruct (ArbDetector.tokenToMarket d !! tokenId) as [marketId|];
    [|intros [= <- <-]; auto].
  destruct (String.eqb marketId ""); [intros [= <- <-]; auto|].
  destruct (ArbDetector.markets d !! marketId) as [market|] eqn:Hm;
    [|intros [= <- <-]; auto].
  destruct (OrderbookWatcher.getBestAsk (Market.yesTokenId market) watcher) as [yesAsk|];
    [|intros [= <- <-]; auto].
  destruct (OrderbookWatcher.getBestAsk (Market.noTokenId market) watcher) as [noAsk|];
    [|intros [= <- <-]; auto].
  destruct (ArbDetector.stats d !! marketId) as [s0|] eqn:Hs; [|discriminate].
  destruct (JsNum.lt (yesAsk + noAsk) (MIN_COMBINED_THRESHOLD cfg)) eqn:Earb.
  - destruct (ArbDetector.windows d !! marketId) as [w|] eqn:Hw;
      intros [= <- <-]; (split; [reflexivity|]); (split; [reflexivity|]);
      right; eexists marketId, market, _, (yesAsk + noAsk)%float;
      (split; [exact Hm|]); (split; [reflexivity|]);
      left; (split; [exact Earb|]); (split; [reflexivity|]);
      eexists; (split; [reflexivity|]).
    + right. exists w. split; [exact Hw | reflexivity].
    + left. split; [exact Hw | reflexivity].
  - destruct (ArbDetector.windows d !! marketId) as [w|] eqn:Hw.
    + edestruct (closeWindow_ok cfg marketId market (yesAsk + noAsk)
                   (ArbDetector.withStats
                      (<[marketId := ArbDetector.tickStats (yesAsk + noAsk) s0]>
                         (ArbDetector.stats d)) d))
        as (d1 & out1 & Hc & Hwin & Hmk & Htm & (s' & Hst & _) & _ & Hsf).
      { cbn. apply lookup_insert_eq. }
      rewrite Hc. intros [= <- <-]. cbn in Hwin, Hmk, Htm, Hst, Hsf.
      split; [exact Hmk|]. split; [exact Htm|].
      right. exists marketId, market, s', (yesAsk + noAsk)%float.
      split; [exact Hm|]. split; [now rewrite Hst, insert_insert_eq|].
      right. split; [exact Earb|]. split; [exact Hwin|].
      rewrite surfaced_app. cbn. rewrite app_nil_r, Hsf, Hw. reflexivity.
    + intros [= <- <-]. split; [reflexivity|]. split; [reflexivity|].
      right. eexists marketId, market, _, (yesAsk + noAsk)%float.
      split; [exact Hm|]. split; [reflexivity|].
      right. split; [exact Earb|]. cbn. rewrite Hw.
      split; [now rewrite delete_id | reflexivity].
Qed.

Lemma check_detector_ok cfg watcher now stamp tokenId d d' out :
  detector_ok d ->
  ArbDetector.check cfg watcher now stamp tokenId d = Some (d', out) ->
  detector_ok d'.
Proof.
  intros (Hms & Hwm & Hne) Hc.
  destruct (check_shape _ _ _ _ _ _ _ _ Hc)
    as (Hmk & _ & [[-> _]|(id & market & s' & c & Hm & Hst & Hcase)]);
    [exact (conj Hms (conj Hwm Hne))|].
  assert (Hid : is_Some (ArbDetector.markets d !! id)) by (rewrite Hm; eauto).
  unfold detector_ok. rewrite Hmk, Hst. split; [|split].
  - intros k. rewrite lookup_insert_is_Some'. rewrite <- Hms. split; [auto|].
    intros [<-|H]; assumption.
  - intros k Hk. destruct Hcase as [(_ & _ & w' & Hw' & _)|(_ & Hw' & _)];
      rewrite Hw' in Hk.
    + apply lookup_insert_is_Some' in Hk as [<-|Hk]; [exact Hid | now apply Hwm].
    + apply lookup_delete_is_Some in Hk as [_ Hk]. now apply Hwm.
  - intros k w Hk. destruct Hcase as [(_ & _ & w' & Hw' & Hshape)|(_ & Hw' & _)];
      rewrite Hw' in Hk.
    + destruct (decide (id = k)) as [->|Hn].
      * rewrite lookup_insert_eq in Hk. injection Hk as <-.
        destruct Hshape as [[_ ->]|(w0 & _ & ->)]; cbn; [discriminate|].
        now destruct (WindowState.spreads w0).
      * rewrite lookup_insert_ne in Hk by exact Hn. now apply (Hne k).
    + apply lookup_delete_Some in Hk as [_ Hk]. now apply (Hne k).
Qed.

Lemma addMarkets_detector_ok ms d :
  detector_ok d -> detector_ok (ArbDetector.addMarkets ms d).
Proof.
  unfold ArbDetector.addMarkets. revert d.
  induction ms as [|m ms IH]; intros d Hok; cbn [fold_left]; [exact Hok|].
  apply IH. destruct Hok as (Hms & Hwm & Hne). unfold ArbDetector.addMarket.
  destruct (ArbDetector.markets d !! Market.marketId m);
    [exact (conj Hms (conj Hwm Hne))|].
  unfold detector_ok. cbn. split; [|split].
  - intros k. rewrite !lookup_insert_is_Some', Hms. tauto.
  - intros k Hk. apply lookup_insert_is_Some'. right. now apply Hwm.
  - exact Hne.
Qed.

Lemma removed_detector_ok d m : detector_ok d -> detector_ok (removed d m).
Proof.
  intros (Hms & Hwm & Hne). unfold detector_ok, removed. cbn. split; [|split].
  - intros k. rewrite !lookup_delete_is_Some.
    split; intros [H1 H2]; (split; [exact H1|]); apply Hms; exact H2.
  - intros k. rewrite !lookup_delete_is_Some. intros [H1 H2]. split; [exact H1|].
    now apply Hwm.
  - intros k w Hk. apply lookup_delete_Some in Hk as [_ Hk]. now apply (Hne k).
Qed.

Lemma fold_removed_detector_ok ms d :
  detector_ok d -> detector_ok (fold_left removed ms d).
Proof.
  revert d. induction ms as [|m ms IH]; intros d H; cbn; [exact H|].
  now apply IH, removed_detector_ok.
Qed.

Lemma detector_ok_have_stats d :
  detector_ok d -> windows_have_stats d /\ markets_have_stats d.
Proof.
  intros (Hms & Hwm & _). split; intros k Hk; [apply Hms, Hwm, Hk | apply Hms, Hk].
Qed.

Lemma new_detector_ok : detector_ok ArbDetector.new.
Proof.
  unfold detector_ok. cbn. split; [|split].
  - intros k. rewrite !lookup_empty.
    split; intros H; now apply is_Some_None in H.
  - intros k. rewrite !lookup_empty. intros H. now apply is_Some_None in H.
  - intros k w. rewrite lookup_empty. discriminate.
Qed.



(** ** The detector: windows and the clock *)

Lemma addMarkets_windows ms d :
  ArbDetector.windows (ArbDetector.addMarkets ms d) = ArbDetector.windows d.
Proof.
  unfold ArbDetector.addMarkets. revert d.
  induction ms as [|m ms IH]; intros d; cbn [fold_left]; [reflexivity|].
  rewrite IH. unfold ArbDetector.addMarket.
  now destruct (ArbDetector.markets d !! Market.marketId m).
Qed.







(** ** The detector: what a processed tick computes *)

Lemma tickIsArb_combined cfg m watcher :
  tickIsArb cfg m watcher
  = match tickCombined m watcher with
    | Some c => Some (JsNum.lt c (MIN_COMBINED_THRESHOLD cfg))
    | None => None
    end.
Proof.
  unfold tickIsArb, tickCombined.
  destruct (OrderbookWatcher.getBestAsk (Market.yesTokenId m) watcher); [|reflexivity].
  now destruct (OrderbookWatcher.getBestAsk (Market.noTokenId m) watcher).
Qed.


Lemma check_arb cfg watcher now stamp tokenId d m s0 c :
  Market.marketId m <> "" ->
  ArbDetector.tokenToMarket d !! tokenId = Some (Market.marketId m) ->
  ArbDetector.markets d !! Market.marketId m = Some m ->
  ArbDetector.stats d !! Market.marketId m = Some s0 ->
  tickCombined m watcher = Some c ->
  JsNum.lt c (MIN_COMBINED_THRESHOLD cfg) = true ->
  exists out,
    ArbDetector.check cfg watcher now stamp tokenId d
    = Some (ArbDetector.mk (ArbDetector.markets d) (ArbDetector.tokenToMarket d)
              (<[Market.marketId m :=
                   ArbDetector.arbStats now (PrimFloat.sub PrimFloat.one c)
                     (ArbDetector.tickStats c s0)]> (ArbDetector.stats d))
              (<[Market.marketId m :=
                   match ArbDetector.windows d !! Market.marketId m with
                   | None => WindowState.mk now now c [PrimFloat.sub PrimFloat.one c]
                   | Some w =>
                       WindowState.mk (WindowState.startTs w) now
                         (WindowState.openCombined w)
                         (WindowState.spreads w ++ [PrimFloat.sub PrimFloat.one c])
                   end]> (ArbDetector.windows d)),
            out)
    /\ surfaced out = [].
Proof.
  intros Hid Htok Hm Hs Hc Harb. unfold ArbDetector.check, tickCombined in *.
  rewrite Htok.
  destruct (String.eqb_spec (Market.marketId m) ""); [contradiction|]. rewrite Hm.
  destruct (OrderbookWatcher.getBestAsk (Market.yesTokenId m) watcher) as [y|];
    [|discriminate].
  destruct (OrderbookWatcher.getBestAsk (Market.noTokenId m) watcher) as [n0|];
    [|discriminate].
  injection Hc as <-. rewrite Hs, Harb.
  destruct (ArbDetector.windows d !! Market.marketId m);
    eexists; split; reflexivity.
Qed.

Lemma check_nonarb cfg watcher now stamp tokenId d m s0 c :
  Market.marketId m <> "" ->
  ArbDetector.tokenToMarket d !! tokenId = Some (Market.marketId m) ->
  ArbDetector.markets d !! Market.marketId m = Some m ->
  ArbDetector.stats d !! Market.marketId m = Some s0 ->
  tickCombined m watcher = Some c ->
  JsNum.lt c (MIN_COMBINED_THRESHOLD cfg) = false ->
  exists out s1,
    ArbDetector.check cfg watcher now stamp tokenId d
    = Some (ArbDetector.mk (ArbDetector.markets d) (ArbDetector.tokenToMarket d)
              (<[Market.marketId m := s1]> (ArbDetector.stats d))
              (delete (Market.marketId m) (ArbDetector.windows d)),
            out)
    /\ surfaced out =
         match ArbDetector.windows d !! Market.marketId m with
         | Some w =>
             if Z.of_nat (length (WindowState.spreads w)) <? MIN_ARB_TICKS cfg
             then []
             else [ArbDetector.arbWindow (Market.marketId m) m w c]
         | None => []
         end
    /\ MarketStats.tickCount s1 = MarketStats.tickCount s0 + 1
    /\ MarketStats.arbTickCount s1 = MarketStats.arbTickCount s0
    /\ MarketStats.windowCount s1
       = MarketStats.windowCount s0 + Z.of_nat (length (surfaced out)).
Proof.
  intros Hid Htok Hm Hs Hc Harb. unfold ArbDetector.check, tickCombined in *.
  rewrite Htok.
  destruct (String.eqb_spec (Market.marketId m) ""); [contradiction|]. rewrite Hm.
  destruct (OrderbookWatcher.getBestAsk (Market.yesTokenId m) watcher) as [y|];
    [|discriminate].
  destruct (OrderbookWatcher.getBestAsk (Market.noTokenId m) watcher) as [n0|];
    [|discriminate].
  injection Hc as <-. rewrite Hs, Harb.
  destruct (ArbDetector.windows d !! Market.marketId m) as [w|] eqn:Hw.
  - unfold ArbDetector.closeWindow. cbn. rewrite Hw.
    destruct (_ <? _).
    + eexists _, _. split.
      { unfold ArbDetector.withWindows, ArbDetector.withStats. cbn. reflexivity. }
      split; [reflexivity|]. cbn. repeat split; lia.
    + rewrite lookup_insert_eq. eexists _, _. split.
      { unfold ArbDetector.withWindows, ArbDetector.withStats. cbn.
        rewrite insert_insert_eq. reflexivity. }
      split; [reflexivity|]. cbn. repeat split; lia.
  - eexists _, _. split.
    { unfold ArbDetector.withStats. cbn. rewrite (delete_id _ _ Hw). reflexivity. }
    split; [reflexivity|]. cbn. repeat split; lia.
Qed.




(** ** The detector: the record of a clean run *)

Lemma last_cons_default {A} (a : A) (l : list A) (d : A) :
  List.last (a :: l) d = List.last l a.
Proof.
  revert a d. induction l as [|b l IH]; intros a d; [reflexivity|].
  change (List.last (a :: b :: l) d) with (List.last (b :: l) d).
  rewrite (IH b d), (IH b a). reflexivity.
Qed.

Lemma last_map_now (rest : list Tick) (first : Tick) :
  List.last (List.map t_now rest) (t_now first) = t_now (List.last rest first).
Proof.
  revert first. induction rest as [|t rest IH]; intros first; [reflexivity|].
  cbn [List.map]. rewrite !last_cons_default. apply IH.
Qed.

Lemma detRun_seq cfg ops1 ops2 da db dc oa ob :
  detRun cfg ops1 da = Some (db, oa) ->
  detRun cfg ops2 db = Some (dc, ob) ->
  detRun cfg (ops1 ++ ops2) da = Some (dc, oa ++ ob).
Proof.
  revert da db dc oa ob.
  induction ops1 as [|op ops1 IH1]; intros da db dc oa ob; cbn [detRun app].
  - intros [= <- <-] H. rewrite H. reflexivity.
  - destruct (detStep cfg da op) as [[dx ox]|]; [|discriminate].
    destruct (detRun cfg ops1 dx) as [[dy oy]|] eqn:E; [|discriminate].
    intros [= <- <-] H. rewrite (IH1 dx dy dc oy ob E H), app_assoc.
    reflexivity.
Qed.

Lemma arb_run cfg m rest :
  Market.marketId m <> "" ->
  forall (d : ArbDetector.t) (w : WindowState.t),
    ArbDetector.markets d !! Market.marketId m = Some m ->
    is_Some (ArbDetector.stats d !! Market.marketId m) ->
    ArbDetector.windows d !! Market.marketId m = Some w ->
    (forall t, In t rest ->
               ArbDetector.tokenToMarket d !! t_token t = Some (Market.marketId m)) ->
    (forall t, In t rest -> tickIsArb cfg m (t_watcher t) = Some true) ->
    exists d' out,
      detRun cfg (List.map checkTick rest) d = Some (d', out)
      /\ surfaced out = []
      /\ ArbDetector.markets d' = ArbDetector.markets d
      /\ ArbDetector.tokenToMarket d' = ArbDetector.tokenToMarket d
      /\ is_Some (ArbDetector.stats d' !! Market.marketId m)
      /\ ArbDetector.windows d' !! Market.marketId m
         = Some (WindowState.mk (WindowState.startTs w)
                   (List.last (List.map t_now rest) (WindowState.lastArbTickTs w))
                   (WindowState.openCombined w)
                   (WindowState.spreads w
                      ++ List.map (fun t => PrimFloat.sub PrimFloat.one (combinedOf m t))
                           rest)).
Proof.
  intros Hid. induction rest as [|t rest IH]; intros d w Hm Hs Hw Htok Harb.
  - exists d, []. cbn. rewrite app_nil_r. destruct w. repeat split; assumption.
  - assert (Htok0 := Htok t (or_introl eq_refl)).
    assert (Harb0 := Harb t (or_introl eq_refl)).
    rewrite tickIsArb_combined in Harb0.
    destruct (tickCombined m (t_watcher t)) as [c|] eqn:Hc; [|discriminate].
    injection Harb0 as Harb0. destruct Hs as [s0 Hs].
    destruct (check_arb cfg (t_watcher t) (t_now t) (t_stamp t) (t_token t) d m s0 c
                Hid Htok0 Hm Hs Hc Harb0) as (out1 & Hck & Hsf1).
    rewrite Hw in Hck.
    cbn [List.map detRun checkTick detStep]. rewrite Hck.
    match goal with
    | |- context [detRun cfg (List.map checkTick rest) ?dd] =>
        edestruct (IH dd) as (d2 & out2 & Hr2 & Hsf2 & Hm2 & Ht2 & Hs2 & Hw2);
        [ exact Hm | cbn; rewrite lookup_insert_eq; eauto
        | cbn; apply lookup_insert_eq
        | intros t' Ht'; cbn; apply Htok; now right
        | intros t' Ht'; apply Harb; now right | rewrite Hr2 ]
    end.
    exists d2, (out1 ++ out2). split; [reflexivity|].
    rewrite surfaced_app, Hsf1, Hsf2. split; [reflexivity|].
    split; [exact Hm2|]. split; [exact Ht2|]. split; [exact Hs2|].
    rewrite Hw2. cbn [WindowState.startTs WindowState.lastArbTickTs
                      WindowState.openCombined WindowState.spreads].
    rewrite <- app_assoc. cbn [app List.map].
    unfold combinedOf at 2. rewrite Hc.
    do 2 f_equal. rewrite last_cons_default. reflexivity.
Qed.

Lemma watcher_cache_fresh_witness :
  OrderbookWatcher.getBestAsk "tok-up"
    (fst (watcherRun [WAdd [sampleMarket]; WFrame msgAsk] OrderbookWatcher.new))
  = Some 0.4%float.
Proof.
  destruct (watcher_cache_fresh [WAdd [sampleMarket]; WFrame msgAsk] "tok-up"
              (OrderBook.applySnapshot [mkLevel 0.4 25] [] OrderBook.new))
    as [Ha _].
  - repeat constructor.
  - reflexivity.
  - apply Ha. reflexivity.
Defined.


(** ** The detector: adding and removing markets *)

Lemma addMarket_keeps d m marketId :
  is_Some (ArbDetector.markets d !! marketId) ->
  ArbDetector.markets (ArbDetector.addMarket d m) !! marketId
  = ArbDetector.markets d !! marketId
  /\ ArbDetector.stats (ArbDetector.addMarket d m) !! marketId
     = ArbDetector.stats d !! marketId.
Proof.
  intros Hk. unfold ArbDetector.addMarket.
  destruct (ArbDetector.markets d !! Market.marketId m) eqn:Hm; [split; reflexivity|].
  assert (Hne : Market.marketId m <> marketId).
  { intros <-. rewrite Hm in Hk. now apply is_Some_None in Hk. }
  cbn. rewrite !lookup_insert_ne by exact Hne. split; reflexivity.
Qed.

Lemma addMarket_adds d m :
  is_Some (ArbDetector.markets (ArbDetector.addMarket d m) !! Market.marketId m).
Proof.
  unfold ArbDetector.addMarket.
  destruct (ArbDetector.markets d !! Market.marketId m) eqn:Hm; [rewrite Hm; eauto|].
  cbn. rewrite lookup_insert_eq. eauto.
Qed.

Lemma addMarkets_keeps ms d marketId :
  is_Some (ArbDetector.markets d !! marketId) ->
  ArbDetector.markets (ArbDetector.addMarkets ms d) !! marketId
  = ArbDetector.markets d !! marketId
  /\ ArbDetector.stats (ArbDetector.addMarkets ms d) !! marketId
     = ArbDetector.stats d !! marketId.
Proof.
  unfold ArbDetector.addMarkets. revert d.
  induction ms as [|m ms IH]; intros d Hk; cbn [fold_left]; [split; reflexivity|].
  destruct (addMarket_keeps d m marketId Hk) as [H1 H2].
  destruct (IH (ArbDetector.addMarket d m)) as [H3 H4]; [now rewrite H1|].
  split; congruence.
Qed.

Lemma addMarkets_adds ms d m :
  In m ms ->
  is_Some (ArbDetector.markets (ArbDetector.addMarkets ms d) !! Market.marketId m).
Proof.
  revert d. induction ms as [|m' ms IH]; intros d Hin; [destruct Hin|].
  change (ArbDetector.addMarkets (m' :: ms) d)
    with (ArbDetector.addMarkets ms (ArbDetector.addMarket d m')).
  destruct Hin as [->|Hin]; [|now apply IH].
  pose proof (addMarket_adds d m) as Hk.
  destruct (addMarkets_keeps ms _ _ Hk) as [-> _]. exact Hk.
Qed.

Lemma addMarkets_known ms d :
  (forall m, In m ms -> is_Some (ArbDetector.markets d !! Market.marketId m)) ->
  ArbDetector.addMarkets ms d = d.
Proof.
  unfold ArbDetector.addMarkets.
  induction ms as [|m ms IH]; intros Hk; cbn [fold_left]; [reflexivity|].
  assert (Hm : ArbDetector.addMarket d m = d).
  { unfold ArbDetector.addMarket.
    destruct (Hk m (or_introl eq_refl)) as [x ->]. reflexivity. }
  rewrite Hm. apply IH. intros m' Hin. apply Hk. now right.
Qed.

(** X14: [addMarkets] never resets a market that is already watched: for a
    known market id the stored market and its stats (with all counters) are
    the same after the call, whatever the list holds under that id, and no
    window is touched. *)
Theorem addMarkets_keeps_known
    (ms : list Market.t) (d : ArbDetector.t) (marketId : string) :
  is_Some (ArbDetector.markets d !! marketId) ->
  ArbDetector.markets (ArbDetector.addMarkets ms d) !! marketId
  = ArbDetector.markets d !! marketId
  /\ ArbDetector.stats (ArbDetector.addMarkets ms d) !! marketId
     = ArbDetector.stats d !! marketId
  /\ ArbDetector.windows (ArbDetector.addMarkets ms d) = ArbDetector.windows d.
Proof.
  intros Hk. destruct (addMarkets_keeps ms d marketId Hk) as [H1 H2].
  split; [exact H1|]. split; [exact H2|]. apply addMarkets_windows.
Qed.

Lemma addMarkets_keeps_known_witness :
  ArbDetector.stats (ArbDetector.addMarkets [sampleMarket] detectorOpenWindow) !! "0xabc"
  = ArbDetector.stats detectorOpenWindow !! "0xabc".
Proof.
  destruct (addMarkets_keeps_known [sampleMarket] detectorOpenWindow "0xabc")
    as (_ & H & _); [|exact H].
  vm_compute. eauto.
Defined.

(** X15: [addMarkets] is idempotent: a second call with the same list
    changes nothing, also when the list repeats a market id. *)
Theorem addMarkets_idempotent (ms : list Market.t) (d : ArbDetector.t) :
  ArbDetector.addMarkets ms (ArbDetector.addMarkets ms d)
  = ArbDetector.addMarkets ms d.
Proof.
  apply addMarkets_known. intros m Hin. now apply addMarkets_adds.
Qed.

(** X16: removing a market that was just added, and was unknown before,
    restores the detector: [removeMarkets([m])] after [addMarkets([m])]
    gives back the state before both calls and calls neither callback. *)
Theorem add_then_remove_restores
    (cfg : Config) (m : Market.t) (d : ArbDetector.t) :
  absent m d ->
  ArbDetector.removeMarkets cfg [m] (ArbDetector.addMarkets [m] d) = Some (d, []).
Proof.
  intros (Hm & Hs & Hw & Hy & Hn).
  unfold ArbDetector.addMarkets, ArbDetector.removeMarkets. cbn [fold_left].
  unfold ArbDetector.addMarket. rewrite Hm.
  unfold ArbDetector.removeMarket. cbn. rewrite Hw. cbn.
  destruct d as [mk tk st wn]. cbn in *. do 2 f_equal. f_equal.
  - apply map_eq. intros k. destruct (decide (k = Market.marketId m)) as [->|Hne].
    + now rewrite lookup_delete_eq, Hm.
    + now rewrite lookup_delete_ne, lookup_insert_ne by congruence.
  - apply map_eq. intros k.
    destruct (decide (k = Market.noTokenId m)) as [->|Hne1].
    + now rewrite lookup_delete_eq, Hn.
    + rewrite lookup_delete_ne by congruence.
      destruct (decide (k = Market.yesTokenId m)) as [->|Hne2].
      * now rewrite lookup_delete_eq, Hy.
      * now rewrite lookup_delete_ne, !lookup_insert_ne by congruence.
  - apply map_eq. intros k. destruct (decide (k = Market.marketId m)) as [->|Hne].
    + now rewrite lookup_delete_eq, Hs.
    + now rewrite lookup_delete_ne, lookup_insert_ne by congruence.
Qed.

Lemma add_then_remove_restores_witness :
  ArbDetector.removeMarkets defaultConfig [sampleMarket]
    (ArbDetector.addMarkets [sampleMarket] ArbDetector.new)
  = Some (ArbDetector.new, []).
Proof.
  apply (add_then_remove_restores defaultConfig sampleMarket ArbDetector.new).
  repeat split; reflexivity.
Defined.

Lemma detectorOpenWindow_have_stats : windows_have_stats detectorOpenWindow.
Proof.
  apply (detRun_have_stats defaultConfig opsOpenWindow ArbDetector.new
           detectorOpenWindow
           (match detRun defaultConfig opsOpenWindow ArbDetector.new with
            | Some (_, o) => o
            | None => []
            end)); [apply new_have_stats | vm_compute; reflexivity].
Qed.

(** X17: a tick for a removed market is dropped: once [removeMarkets] has
    returned, [check] on either token of a market of the list returns at
    once, changing nothing and calling neither callback. *)
Theorem removed_market_tick_dropped
    (cfg : Config) (ms : list Market.t) (d d' : ArbDetector.t) (out : list DOut)
    (m : Market.t) (tokenId : string)
    (watcher : OrderbookWatcher.t) (now stamp : Z) :
  windows_have_stats d ->
  ArbDetector.removeMarkets cfg ms d = Some (d', out) ->
  In m ms ->
  tokenId = Market.yesTokenId m \/ tokenId = Market.noTokenId m ->
  ArbDetector.check cfg watcher now stamp tokenId d' = Some (d', []).
Proof.
  intros Hwf Hr Hin Ht.
  destruct (removeMarkets_spec cfg ms d Hwf) as (out' & Hr' & _).
  rewrite Hr in Hr'. injection Hr' as -> _.
  destruct (absent_after_removal ms d m Hin) as (_ & _ & _ & Hy & Hn).
  unfold ArbDetector.check. destruct Ht as [->| ->]; [rewrite Hy | rewrite Hn];
    reflexivity.
Qed.

Lemma removed_market_tick_dropped_witness :
  exists d' out,
    ArbDetector.removeMarkets defaultConfig [sampleMarket] detectorOpenWindow
    = Some (d', out)
    /\ ArbDetector.check defaultConfig
         (sampleQuotes (Some 0.46%float) (Some 0.48%float)) 1300 1300 "tok-up" d'
       = Some (d', []).
Proof.
  destruct (ArbDetector.removeMarkets defaultConfig [sampleMarket] detectorOpenWindow)
    as [[d' out]|] eqn:Hr; [|vm_compute in Hr; discriminate].
  exists d', out. split; [reflexivity|].
  apply (removed_market_tick_dropped defaultConfig [sampleMarket] detectorOpenWindow
           d' out sampleMarket "tok-up").
  - exact detectorOpenWindow_have_stats.
  - exact Hr.
  - now left.
  - now left.
Defined.

(** ** The logger: reading a row back *)

Lemma append_assoc (a b c : string) : (a +:+ b) +:+ c = a +:+ (b +:+ c).
Proof.
  induction a as [|ch a IH]; [reflexivity|].
  change (String ch ((a +:+ b) +:+ c) = String ch (a +:+ (b +:+ c))).
  now rewrite IH.
Qed.

Lemma append_cons ch (a b : string) : String ch a +:+ b = String ch (a +:+ b).
Proof. reflexivity. Qed.

Lemma append_nil_r (a : string) : a +:+ "" = a.
Proof.
  induction a as [|ch a IH]; [reflexivity|].
  change (String ch (a +:+ "") = String ch a). now rewrite IH.
Qed.

Lemma parseCsvLoop_bare s rest fields current :
  isBare s = true ->
  parseCsvLoop (s +:+ rest) fields current false
  = parseCsvLoop rest fields (current +:+ s) false.
Proof.
  revert current. induction s as [|ch s IH]; intros current Hb.
  - now rewrite append_nil_r.
  - cbn in Hb. apply andb_prop in Hb as [Hb Hs].
    apply andb_prop in Hb as [Hq Hc].
    apply negb_true_iff in Hq, Hc.
    rewrite ?append_cons. cbn [parseCsvLoop]. rewrite Hq, Hc. cbn [andb].
    rewrite (IH _ Hs), append_assoc. reflexivity.
Qed.

Lemma parseCsvLoop_quoted q rest fields current :
  rest = "" \/ (exists rest', rest = String comma rest') ->
  parseCsvLoop (doubleQuotes q +:+ String dquote rest) fields current true
  = parseCsvLoop rest fields (current +:+ q) false.
Proof.
  intros Hrest. revert current. induction q as [|ch q IH]; intros current.
  - rewrite append_nil_r. cbn [doubleQuotes]. rewrite ?append_cons. cbn [parseCsvLoop].
    change (Ascii.eqb dquote dquote) with true. cbv iota.
    destruct Hrest as [->|[rest' ->]]; reflexivity.
  - cbn [doubleQuotes]. destruct (Ascii.eqb ch dquote) eqn:Hq.
    + apply Ascii.eqb_eq in Hq as ->.
      rewrite ?append_cons. cbn [parseCsvLoop].
      change (Ascii.eqb dquote dquote) with true. cbv iota.
      rewrite IH, append_assoc. reflexivity.
    + rewrite ?append_cons. cbn [parseCsvLoop]. rewrite Hq, andb_false_r.
      rewrite IH, append_assoc. reflexivity.
Qed.

Lemma parseCsvLoop_cell c rest fields :
  bareCell c = true ->
  rest = "" \/ (exists rest', rest = String comma rest') ->
  parseCsvLoop (cellText c +:+ rest) fields "" false
  = parseCsvLoop rest fields (cellValue c) false.
Proof.
  intros Hb Hrest. destruct c as [s|q]; cbn [cellText cellValue].
  - now rewrite parseCsvLoop_bare.
  - unfold quotedCell. rewrite ?append_cons. cbn [parseCsvLoop].
    change (Ascii.eqb dquote dquote) with true. cbv iota. cbn [negb].
    rewrite append_assoc, append_cons.
    change ("" +:+ rest) with rest.
    now rewrite parseCsvLoop_quoted.
Qed.

Lemma parseCsvLoop_cells cells :
  forall c fields,
    forallb bareCell (c :: cells) = true ->
    parseCsvLoop (joinCells (List.map cellText (c :: cells))) fields "" false
    = fields ++ List.map cellValue (c :: cells).
Proof.
  induction cells as [|c' cells IH]; intros c fields Hb;
    cbn [forallb] in Hb; apply andb_prop in Hb as [Hc Hb].
  - cbn [List.map joinCells]. rewrite <- (append_nil_r (cellText c)).
    rewrite parseCsvLoop_cell by (assumption || now left). reflexivity.
  - change (joinCells (List.map cellText (c :: c' :: cells)))
      with (cellText c +:+ String comma (joinCells (List.map cellText (c' :: cells)))).
    rewrite parseCsvLoop_cell by (assumption || (right; eauto)).
    cbn [parseCsvLoop]. change (Ascii.eqb comma dquote) with false.
    change (Ascii.eqb comma comma) with true. cbn [andb negb]. cbv iota.
    rewrite (IH c' _ Hb), <- app_assoc. reflexivity.
Qed.

(** X18: [parseCsvLine] reads back what [logWindow] writes: for a row of
    at least one cell, joined by commas, in which a cell is either written
    as it is and then holds neither a comma nor a double quote, or written
    the way the question is (quotes doubled, the whole between quotes) and
    then holds any characters at all, the parser returns the values of the
    cells, one field per cell. *)
Theorem parseCsvLine_reads_back (c : Cell) (cells : list Cell) :
  forallb bareCell (c :: cells) = true ->
  parseCsvLine (joinCells (List.map cellText (c :: cells)))
  = List.map cellValue (c :: cells).
Proof.
  intros Hb. unfold parseCsvLine. now rewrite parseCsvLoop_cells.
Qed.

Lemma parseCsvLine_reads_back_witness :
  parseCsvLine
    (joinCells
       (List.map cellText
          [Bare "1000"; Bare "0xabc";
           Quoted ("BTC up, or " +:+ String dquote ("down" +:+ String dquote "?"));
           Bare "5-min"]))
  = ["1000"; "0xabc";
     "BTC up, or " +:+ String dquote ("down" +:+ String dquote "?");
     "5-min"].
Proof.
  apply (parseCsvLine_reads_back (Bare "1000")). reflexivity.
Defined.

(** X19: a comma in a cell that is not quoted splits it: this is what the
    quoting of the question prevents, and what nothing prevents for the
    market id and the time frame, which [logWindow] writes as they are. *)
Theorem parseCsvLine_splits_bare (a b : string) :
  isBare a = true -> isBare b = true ->
  parseCsvLine (joinCells [a +:+ String comma b]) = [a; b].
Proof.
  intros Ha Hb. unfold parseCsvLine. cbn [joinCells].
  rewrite parseCsvLoop_bare by exact Ha. cbn [parseCsvLoop].
  change (Ascii.eqb comma dquote) with false.
  change (Ascii.eqb comma comma) with true. cbn [andb negb]. cbv iota.
  rewrite <- (append_nil_r b) at 1. rewrite parseCsvLoop_bare by exact Hb.
  reflexivity.
Qed.

Lemma parseCsvLine_splits_bare_witness :
  parseCsvLine (joinCells ["0xabc" +:+ String comma "def"]) = ["0xabc"; "def"].
Proof.
  apply (parseCsvLine_splits_bare "0xabc" "def"); reflexivity.
Defined.

(** ** The logger: the tables *)

Lemma StrMap_get_set_eq {V} k (v : V) m : StrMap.get k (StrMap.set k v m) = Some v.
Proof.
  induction m as [|[k' v'] m IH]; cbn.
  - now rewrite String.eqb_refl.
  - destruct (String.eqb k' k) eqn:Hk; cbn.
    + now rewrite String.eqb_refl.
    + now rewrite Hk.
Qed.

Lemma StrMap_get_set_ne {V} k k0 (v : V) m :
  k <> k0 -> StrMap.get k0 (StrMap.set k v m) = StrMap.get k0 m.
Proof.
  intros Hne. apply String.eqb_neq in Hne.
  induction m as [|[k' v'] m IH]; cbn.
  - now rewrite Hne.
  - destruct (String.eqb k' k) eqn:Hk; cbn.
    + apply String.eqb_eq in Hk as ->. now rewrite Hne.
    + now rewrite IH.
Qed.

Lemma accumulateWindow_get map w :
  StrMap.get (ArbWindow.timeframe w) (accumulateWindow map w)
  = Some (accumulateInto
            (match StrMap.get (ArbWindow.timeframe w) map with
             | Some tf => tf
             | None => emptyTimeframeStats
             end) w).
Proof.
  unfold accumulateWindow, StrMap.has.
  destruct (StrMap.get (ArbWindow.timeframe w) map) as [tf|] eqn:Hg.
  - rewrite Hg. apply StrMap_get_set_eq.
  - rewrite StrMap_get_set_eq. apply StrMap_get_set_eq.
Qed.

Lemma accumulateWindow_get_other map w tf :
  ArbWindow.timeframe w <> tf ->
  StrMap.get tf (accumulateWindow map w) = StrMap.get tf map.
Proof.
  intros Hne. unfold accumulateWindow, StrMap.has.
  destruct (StrMap.get (ArbWindow.timeframe w) map) as [s|] eqn:Hg.
  - rewrite Hg. now apply StrMap_get_set_ne.
  - rewrite StrMap_get_set_eq. rewrite !StrMap_get_set_ne by exact Hne. reflexivity.
Qed.

Lemma tableWindows_set k v map :
  tableWindows (StrMap.set k v map)
  = tableWindows map + TimeframeStats.windowCount v
    - match StrMap.get k map with
      | Some s => TimeframeStats.windowCount s
      | None => 0
      end.
Proof.
  unfold tableWindows. induction map as [|[k' v'] map IH]; cbn.
  - lia.
  - destruct (String.eqb k' k) eqn:Hk; cbn in *; lia.
Qed.

Lemma accumulateWindow_tableWindows map w :
  tableWindows (accumulateWindow map w) = tableWindows map + 1.
Proof.
  unfold accumulateWindow, StrMap.has.
  destruct (StrMap.get (ArbWindow.timeframe w) map) as [tf|] eqn:Hg.
  - rewrite Hg, tableWindows_set, Hg. cbn. lia.
  - rewrite StrMap_get_set_eq, !tableWindows_set, StrMap_get_set_eq, Hg. cbn. lia.
Qed.

(** X20: the tables and the counter of the logger move together: when
    windows reach [logWindow], [totalWindows] grows by their number, and so
    does the sum of the WINDOWS column of the session table and of the
    lifetime table; [lifetimeWindowsAtStart] stays.  So the figure
    [lifetimeWindowsAtStart + totalWindows] of the leaderboard keeps
    agreeing with the lifetime table once it did. *)
Theorem logWindows_totals (ws : list ArbWindow.t) (lg : Logger.t) :
  Logger.totalWindows (logWindows ws lg)
  = Logger.totalWindows lg + Z.of_nat (length ws)
  /\ tableWindows (Logger.sessionByTimeframe (logWindows ws lg))
     = tableWindows (Logger.sessionByTimeframe lg) + Z.of_nat (length ws)
  /\ tableWindows (Logger.lifetimeByTimeframe (logWindows ws lg))
     = tableWindows (Logger.lifetimeByTimeframe lg) + Z.of_nat (length ws)
  /\ Logger.lifetimeWindowsAtStart (logWindows ws lg)
     = Logger.lifetimeWindowsAtStart lg.
Proof.
  unfold logWindows. revert lg.
  induction ws as [|w ws IH]; intros lg; cbn [fold_left length].
  - repeat split; lia.
  - destruct (IH (Logger.logWindow w lg)) as (H1 & H2 & H3 & H4).
    rewrite H1, H2, H3, H4. cbn [Logger.logWindow Logger.totalWindows
      Logger.sessionByTimeframe Logger.lifetimeByTimeframe
      Logger.lifetimeWindowsAtStart].
    rewrite !accumulateWindow_tableWindows. repeat split; lia.
Qed.

Lemma max_list_snoc (l : list Z) (d : Z) :
  fold_right Z.max 0 (l ++ [d]) = Z.max (fold_right Z.max 0 l) d.
Proof. induction l as [|x l IH]; cbn; [lia | rewrite IH; lia]. Qed.

Lemma sum_list_snoc (l : list Z) (d : Z) :
  fold_right Z.add 0 (l ++ [d]) = fold_right Z.add 0 l + d.
Proof. induction l as [|x l IH]; cbn; [lia | rewrite IH; lia]. Qed.


Lemma summarises_empty : summarises [] emptyTimeframeStats.
Proof.
  unfold summarises. cbn. repeat split; try reflexivity; try constructor;
    intros H; now apply elem_of_nil in H.
Qed.

Lemma summarises_snoc sel s w :
  summarises sel s -> summarises (sel ++ [w]) (accumulateInto s w).
Proof.
  intros (H1 & H2 & H3 & H4 & H5 & H6 & H7). unfold summarises, accumulateInto.
  cbn [TimeframeStats.windowCount TimeframeStats.totalDurationMs
       TimeframeStats.longestWindowMs TimeframeStats.sumPeakSpread
       TimeframeStats.sumAvgSpread TimeframeStats.marketsObserved].
  rewrite !List.map_app, length_app, !fold_left_app.
  cbn [List.map fold_left length]. rewrite sum_list_snoc, max_list_snoc.
  split; [lia|]. split; [lia|]. split.
  { rewrite H3. destruct (Z.gtb_spec (ArbWindow.durationMs w)
                            (fold_right Z.max 0 (List.map ArbWindow.durationMs sel))); lia. }
  split; [now rewrite H4|]. split; [now rewrite H5|].
  unfold set_add. destruct (bool_decide_reflect
    (ArbWindow.marketId w ∈ TimeframeStats.marketsObserved s)) as [Hin|Hnin].
  - split; [exact H6|]. intros k. rewrite elem_of_app, list_elem_of_singleton, H7.
    split; [now left|]. intros [Hk| ->]; [exact Hk | now apply H7].
  - split.
    + apply NoDup_app. split; [exact H6|]. split.
      * intros x Hx Hx'. apply list_elem_of_singleton in Hx' as ->. contradiction.
      * apply NoDup_singleton.
    + intros k. rewrite !elem_of_app, !list_elem_of_singleton, H7. reflexivity.
Qed.

Lemma ofTimeframe_snoc tf ws w :
  ofTimeframe tf (ws ++ [w])
  = if String.eqb (ArbWindow.timeframe w) tf
    then ofTimeframe tf ws ++ [w] else ofTimeframe tf ws.
Proof.
  unfold ofTimeframe. rewrite List.filter_app. cbn.
  destruct (String.eqb (ArbWindow.timeframe w) tf); [reflexivity | apply app_nil_r].
Qed.

Lemma accumulate_summarises ws :
  forall tf,
    match StrMap.get tf (fold_left accumulateWindow ws []) with
    | Some s => ofTimeframe tf ws <> [] /\ summarises (ofTimeframe tf ws) s
    | None => ofTimeframe tf ws = []
    end.
Proof.
  induction ws as [|w ws IH] using rev_ind; intros tf; [reflexivity|].
  rewrite fold_left_app, ofTimeframe_snoc. cbn [fold_left].
  destruct (String.eqb_spec (ArbWindow.timeframe w) tf) as [<-|Hne].
  - rewrite accumulateWindow_get. split; [now destruct (ofTimeframe _ ws)|].
    apply summarises_snoc. specialize (IH (ArbWindow.timeframe w)).
    destruct (StrMap.get (ArbWindow.timeframe w) (fold_left accumulateWindow ws []))
      as [s|]; [apply IH | rewrite IH; apply summarises_empty].
  - rewrite accumulateWindow_get_other by exact Hne. apply IH.
Qed.

(** X21: each row of the session table sums up the windows of its time
    frame and only those: after the windows [ws] reached a logger that
    started with an empty session table, a time frame has a row exactly
    when some window carries it, and the row holds the number of these
    windows, the sum and the maximum (at least 0) of their durations, the
    sums of their peak and average spreads added up in the order of
    arrival, and the set of their market ids. *)
Theorem session_table_summarises
    (ws : list ArbWindow.t) (lifetime : list (string * TimeframeStats.t))
    (atStart : Z) (tf : string) :
  match StrMap.get tf
          (Logger.sessionByTimeframe
             (logWindows ws (Logger.mk 0 [] lifetime atStart))) with
  | Some s => ofTimeframe tf ws <> [] /\ summarises (ofTimeframe tf ws) s
  | None => ofTimeframe tf ws = []
  end.
Proof.
  assert (Hs : forall lg,
             Logger.sessionByTimeframe (logWindows ws lg)
             = fold_left accumulateWindow ws (Logger.sessionByTimeframe lg)).
  { unfold logWindows. induction ws as [|w ws IH]; intros lg; [reflexivity|].
    cbn [fold_left]. now rewrite IH. }
  rewrite Hs. cbn [Logger.sessionByTimeframe]. apply accumulate_summarises.
Qed.





(** ** The logger: durations and ages *)

(** X23: [formatDuration] splits a duration without losing a second: for
    [ms >= 0] the hours, minutes and seconds it prints add up to the whole
    seconds of [ms], minutes and seconds stay below 60, and the leading
    parts are left out exactly when they are 0. *)
Theorem formatDuration_parts (ms : Z) :
  0 <= ms ->
  exists h m sec : Z,
    h * 3600 + m * 60 + sec = ms / 1000
    /\ 0 <= h /\ 0 <= m < 60 /\ 0 <= sec < 60
    /\ formatDuration ms
       = if 0 <? h then pretty h +:+ "h " +:+ pretty m +:+ "m " +:+ pretty sec +:+ "s"
         else if 0 <? m then pretty m +:+ "m " +:+ pretty sec +:+ "s"
         else pretty sec +:+ "s".
Proof.
  intros Hms. set (s := ms / 1000).
  assert (Hs : 0 <= s) by (apply Z.div_pos; lia).
  exists (s / 3600), (Z.rem s 3600 / 60), (Z.rem s 60).
  rewrite !Z.rem_mod_nonneg by lia.
  pose proof (Z.mod_pos_bound s 3600 ltac:(lia)) as Hm.
  pose proof (Z.mod_pos_bound s 60 ltac:(lia)) as Hsec.
  pose proof (Z.div_mod s 3600 ltac:(lia)) as Hd.
  pose proof (Z.div_mod (s mod 3600) 60 ltac:(lia)) as Hd2.
  assert (Hmm : (s mod 3600) mod 60 = s mod 60).
  { pose proof (Z.div_mod s 60 ltac:(lia)) as Hd3.
    pose proof (Z.mod_pos_bound (s mod 3600) 60 ltac:(lia)). lia. }
  split; [lia|]. split; [apply Z.div_pos; lia|].
  split; [split; [apply Z.div_pos; lia | apply Z.div_lt_upper_bound; lia]|].
  split; [lia|].
  unfold formatDuration. fold s. rewrite !Z.rem_mod_nonneg by lia.
  rewrite !Z.gtb_ltb. reflexivity.
Qed.

Lemma formatDuration_parts_witness :
  exists h m sec : Z,
    h * 3600 + m * 60 + sec = 3725
    /\ 0 <= h /\ 0 <= m < 60 /\ 0 <= sec < 60
    /\ formatDuration 3725400
       = if 0 <? h then pretty h +:+ "h " +:+ pretty m +:+ "m " +:+ pretty sec +:+ "s"
         else if 0 <? m then pretty m +:+ "m " +:+ pretty sec +:+ "s"
         else pretty sec +:+ "s".
Proof.
  apply (formatDuration_parts 3725400). lia.
Defined.

(** X24: [formatAgo] never overstates an age: the number it prints, in
    the unit it prints, is the elapsed time rounded down to that unit;
    seconds are used below one minute, minutes below one hour, hours from
    there on. *)
Theorem formatAgo_rounds_down (now ts : Z) :
  exists (n unit : Z) (suffix : string),
    formatAgo now ts = pretty n +:+ suffix
    /\ n * unit <= now - ts < (n + 1) * unit
    /\ ((unit = 1000 /\ suffix = "s ago" /\ now - ts < 60000)
        \/ (unit = 60000 /\ suffix = "m ago" /\ 60000 <= now - ts < 3600000)
        \/ (unit = 3600000 /\ suffix = "h ago" /\ 3600000 <= now - ts)).
Proof.
  unfold formatAgo. set (e := now - ts).
  pose proof (Z.div_mod e 1000 ltac:(lia)) as H1.
  pose proof (Z.mod_pos_bound e 1000 ltac:(lia)) as B1.
  pose proof (Z.div_mod (e / 1000) 60 ltac:(lia)) as H2.
  pose proof (Z.mod_pos_bound (e / 1000) 60 ltac:(lia)) as B2.
  pose proof (Z.div_mod (e / 1000 / 60) 60 ltac:(lia)) as H3.
  pose proof (Z.mod_pos_bound (e / 1000 / 60) 60 ltac:(lia)) as B3.
  destruct (Z.ltb_spec (e / 1000) 60) as [Hs|Hs].
  - exists (e / 1000), 1000, "s ago". split; [reflexivity|].
    split; [lia|]. left. repeat split; lia.
  - destruct (Z.ltb_spec (e / 1000 / 60) 60) as [Hm|Hm].
    + exists (e / 1000 / 60), 60000, "m ago". split; [reflexivity|].
      split; [lia|]. right. left. repeat split; lia.
    + exists (e / 1000 / 60 / 60), 3600000, "h ago". split; [reflexivity|].
      split; [lia|]. right. right. repeat split; lia.
Qed.


(** ** The time frame of a market *)

(** X25: [parseTimeframe] measures the range on the 12-hour clock: for
    hours from 1 to 12 and minutes from 0 to 59, the result is the number
    of minutes from the start reading to the end reading of the same day,
    followed by [-min], when the end is later than the start, and
    [unknown] otherwise. *)
Theorem parseTimeframe_clock (r : TimeRange) :
  1 <= startH r <= 12 -> 1 <= endH r <= 12 ->
  0 <= startM r < 60 -> 0 <= endM r < 60 ->
  parseTimeframe (Some r)
  = if minuteOfDay (startH r) (startM r) (startPeriod r)
       <? minuteOfDay (endH r) (endM r) (endPeriod r)
    then pretty (minuteOfDay (endH r) (endM r) (endPeriod r)
                 - minuteOfDay (startH r) (startM r) (startPeriod r)) +:+ "-min"
    else "unknown".
Proof.
  intros Hs He _ _. unfold parseTimeframe, minuteOfDay.
  assert (H12 : forall h p, 1 <= h <= 12 ->
            (if isAM p && ((if isPM p && negb (h =? 12) then h + 12 else h) =? 12)
             then 0 else (if isPM p && negb (h =? 12) then h + 12 else h))
            = h mod 12 + (if isPM p then 12 else 0)).
  { intros h p Hh. destruct (Z.eqb_spec h 12) as [->|Hne].
    - destruct p; reflexivity.
    - rewrite Z.mod_small by lia. destruct p; cbn.
      + destruct (Z.eqb_spec h 12); lia.
      + lia. }
  cbv zeta. rewrite (H12 _ _ Hs), (H12 _ _ He), Z.gtb_ltb.
  match goal with
  | |- (if 0 <? ?d then _ else _) = (if ?a <? ?b then _ else _) =>
      replace (0 <? d) with (a <? b)
        by (destruct (Z.ltb_spec a b), (Z.ltb_spec 0 d); (reflexivity || lia))
  end.
  reflexivity.
Qed.

Lemma parseTimeframe_clock_witness :
  parseTimeframe (Some (mkTimeRange 7 35 PM 7 40 PM)) = "5-min".
Proof.
  rewrite (parseTimeframe_clock (mkTimeRange 7 35 PM 7 40 PM));
    [reflexivity | | | | ]; cbn; lia.
Defined.

(** X26: a range that runs over midnight has no time frame: when the
    start reads PM and the end reads AM (hours from 1 to 12, minutes
    below 60), [parseTimeframe] returns [unknown], as for a title without
    any time range. *)
Theorem parseTimeframe_over_midnight (r : TimeRange) :
  startPeriod r = PM -> endPeriod r = AM ->
  1 <= startH r <= 12 -> 1 <= endH r <= 12 ->
  0 <= startM r < 60 -> 0 <= endM r < 60 ->
  parseTimeframe (Some r) = "unknown".
Proof.
  intros Hsp Hep Hs He Hsm Hem. unfold parseTimeframe. rewrite Hsp, Hep. cbn [isPM isAM andb].
  cbv zeta.
  destruct (Z.eqb_spec (startH r) 12) as [H1|H1], (Z.eqb_spec (endH r) 12) as [H2|H2];
    cbn [negb];
    match goal with
    | |- (if ?d >? 0 then _ else _) = _ =>
        destruct (Z.gtb_spec d 0); [lia | reflexivity]
    end.
Qed.

Lemma parseTimeframe_over_midnight_witness :
  parseTimeframe (Some (mkTimeRange 11 55 PM 12 0 AM)) = "unknown".
Proof.
  apply (parseTimeframe_over_midnight (mkTimeRange 11 55 PM 12 0 AM));
    cbn; (reflexivity || lia).
Defined.


(** ** The detector: the counters of the stats *)










(** ** The order book: a feed that does not cross *)

Lemma SFcompare_antisym a b :
  SFcompare b a = option_map CompOpp (SFcompare a b).
Proof.
  destruct a as [sa|sa| |sa ma ea], b as [sb|sb| |sb mb eb]; cbn;
    try reflexivity;
    repeat match goal with s : bool |- _ => destruct s end;
    cbn; try reflexivity.
  all: rewrite (Z.compare_antisym ea eb); destruct (ea ?= eb) eqn:E; cbn;
    try reflexivity.
  all: rewrite (Pos.compare_cont_antisym ma mb Eq); cbn;
    now rewrite ?CompOpp_involutive.
Qed.

Lemma leb_ltb_eqb x y : PrimFloat.leb x y = PrimFloat.ltb x y || PrimFloat.eqb x y.
Proof.
  rewrite FloatAxioms.leb_spec, FloatAxioms.ltb_spec, FloatAxioms.eqb_spec.
  unfold SFleb, SFltb, SFeqb.
  now destruct (SFcompare (Prim2SF x) (Prim2SF y)) as [[]|].
Qed.

Lemma not_ltb_leb x y :
  PrimFloat.ltb x y = false -> PrimFloat.eqb x x = true -> PrimFloat.eqb y y = true ->
  PrimFloat.leb y x = true.
Proof.
  rewrite FloatAxioms.ltb_spec, FloatAxioms.leb_spec, !FloatAxioms.eqb_spec.
  unfold SFltb, SFleb, SFeqb. rewrite (SFcompare_antisym (Prim2SF x) (Prim2SF y)).
  destruct (Prim2SF x) as [sx|sx| |sx mx ex], (Prim2SF y) as [sy|sy| |sy my ey];
    cbn; try discriminate; try (intros; reflexivity);
    repeat match goal with s : bool |- _ => destruct s end;
    cbn; try discriminate; try (intros; reflexivity).
  all: destruct (ex ?= ey); cbn; try discriminate; try (intros; reflexivity).
  all: destruct (Pos.compare_cont Eq mx my); cbn; try discriminate;
    intros; reflexivity.
Qed.

Lemma eqb_trans x y z :
  PrimFloat.eqb x y = true -> PrimFloat.eqb y z = true -> PrimFloat.eqb x z = true.
Proof.
  rewrite !FloatAxioms.eqb_spec. unfold SFeqb.
  destruct (SFcompare (Prim2SF x) (Prim2SF y)) as [[]|] eqn:E1; try discriminate.
  destruct (SFcompare (Prim2SF y) (Prim2SF z)) as [[]|] eqn:E2; try discriminate.
  intros _ _.
  apply SFcompare_eq_inv in E1 as [E1|(s1 & s1' & E1 & E1')].
  - rewrite E1, E2. reflexivity.
  - rewrite E1. rewrite E1' in E2. rewrite (SFcompare_zero_l s1).
    rewrite (SFcompare_zero_l s1') in E2. now rewrite E2.
Qed.

Lemma leb_trans x y z :
  PrimFloat.leb x y = true -> PrimFloat.leb y z = true -> PrimFloat.leb x z = true.
Proof.
  rewrite !leb_ltb_eqb. intros H1 H2.
  apply orb_true_iff in H1 as [H1|H1], H2 as [H2|H2]; apply orb_true_iff.
  - left. eapply ltb_trans; eassumption.
  - left. now rewrite <- (eqb_ltb_r y z x H2).
  - left. now rewrite (eqb_ltb_l x y z H1).
  - right. eapply eqb_trans; eassumption.
Qed.

Lemma leb_not_nan_l x y : PrimFloat.leb x y = true -> PrimFloat.eqb x x = true.
Proof.
  rewrite FloatAxioms.leb_spec, FloatAxioms.eqb_spec. unfold SFleb, SFeqb.
  destruct (Prim2SF x) as [s|s| |s m e], (Prim2SF y) as [s'|s'| |s' m' e'];
    cbn; try discriminate; intros _; try reflexivity.
  all: destruct s; try reflexivity.
  all: now rewrite Z.compare_refl, Pos.compare_cont_spec, Pos.compare_refl.
Qed.

Lemma leb_not_nan_r x y : PrimFloat.leb x y = true -> PrimFloat.eqb y y = true.
Proof.
  rewrite FloatAxioms.leb_spec, FloatAxioms.eqb_spec. unfold SFleb, SFeqb.
  destruct (Prim2SF x) as [s|s| |s m e], (Prim2SF y) as [s'|s'| |s' m' e'];
    cbn; try discriminate; intros _; try reflexivity.
  all: destruct s'; try reflexivity.
  all: now rewrite Z.compare_refl, Pos.compare_cont_spec, Pos.compare_refl.
Qed.

(** The key list after [set]: unchanged when the key is present, with the
    key appended when it is not. *)
Lemma NumMap_set_keys_shape k v m :
  m <> [] /\ NumMap.keys (NumMap.set k v m) = NumMap.keys m
  \/ NumMap.keys (NumMap.set k v m) = NumMap.keys m ++ [JsNum.norm_key k].
Proof.
  unfold NumMap.keys. induction m as [|[k' v'] m IH]; [now right|].
  cbn [NumMap.set]. destruct (JsNum.same_value_zero k' k); cbn [List.map fst app].
  - left. split; [discriminate | reflexivity].
  - destruct IH as [[_ E]|E]; rewrite E;
      [left; split; [discriminate | reflexivity] | now right].
Qed.

Lemma getBestAsk_finite b a :
  OrderBook.getBestAsk b = Some a -> JsNum.lt a PrimFloat.infinity = true.
Proof.
  unfold OrderBook.getBestAsk.
  destruct (Nat.eqb (NumMap.size (OrderBook.asks b)) 0); [discriminate|].
  destruct (JsNum.strict_eq _ _) eqn:E; [discriminate|]. intros [= <-].
  destruct (pick_init_or_in JsNum.lt ltb_trans (NumMap.keys (OrderBook.asks b))
              PrimFloat.infinity) as [H|[_ H]]; [|exact H].
  unfold OrderBook.lowest in E. rewrite H in E. discriminate E.
Qed.

Lemma getBestBid_finite b d :
  OrderBook.getBestBid b = Some d -> JsNum.gt d PrimFloat.neg_infinity = true.
Proof.
  unfold OrderBook.getBestBid.
  destruct (Nat.eqb (NumMap.size (OrderBook.bids b)) 0); [discriminate|].
  destruct (JsNum.strict_eq _ _) eqn:E; [discriminate|]. intros [= <-].
  destruct (pick_init_or_in JsNum.gt gt_trans (NumMap.keys (OrderBook.bids b))
              PrimFloat.neg_infinity) as [H|[_ H]]; [|exact H].
  unfold OrderBook.highest in E. rewrite H in E. discriminate E.
Qed.

(** The best ask after a level is stored on the ask side: the best ask
    before, or the price just stored. *)
Lemma getBestAsk_after_set p sz asks0 bids0 a :
  OrderBook.getBestAsk (OrderBook.mk (NumMap.set p sz asks0) bids0) = Some a ->
  OrderBook.getBestAsk (OrderBook.mk asks0 bids0) = Some a \/ a = JsNum.norm_key p.
Proof.
  unfold OrderBook.getBestAsk. cbn [OrderBook.asks]. unfold NumMap.size.
  destruct (NumMap_set_keys_shape p sz asks0) as [[Hne Hk]|Hk].
  - rewrite Hk. destruct asks0 as [|e asks0]; [contradiction|].
    destruct (NumMap.set p sz (e :: asks0)) eqn:Es.
    + exfalso. cbn in Es. destruct e. destruct (JsNum.same_value_zero _ _); discriminate.
    + cbn [length Nat.eqb]. now left.
  - rewrite Hk. unfold OrderBook.lowest. rewrite fold_left_app. cbn [fold_left].
    fold (OrderBook.lowest (NumMap.keys asks0) PrimFloat.infinity).
    destruct (Nat.eqb (length (NumMap.set p sz asks0)) 0); [discriminate|].
    destruct (JsNum.lt (JsNum.norm_key p)
                (OrderBook.lowest (NumMap.keys asks0) PrimFloat.infinity)) eqn:El.
    + destruct (JsNum.strict_eq _ _); [discriminate|]. intros [= <-]. now right.
    + destruct (JsNum.strict_eq _ _) eqn:E; [discriminate|]. intros [= <-].
      left. destruct asks0 as [|e asks0]; [|reflexivity].
      cbn in E. discriminate E.
Qed.

Lemma getBestBid_after_set p sz asks0 bids0 d :
  OrderBook.getBestBid (OrderBook.mk asks0 (NumMap.set p sz bids0)) = Some d ->
  OrderBook.getBestBid (OrderBook.mk asks0 bids0) = Some d \/ d = JsNum.norm_key p.
Proof.
  unfold OrderBook.getBestBid. cbn [OrderBook.bids]. unfold NumMap.size.
  destruct (NumMap_set_keys_shape p sz bids0) as [[Hne Hk]|Hk].
  - rewrite Hk. destruct bids0 as [|e bids0]; [contradiction|].
    destruct (NumMap.set p sz (e :: bids0)) eqn:Es.
    + exfalso. cbn in Es. destruct e. destruct (JsNum.same_value_zero _ _); discriminate.
    + cbn [length Nat.eqb]. now left.
  - rewrite Hk. unfold OrderBook.highest. rewrite fold_left_app. cbn [fold_left].
    fold (OrderBook.highest (NumMap.keys bids0) PrimFloat.neg_infinity).
    destruct (Nat.eqb (length (NumMap.set p sz bids0)) 0); [discriminate|].
    destruct (JsNum.gt (JsNum.norm_key p)
                (OrderBook.highest (NumMap.keys bids0) PrimFloat.neg_infinity)) eqn:El.
    + destruct (JsNum.strict_eq _ _); [discriminate|]. intros [= <-]. now right.
    + destruct (JsNum.strict_eq _ _) eqn:E; [discriminate|]. intros [= <-].
      left. destruct bids0 as [|e bids0]; [|reflexivity].
      cbn in E. discriminate E.
Qed.

(** The best ask after a level is deleted from the ask side is not below
    the best ask before. *)
Lemma getBestAsk_after_delete p asks0 bids0 a' :
  OrderBook.getBestAsk (OrderBook.mk (NumMap.delete p asks0) bids0) = Some a' ->
  exists a, OrderBook.getBestAsk (OrderBook.mk asks0 bids0) = Some a
            /\ PrimFloat.leb a a' = true.
Proof.
  intros H. pose proof (getBestAsk_finite _ _ H) as Hfin.
  pose proof (getBestAsk_lowest (OrderBook.mk (NumMap.delete p asks0) bids0)) as L'.
  rewrite H in L'. destruct L' as [Hin _]. cbn in Hin.
  apply NumMap_delete_keys in Hin.
  pose proof (getBestAsk_lowest (OrderBook.mk asks0 bids0)) as L. cbn in L.
  destruct (OrderBook.getBestAsk (OrderBook.mk asks0 bids0)) as [a|] eqn:Ha.
  - exists a. split; [reflexivity|]. destruct L as [_ L].
    apply not_ltb_leb; [exact (L a' Hin) | |].
    + exact (ltb_not_nan_l _ _ Hfin).
    + exact (ltb_not_nan_l _ _ (getBestAsk_finite _ _ Ha)).
  - rewrite (L a' Hin) in Hfin. discriminate.
Qed.

Lemma getBestBid_after_delete p asks0 bids0 d' :
  OrderBook.getBestBid (OrderBook.mk asks0 (NumMap.delete p bids0)) = Some d' ->
  exists d, OrderBook.getBestBid (OrderBook.mk asks0 bids0) = Some d
            /\ PrimFloat.leb d' d = true.
Proof.
  intros H. pose proof (getBestBid_finite _ _ H) as Hfin.
  pose proof (getBestBid_highest (OrderBook.mk asks0 (NumMap.delete p bids0))) as L'.
  rewrite H in L'. destruct L' as [Hin _]. cbn in Hin.
  apply NumMap_delete_keys in Hin.
  pose proof (getBestBid_highest (OrderBook.mk asks0 bids0)) as L. cbn in L.
  destruct (OrderBook.getBestBid (OrderBook.mk asks0 bids0)) as [d|] eqn:Hd.
  - exists d. split; [reflexivity|]. destruct L as [_ L].
    apply not_ltb_leb; [exact (L d' Hin) | |].
    + exact (ltb_not_nan_r _ _ (getBestBid_finite _ _ Hd)).
    + exact (ltb_not_nan_r _ _ Hfin).
  - rewrite (L d' Hin) in Hfin. discriminate.
Qed.

Lemma applyChange_uncrossed c b :
  uncrossed b -> keeps_side b c ->
  uncrossed (OrderBook.applyChange (c_price c) (c_side c) (c_size c) b).
Proof.
  destruct c as [p side sz], b as [asks0 bids0]. cbn [c_price c_side c_size].
  intros Hu Hk. unfold keeps_side in Hk. cbn [c_price c_side c_size] in Hk.
  unfold OrderBook.applyChange. cbn [OrderBook.asks OrderBook.bids].
  destruct (String.eqb_spec side "SELL") as [Es|Es].
  - destruct (JsNum.strict_eq sz PrimFloat.zero) eqn:Ez; intros a d Ha Hd.
    + apply getBestAsk_after_delete in Ha as (a0 & Ha0 & Hle).
      assert (Hd0 : OrderBook.getBestBid (OrderBook.mk asks0 bids0) = Some d) by exact Hd.
      exact (leb_trans _ _ _ (Hu a0 d Ha0 Hd0) Hle).
    + assert (Hd0 : OrderBook.getBestBid (OrderBook.mk asks0 bids0) = Some d) by exact Hd.
      apply getBestAsk_after_set in Ha as [Ha| ->].
      * exact (Hu a d Ha Hd0).
      * rewrite leb_norm_key_r. destruct (Hk eq_refl) as [Hs _]. exact (Hs Es d Hd0).
  - destruct (String.eqb_spec side "BUY") as [Eb|Eb]; [|exact Hu].
    destruct (JsNum.strict_eq sz PrimFloat.zero) eqn:Ez; intros a d Ha Hd.
    + apply getBestBid_after_delete in Hd as (d0 & Hd0 & Hle).
      assert (Ha0 : OrderBook.getBestAsk (OrderBook.mk asks0 bids0) = Some a) by exact Ha.
      exact (leb_trans _ _ _ Hle (Hu a d0 Ha0 Hd0)).
    + assert (Ha0 : OrderBook.getBestAsk (OrderBook.mk asks0 bids0) = Some a) by exact Ha.
      apply getBestBid_after_set in Hd as [Hd| ->].
      * exact (Hu a d Ha0 Hd).
      * rewrite leb_norm_key_l. destruct (Hk eq_refl) as [_ Hb]. exact (Hb Eb a Ha0).
Qed.

(** C4 (amended): [applyChange] does not order the two sides of the book;
    the order is kept when the feed keeps it.  For every book whose best
    ask is >= its best bid (when both exist) and every sequence of changes
    in which each SELL that stores a size is priced at or above the best
    bid of the book it is applied to, and each BUY that stores a size at
    or below its best ask, the best ask after the sequence is >= the best
    bid whenever both exist. *)
Theorem applyChanges_uncrossed (b : OrderBook.t) (cs : list Change) :
  uncrossed b ->
  feed_uncrossed cs b ->
  uncrossed (OrderBook.applyChanges cs b).
Proof.
  unfold OrderBook.applyChanges. revert b.
  induction cs as [|c cs IH]; intros b Hu Hf; [exact Hu|].
  destruct Hf as [Hk Hf]. cbn [fold_left].
  apply IH; [now apply applyChange_uncrossed | exact Hf].
Qed.

Lemma applyChanges_uncrossed_witness :
  uncrossed
    (OrderBook.applyChanges
       [mkChange 0.6 "SELL" 1; mkChange 0.5 "BUY" 1; mkChange 0.5 "BUY" 0;
        mkChange 0.6 "SELL" 0; mkChange 0.4 "SELL" 1; mkChange 0.3 "BUY" 1]
       OrderBook.new).
Proof.
  apply (applyChanges_uncrossed OrderBook.new
           [mkChange 0.6 "SELL" 1; mkChange 0.5 "BUY" 1; mkChange 0.5 "BUY" 0;
            mkChange 0.6 "SELL" 0; mkChange 0.4 "SELL" 1; mkChange 0.3 "BUY" 1]).
  - intros a d Ha. vm_compute in Ha. discriminate Ha.
  - cbn [feed_uncrossed].
    do 6 (split;
          [ intros Hz; split; intros Hside x Hx;
            vm_compute in Hz; try discriminate Hz;
            vm_compute in Hside; try discriminate Hside;
            vm_compute in Hx; try discriminate Hx;
            injection Hx as <-; reflexivity | ]).
    exact I.
Defined.

(** ** The detector on an engine: where it agrees, where it throws *)

Lemma Engine_closeWindow_cases maxArgs cfg marketId market c d s :
  ArbDetector.stats d !! marketId = Some s ->
  (exists d' out,
      ArbDetector.closeWindow cfg marketId market c d = Some (d', out)
      /\ Engine.closeWindow maxArgs cfg marketId market c d = Returns d' out)
  \/ (exists w,
         ArbDetector.windows d !! marketId = Some w
         /\ MIN_ARB_TICKS cfg <= Z.of_nat (length (WindowState.spreads w))
         /\ maxArgs < Z.of_nat (length (WindowState.spreads w))
         /\ Engine.closeWindow maxArgs cfg marketId market c d
            = Throws (ArbDetector.withWindows
                        (delete marketId (ArbDetector.windows d)) d) []).
Proof.
  intros Hs. unfold ArbDetector.closeWindow, Engine.closeWindow.
  destruct (ArbDetector.windows d !! marketId) as [w|] eqn:Hw; [|left; eauto].
  destruct (Z.ltb_spec (Z.of_nat (length (WindowState.spreads w))) (MIN_ARB_TICKS cfg))
    as [Hmin|Hmin]; [left; eauto|].
  destruct (Z.ltb_spec maxArgs (Z.of_nat (length (WindowState.spreads w))))
    as [Hmax|Hmax].
  - right. exists w. split; [first [exact Hw | reflexivity]|]. split; [exact Hmin|].
    split; [exact Hmax | reflexivity].
  - cbn [ArbDetector.withWindows ArbDetector.stats]. rewrite Hs. left. eauto.
Qed.

Lemma Engine_check_cases maxArgs cfg watcher now stamp tokenId d :
  match ArbDetector.check cfg watcher now stamp tokenId d with
  | Some (d', out) =>
      Engine.check maxArgs cfg watcher now stamp tokenId d = Returns d' out
  | None => Engine.check maxArgs cfg watcher now stamp tokenId d = Throws d []
  end
  \/ (exists marketId market s0 w c,
         ArbDetector.tokenToMarket d !! tokenId = Some marketId
         /\ ArbDetector.markets d !! marketId = Some market
         /\ ArbDetector.stats d !! marketId = Some s0
         /\ tickCombined market watcher = Some c
         /\ JsNum.lt c (MIN_COMBINED_THRESHOLD cfg) = false
         /\ ArbDetector.windows d !! marketId = Some w
         /\ MIN_ARB_TICKS cfg <= Z.of_nat (length (WindowState.spreads w))
         /\ maxArgs < Z.of_nat (length (WindowState.spreads w))
         /\ Engine.check maxArgs cfg watcher now stamp tokenId d
            = Throws (ArbDetector.mk (ArbDetector.markets d)
                        (ArbDetector.tokenToMarket d)
                        (<[marketId := ArbDetector.tickStats c s0]>
                           (ArbDetector.stats d))
                        (delete marketId (ArbDetector.windows d))) []).
Proof.
  unfold ArbDetector.check, Engine.check.
  destruct (ArbDetector.tokenToMarket d !! tokenId) as [marketId|] eqn:Ht;
    [|now left].
  destruct (String.eqb marketId ""); [now left|].
  destruct (ArbDetector.markets d !! marketId) as [market|] eqn:Hm; [|now left].
  destruct (OrderbookWatcher.getBestAsk (Market.yesTokenId market) watcher)
    as [yesAsk|] eqn:Hy; [|now left].
  destruct (OrderbookWatcher.getBestAsk (Market.noTokenId market) watcher)
    as [noAsk|] eqn:Hn; [|now left].
  destruct (ArbDetector.stats d !! marketId) as [s0|] eqn:Hs; [|now left].
  destruct (JsNum.lt (yesAsk + noAsk) (MIN_COMBINED_THRESHOLD cfg)) eqn:Earb.
  - destruct (ArbDetector.windows d !! marketId); now left.
  - destruct (ArbDetector.windows d !! marketId) as [w|] eqn:Hw; [|now left].
    destruct (Engine_closeWindow_cases maxArgs cfg marketId market
                (yesAsk + noAsk)%float
                (ArbDetector.withStats
                   (<[marketId := ArbDetector.tickStats (yesAsk + noAsk) s0]>
                      (ArbDetector.stats d)) d)
                (ArbDetector.tickStats (yesAsk + noAsk) s0))
      as [(d' & out & -> & ->)|(w' & Hw' & Hmin & Hmax & ->)].
    + cbn. apply lookup_insert_eq.
    + now left.
    + right. cbn in Hw'. rewrite Hw in Hw'. injection Hw' as <-.
      exists marketId, market, s0, w, (yesAsk + noAsk)%float.
      split; [first [exact Ht | reflexivity]|].
      split; [first [exact Hm | reflexivity]|].
      split; [first [exact Hs | reflexivity]|].
      split; [unfold tickCombined; now rewrite Hy, Hn|].
      split; [exact Earb|]. split; [first [exact Hw | reflexivity]|].
      split; [exact Hmin|]. split; [exact Hmax | reflexivity].
Qed.

Lemma Engine_removeMarket_cases maxArgs cfg m d :
  windows_have_stats d ->
  (exists out,
      ArbDetector.removeMarket cfg m d = Some (removed d m, out)
      /\ Engine.removeMarket maxArgs cfg m d = Returns (removed d m) out)
  \/ (exists w,
         ArbDetector.windows d !! Market.marketId m = Some w
         /\ MIN_ARB_TICKS cfg <= Z.of_nat (length (WindowState.spreads w))
         /\ maxArgs < Z.of_nat (length (WindowState.spreads w))
         /\ Engine.removeMarket maxArgs cfg m d
            = Throws (ArbDetector.withWindows
                        (delete (Market.marketId m) (ArbDetector.windows d)) d) []).
Proof.
  intros Hwf. destruct (removeMarket_spec cfg m d Hwf) as (out0 & Hold & _).
  revert Hold. unfold ArbDetector.removeMarket, Engine.removeMarket.
  destruct (ArbDetector.windows d !! Market.marketId m) as [w|] eqn:Hw.
  - destruct (Hwf (Market.marketId m)) as [s Hs]; [rewrite Hw; eauto|].
    destruct (Engine_closeWindow_cases maxArgs cfg (Market.marketId m) m
                (ArbDetector.lastCombined (Market.marketId m) d) d s Hs)
      as [(d' & out & -> & ->)|(w' & Hw' & Hmin & Hmax & ->)].
    + intros Hold. left. exists out.
      pose proof (f_equal (from_option fst d) Hold) as Hd.
      pose proof (f_equal (from_option snd []) Hold) as Ho.
      cbn [from_option fst snd] in Hd, Ho. rewrite Hd, Ho. split; reflexivity.
    + intros _. right. rewrite Hw in Hw'. injection Hw' as <-.
      exists w. split; [first [exact Hw | reflexivity]|]. split; [exact Hmin|].
      split; [exact Hmax | reflexivity].
  - intros Hold. left. exists [].
    pose proof (f_equal (from_option fst d) Hold) as Hd.
    pose proof (f_equal (from_option snd []) Hold) as Ho.
    cbn [from_option fst snd] in Hd, Ho. rewrite Hd, Ho. split; reflexivity.
Qed.

Lemma Engine_removeMarkets_cases maxArgs cfg ms :
  forall d,
    windows_have_stats d ->
    (exists out,
        ArbDetector.removeMarkets cfg ms d = Some (fold_left removed ms d, out)
        /\ Engine.removeMarkets maxArgs cfg ms d = Returns (fold_left removed ms d) out)
    \/ (exists (pre : list Market.t) (m : Market.t) (w : WindowState.t) (out : list DOut),
           ArbDetector.windows (fold_left removed pre d) !! Market.marketId m = Some w
           /\ maxArgs < Z.of_nat (length (WindowState.spreads w))
           /\ Engine.removeMarkets maxArgs cfg ms d
              = Throws (ArbDetector.withWindows
                          (delete (Market.marketId m)
                             (ArbDetector.windows (fold_left removed pre d)))
                          (fold_left removed pre d)) out).
Proof.
  induction ms as [|m ms IH]; intros d Hwf; cbn [ArbDetector.removeMarkets
    Engine.removeMarkets fold_left].
  - left. exists []. split; reflexivity.
  - destruct (Engine_removeMarket_cases maxArgs cfg m d Hwf)
      as [(out1 & -> & ->)|(w & Hw & _ & Hmax & ->)].
    + destruct (IH (removed d m) (removed_have_stats d m Hwf))
        as [(out2 & -> & ->)|(pre & m' & w & out & Hw & Hmax & ->)].
      * left. exists (out1 ++ out2). split; reflexivity.
      * right. exists (m :: pre), m', w, (out1 ++ out). cbn [fold_left].
        split; [exact Hw|]. split; [exact Hmax | reflexivity].
    + right. exists [], m, w, []. cbn [fold_left].
      split; [exact Hw|]. split; [exact Hmax | reflexivity].
Qed.

Lemma Engine_removeMarkets_fits maxArgs cfg ms d :
  windows_have_stats d -> windows_within maxArgs d ->
  exists out,
    ArbDetector.removeMarkets cfg ms d = Some (fold_left removed ms d, out)
    /\ Engine.removeMarkets maxArgs cfg ms d = Returns (fold_left removed ms d) out.
Proof.
  intros Hwf Hfit.
  destruct (Engine_removeMarkets_cases maxArgs cfg ms d Hwf)
    as [H|(pre & m & w & out & Hw & Hmax & _)]; [exact H|].
  destruct (fold_removed_lookup pre d) as (_ & _ & F3 & _).
  apply F3, Hfit in Hw. lia.
Qed.

Lemma windows_within_mono n n' d :
  n <= n' -> windows_within n d -> windows_within n' d.
Proof. intros Hle H k w Hw. specialize (H k w Hw). lia. Qed.

Lemma check_windows_within cfg watcher now stamp tokenId d d' out n :
  0 <= n -> windows_within n d ->
  ArbDetector.check cfg watcher now stamp tokenId d = Some (d', out) ->
  windows_within (n + 1) d'.
Proof.
  intros Hn Hfit Hc.
  destruct (check_shape _ _ _ _ _ _ _ _ Hc)
    as (_ & _ & [[-> _]|(id & market & s' & c & _ & _ & Hcase)]).
  - eapply windows_within_mono; [|exact Hfit]. lia.
  - intros k w Hk.
    destruct Hcase as [(_ & _ & w' & Hw' & Hshape)|(_ & Hw' & _)]; rewrite Hw' in Hk.
    + destruct (decide (id = k)) as [<-|Hne].
      * rewrite lookup_insert_eq in Hk. injection Hk as <-.
        destruct Hshape as [[_ ->]|(w0 & Hw0 & ->)]; cbn.
        -- lia.
        -- rewrite length_app. cbn. specialize (Hfit _ _ Hw0). lia.
      * rewrite lookup_insert_ne in Hk by exact Hne. specialize (Hfit _ _ Hk). lia.
    + apply lookup_delete_Some in Hk as [_ Hk]. specialize (Hfit _ _ Hk). lia.
Qed.

Lemma fold_removed_windows_within ms d n :
  windows_within n d -> windows_within n (fold_left removed ms d).
Proof.
  intros Hfit k w Hk. destruct (fold_removed_lookup ms d) as (_ & _ & F3 & _).
  exact (Hfit _ _ (F3 _ _ Hk)).
Qed.

Lemma nowsOf_cons op ops : nowsOf (op :: ops) = nowsOf [op] ++ nowsOf ops.
Proof. unfold nowsOf. cbn. now destruct op. Qed.

Lemma detStep_windows_within cfg d op d' out n :
  0 <= n -> windows_have_stats d -> windows_within n d ->
  detStep cfg d op = Some (d', out) ->
  windows_within (n + Z.of_nat (length (nowsOf [op]))) d'.
Proof.
  intros Hn Hwf Hfit Hs. destruct op as [ms|watcher now stamp tokenId|ms]; cbn in Hs |- *.
  - injection Hs as <- _. intros k w Hk. rewrite addMarkets_windows in Hk.
    specialize (Hfit _ _ Hk). lia.
  - eapply check_windows_within; eauto.
  - destruct (removeMarkets_spec cfg ms d Hwf) as (out' & Hr & _).
    rewrite Hr in Hs. injection Hs as <- _.
    eapply windows_within_mono; [|apply fold_removed_windows_within, Hfit]. lia.
Qed.

Lemma detRun_windows_within cfg ops :
  forall d d' out n,
    0 <= n -> windows_have_stats d -> windows_within n d ->
    detRun cfg ops d = Some (d', out) ->
    windows_within (n + Z.of_nat (length (nowsOf ops))) d'.
Proof.
  induction ops as [|op ops IH]; intros d d' out n Hn Hwf Hfit; cbn [detRun].
  - intros [= <- <-]. eapply windows_within_mono; [|exact Hfit]. cbn. lia.
  - destruct (detStep cfg d op) as [[d1 out1]|] eqn:Hs; [|discriminate].
    destruct (detRun cfg ops d1) as [[d2 out2]|] eqn:Hr; [|discriminate].
    intros [= <- <-]. rewrite nowsOf_cons, length_app, Nat2Z.inj_add, Z.add_assoc.
    eapply IH; [| | |exact Hr].
    + lia.
    + eapply (detRun_have_stats cfg [op] d d1 out1 Hwf). cbn [detRun].
      rewrite Hs. now rewrite app_nil_r.
    + eapply detStep_windows_within; eauto.
Qed.

Lemma detectorOpenWindow_within n : 2 <= n -> windows_within n detectorOpenWindow.
Proof.
  intros Hn.
  apply (windows_within_mono (0 + Z.of_nat (length (nowsOf opsOpenWindow)))); [cbn; lia|].
  apply (detRun_windows_within defaultConfig opsOpenWindow ArbDetector.new
           detectorOpenWindow
           (match detRun defaultConfig opsOpenWindow ArbDetector.new with
            | Some (_, o) => o
            | None => []
            end)); [lia | apply new_have_stats | | vm_compute; reflexivity].
  intros k w Hk. cbn in Hk. now rewrite lookup_empty in Hk.
Qed.

(** ** The detector: removal of a market with an open window *)

(** C3, as stated, fails.  By design [removeMarkets] deletes the tokens that
    the market object it is given names: given the sample market under its
    id but with other tokens, it leaves the two stored tokens resolving to
    the removed market.  And on an engine that takes 130000 arguments in a
    call, a window of 130001 spreads makes [Math.max(...w.spreads)] throw:
    no window record is handed out, and the market stays in [markets],
    [stats] and [tokenToMarket]. *)
Lemma removeMarkets_leaves_market :
  (exists d' out,
      Engine.removeMarkets 130000 defaultConfig [sampleMarketOtherTokens]
        detectorOpenWindow = Returns d' out
      /\ ArbDetector.markets d' !! "0xabc" = None
      /\ ArbDetector.tokenToMarket d' !! "tok-up" = Some "0xabc")
  /\ (exists d',
         ArbDetector.windows detectorLongWindow !! "0xabc" = Some longWindow
         /\ Engine.removeMarkets 130000 defaultConfig [sampleMarket] detectorLongWindow
            = Throws d' []
         /\ ArbDetector.markets d' !! "0xabc" = Some sampleMarket
         /\ is_Some (ArbDetector.stats d' !! "0xabc")
         /\ ArbDetector.tokenToMarket d' !! "tok-up" = Some "0xabc").
Proof.
  split.
  - destruct (Engine.removeMarkets 130000 defaultConfig [sampleMarketOtherTokens]
                detectorOpenWindow) as [d' out|d' out] eqn:Hr;
      vm_compute in Hr; [|discriminate Hr].
    exists d', out. split; [reflexivity|].
    injection Hr as <- _. split; vm_compute; reflexivity.
  - assert (Hw : ArbDetector.windows detectorLongWindow !! "0xabc" = Some longWindow)
      by apply lookup_insert_eq.
    assert (Hlen : Z.of_nat (length (WindowState.spreads longWindow)) = 130001).
    { unfold longWindow. cbn [WindowState.spreads].
      rewrite List.repeat_length. apply Z2Nat.id. lia. }
    destruct (Engine_removeMarket_cases 130000 defaultConfig sampleMarket
                detectorLongWindow)
      as [(out & _ & Hr)|(w & Hw' & _ & _ & Hr)].
    + intros k [w Hk]. unfold detectorLongWindow in Hk. cbn in Hk.
      destruct (decide ("0xabc" = k)) as [<-|Hne].
      * vm_compute. eauto.
      * rewrite lookup_insert_ne, lookup_empty in Hk by exact Hne. discriminate Hk.
    + exfalso. revert Hr. unfold Engine.removeMarket, Engine.closeWindow.
      change (Market.marketId sampleMarket) with "0xabc". rewrite Hw.
      replace (Z.of_nat (length (WindowState.spreads longWindow))
               <? MIN_ARB_TICKS defaultConfig) with false
        by (rewrite Hlen; reflexivity).
      replace (130000 <? Z.of_nat (length (WindowState.spreads longWindow))) with true
        by (rewrite Hlen; reflexivity).
      discriminate.
    + eexists. split; [exact Hw|].
      split; [cbn [Engine.removeMarkets]; rewrite Hr; reflexivity|].
      split; [reflexivity|]. split; [vm_compute; eauto | reflexivity].
Qed.

(** C3 (amended): when [removeMarkets] is given markets one of which has an
    open window of at least MIN_ARB_TICKS ticks, and no open window holds
    more spreads than the engine takes as arguments of one call, it
    returns, having called [onWindow] exactly once for that market (and
    never [onEvent]), with the record built from the stored window, from
    the question and time frame of the market as first listed under that
    id (the market itself when the ids of the list are distinct) and with
    closeCombined = the market's last recorded combined (1.0 had none been
    recorded); the record carries no prices.  Afterwards the market id is
    in none of [markets], [stats], [windows], and the two tokens of the
    market object that was passed are not in [tokenToMarket], so that no
    token resolves to the market when only these two did. *)
Theorem removeMarkets_closes_window
    (maxArgs : Z) (cfg : Config) (ms : list Market.t) (d : ArbDetector.t)
    (m : Market.t) (w : WindowState.t) :
  windows_have_stats d ->
  windows_within maxArgs d ->
  In m ms ->
  ArbDetector.windows d !! Market.marketId m = Some w ->
  MIN_ARB_TICKS cfg <= Z.of_nat (length (WindowState.spreads w)) ->
  exists d' out m0,
    Engine.removeMarkets maxArgs cfg ms d = Returns d' out
    /\ events out = []
    /\ In m0 ms /\ Market.marketId m0 = Market.marketId m
    /\ (NoDup (List.map Market.marketId ms) -> m0 = m)
    /\ surfacedFor (Market.marketId m) out
       = [ArbWindow.mk (WindowState.startTs w) (WindowState.lastArbTickTs w)
            (WindowState.lastArbTickTs w - WindowState.startTs w)
            (Market.marketId m) (Market.question m0) (Market.timeframe m0)
            (Z.of_nat (length (WindowState.spreads w)))
            (JsNum.max_list (WindowState.spreads w))
            (PrimFloat.div (JsNum.sum_list (WindowState.spreads w))
               (JsNum.of_Z (Z.of_nat (length (WindowState.spreads w)))))
            (WindowState.openCombined w)
            (ArbDetector.lastCombined (Market.marketId m) d)]
    /\ absent m d'
    /\ ((forall t, ArbDetector.tokenToMarket d !! t = Some (Market.marketId m) ->
                   t = Market.yesTokenId m \/ t = Market.noTokenId m) ->
        forall t, ArbDetector.tokenToMarket d' !! t <> Some (Market.marketId m)).
Proof.
  intros Hwf Hfit Hin Hw Hmin.
  destruct (Engine_removeMarkets_fits maxArgs cfg ms d Hwf Hfit) as (out & Hr & He).
  destruct (removeMarkets_spec cfg ms d Hwf) as (out' & Hr' & Hev).
  rewrite Hr in Hr'. assert (out' = out) as -> by congruence.
  destruct (removeMarkets_surfaced_target cfg ms d m w _ out Hwf Hin Hw Hmin Hr)
    as (m0 & Hin0 & Hid0 & Hs0).
  eexists _, out, m0. split; [exact He|]. split; [exact Hev|].
  split; [exact Hin0|]. split; [exact Hid0|].
  split; [|split; [|split]].
  - intros Hnd. apply (NoDup_map_eq Market.marketId ms m0 m Hnd Hin0 Hin Hid0).
  - exact Hs0.
  - now apply absent_after_removal.
  - intros Hown t Ht.
    pose proof (absent_after_removal ms d m Hin) as (_ & _ & _ & Hy & Hn).
    destruct (fold_removed_lookup ms d) as (_ & _ & _ & F4).
    destruct (Hown t (F4 _ _ Ht)) as [-> | ->]; congruence.
Qed.

Lemma removeMarkets_closes_window_witness :
  exists d' out,
    Engine.removeMarkets 130000 defaultConfig [sampleMarket] detectorOpenWindow
    = Returns d' out
    /\ surfacedFor "0xabc" out
       = [ArbWindow.mk 1000 1250 250 "0xabc" (Market.question sampleMarket) "5-min" 2
            (1 - (0.46 + 0.48))%float
            ((0 + (1 - (0.46 + 0.49)) + (1 - (0.46 + 0.48))) / 2)%float
            (0.46 + 0.49)%float (0.46 + 0.48)%float]
    /\ absent sampleMarket d'.
Proof.
  destruct (removeMarkets_closes_window 130000 defaultConfig [sampleMarket]
              detectorOpenWindow sampleMarket sampleWindow)
    as (d' & out & m0 & Hr & _ & Hin0 & _ & _ & Hs & Ha & _).
  - exact detectorOpenWindow_have_stats.
  - apply detectorOpenWindow_within. lia.
  - now left.
  - vm_compute. reflexivity.
  - vm_compute. discriminate.
  - exists d', out. destruct Hin0 as [<-|[]].
    change (Market.marketId sampleMarket) with "0xabc" in Hs.
    split; [exact Hr|]. rewrite Hs.
    split; [vm_compute; reflexivity | exact Ha].
Defined.

(** ** The detector on an engine: every state it reaches *)

Lemma tick_delete_detector_ok d marketId s0 s :
  detector_ok d ->
  ArbDetector.stats d !! marketId = Some s0 ->
  detector_ok
    (ArbDetector.mk (ArbDetector.markets d) (ArbDetector.tokenToMarket d)
       (<[marketId := s]> (ArbDetector.stats d))
       (delete marketId (ArbDetector.windows d))).
Proof.
  intros (Hms & Hwm & Hne) Hs. unfold detector_ok. cbn. split; [|split].
  - intros k. rewrite lookup_insert_is_Some'. rewrite Hms. split; [auto|].
    intros [<-|H]; [rewrite Hs; eauto | exact H].
  - intros k Hk. apply lookup_delete_is_Some in Hk as [_ Hk]. now apply Hwm.
  - intros k w Hk. apply lookup_delete_Some in Hk as [_ Hk]. now apply (Hne k).
Qed.

Lemma delete_window_detector_ok d marketId :
  detector_ok d ->
  detector_ok
    (ArbDetector.withWindows (delete marketId (ArbDetector.windows d)) d).
Proof.
  intros (Hms & Hwm & Hne). unfold detector_ok. cbn. split; [exact Hms|split].
  - intros k Hk. apply lookup_delete_is_Some in Hk as [_ Hk]. now apply Hwm.
  - intros k w Hk. apply lookup_delete_Some in Hk as [_ Hk]. now apply (Hne k).
Qed.

Lemma Engine_detStep_props maxArgs cfg d op n :
  detector_ok d -> 0 <= n -> windows_within n d ->
  detector_ok (stateOf (Engine.detStep maxArgs cfg d op))
  /\ windows_within (n + Z.of_nat (length (nowsOf [op])))
       (stateOf (Engine.detStep maxArgs cfg d op))
  /\ (n <= maxArgs ->
      threw (Engine.detStep maxArgs cfg d op) = false
      /\ detStep cfg d op
         = Some (stateOf (Engine.detStep maxArgs cfg d op),
                 callsOf (Engine.detStep maxArgs cfg d op))).
Proof.
  intros Hok Hn Hfit. destruct (detector_ok_have_stats d Hok) as [Hwf Hmf].
  destruct op as [ms|watcher now stamp tokenId|ms];
    cbn [Engine.detStep detStep nowsOf omap list_omap length].
  - cbn [stateOf callsOf threw]. split; [now apply addMarkets_detector_ok|].
    split; [|intros _; split; reflexivity].
    intros k w Hk. rewrite addMarkets_windows in Hk. specialize (Hfit _ _ Hk). lia.
  - destruct (check_total cfg watcher now stamp tokenId d Hmf) as (d' & out & Hc & _).
    destruct (Engine_check_cases maxArgs cfg watcher now stamp tokenId d)
      as [He|(id & market & s0 & w & c & _ & _ & Hs & _ & _ & Hw & _ & Hmax & He)].
    + rewrite Hc in He. rewrite He. cbn [stateOf callsOf threw].
      split; [eapply check_detector_ok; eauto|].
      split; [eapply check_windows_within; eauto|].
      intros _. split; [reflexivity | exact Hc].
    + rewrite He. cbn [stateOf callsOf threw].
      split; [now apply (tick_delete_detector_ok d id s0)|]. split.
      * intros k w' Hk. cbn in Hk. apply lookup_delete_Some in Hk as [_ Hk].
        specialize (Hfit _ _ Hk). lia.
      * intros Hle. specialize (Hfit _ _ Hw). lia.
  - destruct (Engine_removeMarkets_cases maxArgs cfg ms d Hwf)
      as [(out & Hold & He)|(pre & m & w & out & Hw & Hmax & He)].
    + rewrite He. cbn [stateOf callsOf threw].
      split; [now apply fold_removed_detector_ok|]. split.
      * eapply windows_within_mono; [|apply fold_removed_windows_within, Hfit]. lia.
      * intros _. split; [reflexivity | exact Hold].
    + rewrite He. cbn [stateOf callsOf threw].
      split; [apply delete_window_detector_ok, fold_removed_detector_ok, Hok|]. split.
      * intros k w' Hk. cbn in Hk. apply lookup_delete_Some in Hk as [_ Hk].
        apply (fold_removed_windows_within pre d n Hfit) in Hk. lia.
      * intros Hle. apply (fold_removed_windows_within pre d n Hfit) in Hw. lia.
Qed.

Lemma Engine_detRun_props maxArgs cfg ops :
  forall d n,
    detector_ok d -> 0 <= n -> windows_within n d ->
    exists d' out t,
      Engine.detRun maxArgs cfg ops d = (d', out, t)
      /\ detector_ok d'
      /\ (n + Z.of_nat (length (nowsOf ops)) <= maxArgs ->
          t = false /\ detRun cfg ops d = Some (d', out)).
Proof.
  induction ops as [|op ops IH]; intros d n Hok Hn Hfit;
    cbn [Engine.detRun detRun].
  - exists d, [], false. split; [reflexivity|]. split; [exact Hok|].
    intros _. split; reflexivity.
  - destruct (Engine_detStep_props maxArgs cfg d op n Hok Hn Hfit)
      as (Hok1 & Hfit1 & Hagree).
    destruct (IH (stateOf (Engine.detStep maxArgs cfg d op))
                (n + Z.of_nat (length (nowsOf [op]))) Hok1 ltac:(lia) Hfit1)
      as (d2 & out2 & t2 & Hr & Hok2 & Hagree2).
    rewrite Hr. eexists _, _, _. split; [reflexivity|]. split; [exact Hok2|].
    rewrite nowsOf_cons, length_app, Nat2Z.inj_add. intros Hle.
    destruct Hagree as [Ht Hs]; [lia|]. destruct Hagree2 as [-> Hr2]; [lia|].
    rewrite Ht, Hs, Hr2. split; reflexivity.
Qed.

(** X10: whatever calls of [addMarkets], [check] and [removeMarkets] a new
    detector receives, and whether they return or throw, its maps agree
    after each of them: it keeps stats exactly for the markets it knows,
    a window is open only on a market it knows, and an open window has
    recorded at least one tick.  No call throws as long as the detector
    has received no more [check] calls than the engine takes arguments in
    one call: no window can have grown beyond that. *)
Theorem detector_maps_agree (maxArgs : Z) (cfg : Config) (ops : list DetOp) :
  exists d' out t,
    Engine.detRun maxArgs cfg ops ArbDetector.new = (d', out, t)
    /\ detector_ok d'
    /\ (Z.of_nat (length (nowsOf ops)) <= maxArgs ->
        t = false /\ detRun cfg ops ArbDetector.new = Some (d', out)).
Proof.
  destruct (Engine_detRun_props maxArgs cfg ops ArbDetector.new 0 new_detector_ok)
    as (d' & out & t & Hr & Hok & Hagree).
  - lia.
  - intros k w Hk. cbn in Hk. now rewrite lookup_empty in Hk.
  - exists d', out, t. split; [exact Hr|]. split; [exact Hok|].
    intros Hle. apply Hagree. lia.
Qed.

Lemma detector_maps_agree_witness :
  exists d' out,
    Engine.detRun 130000 defaultConfig opsOpenWindow ArbDetector.new = (d', out, false)
    /\ detector_ok d'
    /\ detRun defaultConfig opsOpenWindow ArbDetector.new = Some (d', out).
Proof.
  destruct (detector_maps_agree 130000 defaultConfig opsOpenWindow)
    as (d' & out & t & Hr & Hok & Hle).
  destruct Hle as [-> Hs]; [cbn; lia|].
  exists d', out. split; [exact Hr|]. split; [exact Hok | exact Hs].
Defined.

(** ** The detector on an engine: the record of a clean run *)

Lemma arb_prefix_run cfg m d first rest :
  Market.marketId m <> "" ->
  ArbDetector.markets d !! Market.marketId m = Some m ->
  is_Some (ArbDetector.stats d !! Market.marketId m) ->
  ArbDetector.windows d !! Market.marketId m = None ->
  (forall t, In t (first :: rest) ->
             ArbDetector.tokenToMarket d !! t_token t = Some (Market.marketId m)) ->
  (forall t, In t (first :: rest) -> tickIsArb cfg m (t_watcher t) = Some true) ->
  exists d2 out2,
    detRun cfg (List.map checkTick (first :: rest)) d = Some (d2, out2)
    /\ surfaced out2 = []
    /\ ArbDetector.markets d2 = ArbDetector.markets d
    /\ ArbDetector.tokenToMarket d2 = ArbDetector.tokenToMarket d
    /\ is_Some (ArbDetector.stats d2 !! Market.marketId m)
    /\ ArbDetector.windows d2 !! Market.marketId m = Some (windowOfRun m first rest).
Proof.
  intros Hid Hm [s0 Hs] Hw Htok Harb.
  assert (Htok0 := Htok first (or_introl eq_refl)).
  assert (Harb0 := Harb first (or_introl eq_refl)).
  rewrite tickIsArb_combined in Harb0.
  destruct (tickCombined m (t_watcher first)) as [c|] eqn:Hc; [|discriminate].
  injection Harb0 as Harb0.
  destruct (check_arb cfg (t_watcher first) (t_now first) (t_stamp first)
              (t_token first) d m s0 c Hid Htok0 Hm Hs Hc Harb0)
    as (out1 & Hck & Hsf1).
  rewrite Hw in Hck.
  cbn [List.map detRun checkTick detStep]. rewrite Hck.
  match goal with
  | |- context [detRun cfg _ ?dd] =>
      edestruct (arb_run cfg m rest Hid dd)
        as (d2 & out2 & Hr2 & Hsf2 & Hm2 & Ht2 & Hs2 & Hw2);
      [ exact Hm | cbn; rewrite lookup_insert_eq; eauto
      | cbn; apply lookup_insert_eq
      | intros t' Ht'; cbn; apply Htok; now right
      | intros t' Ht'; apply Harb; now right | ]
  end.
  cbn [ArbDetector.markets ArbDetector.tokenToMarket] in Hm2, Ht2.
  rewrite Hr2. exists d2, (out1 ++ out2). split; [reflexivity|].
  rewrite surfaced_app, Hsf1, Hsf2. split; [reflexivity|].
  split; [exact Hm2|]. split; [exact Ht2|]. split; [exact Hs2|].
  rewrite Hw2. unfold windowOfRun.
  cbn [WindowState.startTs WindowState.lastArbTickTs WindowState.openCombined
        WindowState.spreads List.map app].
  unfold combinedOf at 2 3. rewrite Hc, last_map_now. reflexivity.
Qed.

Lemma Engine_detRun_app maxArgs cfg ops1 ops2 :
  forall d d1 out1 t1 d2 out2 t2,
    Engine.detRun maxArgs cfg ops1 d = (d1, out1, t1) ->
    Engine.detRun maxArgs cfg ops2 d1 = (d2, out2, t2) ->
    Engine.detRun maxArgs cfg (ops1 ++ ops2) d = (d2, out1 ++ out2, t1 || t2).
Proof.
  induction ops1 as [|op ops1 IH]; intros d d1 out1 t1 d2 out2 t2;
    cbn [Engine.detRun app].
  - intros [= <- <- <-] H. rewrite H. reflexivity.
  - destruct (Engine.detRun maxArgs cfg ops1
                (stateOf (Engine.detStep maxArgs cfg d op))) as [[dx ox] tx] eqn:E.
    intros [= <- <- <-] H. rewrite (IH _ _ _ _ _ _ _ E H), app_assoc, orb_assoc.
    reflexivity.
Qed.

Lemma Engine_detRun_arb maxArgs cfg m rest :
  forall d d' out,
    ArbDetector.markets d !! Market.marketId m = Some m ->
    (forall t, In t rest ->
               ArbDetector.tokenToMarket d !! t_token t = Some (Market.marketId m)) ->
    (forall t, In t rest -> tickIsArb cfg m (t_watcher t) = Some true) ->
    detRun cfg (List.map checkTick rest) d = Some (d', out) ->
    Engine.detRun maxArgs cfg (List.map checkTick rest) d = (d', out, false).
Proof.
  induction rest as [|t rest IH]; intros d d' out Hm Htok Harb;
    cbn [List.map detRun Engine.detRun checkTick detStep Engine.detStep].
  - intros [= <- <-]. reflexivity.
  - destruct (ArbDetector.check cfg (t_watcher t) (t_now t) (t_stamp t) (t_token t) d)
      as [[d1 out1]|] eqn:Hc; [|discriminate].
    destruct (detRun cfg (List.map checkTick rest) d1) as [[d2 out2]|] eqn:Hr;
      [|discriminate].
    intros [= <- <-].
    destruct (check_shape _ _ _ _ _ _ _ _ Hc) as (Hmk & Htk & _).
    destruct (Engine_check_cases maxArgs cfg (t_watcher t) (t_now t) (t_stamp t)
                (t_token t) d)
      as [He|(id & market & s0 & w & c & Ht & Hm' & _ & Hcomb & Hlt & _)].
    + rewrite Hc in He. rewrite He. cbn [stateOf callsOf threw].
      rewrite (IH d1 d2 out2); [reflexivity| | | |exact Hr].
      * now rewrite Hmk.
      * intros t' Ht'. rewrite Htk. apply Htok. now right.
      * intros t' Ht'. apply Harb. now right.
    + exfalso. rewrite (Htok t (or_introl eq_refl)) in Ht. injection Ht as <-.
      rewrite Hm in Hm'. injection Hm' as <-.
      pose proof (Harb t (or_introl eq_refl)) as Ha.
      rewrite tickIsArb_combined, Hcomb, Hlt in Ha. discriminate Ha.
Qed.

(** X13: the record of a window says what its run was: when a market with
    no open window gets the arbitrage ticks [first :: rest] and then a
    non-arbitrage tick, the run counts at least MIN_ARB_TICKS ticks and no
    more than the engine takes arguments in one call, then no call throws
    and [onWindow] is called exactly once, with windowStart the time of
    the first arbitrage tick, windowEnd the time of the last one,
    durationMs their difference, the id, question and time frame of the
    market, tickCount the number of arbitrage ticks, peakSpread the
    [Math.max] and avgSpread the sum from 0 divided by the number of the
    spreads 1 - combined of the arbitrage ticks, openCombined the
    combined ask of the first tick and closeCombined that of the closing
    tick; afterwards no window is open on the market. *)
Theorem clean_run_window
    (maxArgs : Z) (cfg : Config) (m : Market.t) (d : ArbDetector.t)
    (first : Tick) (rest : list Tick) (closing : Tick) :
  Market.marketId m <> "" ->
  ArbDetector.markets d !! Market.marketId m = Some m ->
  is_Some (ArbDetector.stats d !! Market.marketId m) ->
  ArbDetector.windows d !! Market.marketId m = None ->
  (forall t, In t (first :: rest ++ [closing]) ->
             ArbDetector.tokenToMarket d !! t_token t = Some (Market.marketId m)) ->
  (forall t, In t (first :: rest) -> tickIsArb cfg m (t_watcher t) = Some true) ->
  tickIsArb cfg m (t_watcher closing) = Some false ->
  MIN_ARB_TICKS cfg <= Z.of_nat (S (length rest)) ->
  Z.of_nat (S (length rest)) <= maxArgs ->
  exists d' out,
    Engine.detRun maxArgs cfg (List.map checkTick (first :: rest ++ [closing])) d
    = (d', out, false)
    /\ surfaced out
       = [ArbWindow.mk (t_now first) (t_now (List.last rest first))
            (t_now (List.last rest first) - t_now first)
            (Market.marketId m) (Market.question m) (Market.timeframe m)
            (Z.of_nat (S (length rest)))
            (JsNum.max_list
               (List.map (fun t => PrimFloat.sub PrimFloat.one (combinedOf m t))
                  (first :: rest)))
            (PrimFloat.div
               (JsNum.sum_list
                  (List.map (fun t => PrimFloat.sub PrimFloat.one (combinedOf m t))
                     (first :: rest)))
               (JsNum.of_Z (Z.of_nat (S (length rest)))))
            (combinedOf m first) (combinedOf m closing)]
    /\ ArbDetector.windows d' !! Market.marketId m = None.
Proof.
  intros Hid Hm Hs Hw Htok Harb Hclose Hmin Hmax.
  destruct (arb_prefix_run cfg m d first rest Hid Hm Hs Hw)
    as (d2 & out2 & Hr2 & Hsf2 & Hm2 & Ht2 & [s2 Hs2] & Hw2).
  { intros t Ht. apply Htok. destruct Ht as [<-|Ht]; [now left|].
    right. apply in_or_app. now left. }
  { exact Harb. }
  rewrite tickIsArb_combined in Hclose.
  destruct (tickCombined m (t_watcher closing)) as [cN|] eqn:HcN; [|discriminate].
  injection Hclose as Hclose.
  assert (HtokN : ArbDetector.tokenToMarket d2 !! t_token closing
                  = Some (Market.marketId m)).
  { rewrite Ht2. apply Htok. right. apply in_or_app. right. now left. }
  assert (Hm2' : ArbDetector.markets d2 !! Market.marketId m = Some m)
    by now rewrite Hm2.
  destruct (check_nonarb cfg (t_watcher closing) (t_now closing) (t_stamp closing)
              (t_token closing) d2 m s2 cN Hid HtokN Hm2' Hs2 HcN Hclose)
    as (out3 & s3 & Hck3 & Hsf3 & _).
  assert (HeN : Engine.check maxArgs cfg (t_watcher closing) (t_now closing)
                  (t_stamp closing) (t_token closing) d2
                = Returns
                    (ArbDetector.mk (ArbDetector.markets d2)
                       (ArbDetector.tokenToMarket d2)
                       (<[Market.marketId m := s3]> (ArbDetector.stats d2))
                       (delete (Market.marketId m) (ArbDetector.windows d2))) out3).
  { destruct (Engine_check_cases maxArgs cfg (t_watcher closing) (t_now closing)
                (t_stamp closing) (t_token closing) d2)
      as [He|(id & market & s0 & w & c & Ht & _ & _ & _ & _ & Hw' & _ & Hlong & _)].
    - rewrite Hck3 in He. exact He.
    - exfalso. rewrite HtokN in Ht. injection Ht as <-.
      rewrite Hw2 in Hw'. injection Hw' as <-.
      unfold windowOfRun in Hlong. cbn [WindowState.spreads] in Hlong.
      rewrite length_map in Hlong. cbn [length] in Hlong. lia. }
  change (first :: rest ++ [closing]) with ((first :: rest) ++ [closing]).
  rewrite List.map_app.
  erewrite Engine_detRun_app;
    [ | apply Engine_detRun_arb with (m := m);
        [ exact Hm
        | intros t Ht; apply Htok; destruct Ht as [<-|Ht];
          [now left | right; apply in_or_app; now left]
        | exact Harb | exact Hr2 ]
      | cbn [List.map Engine.detRun checkTick Engine.detStep]; rewrite HeN;
        reflexivity ].
  cbn [stateOf callsOf threw orb]. eexists _, _. split; [reflexivity|].
  rewrite !surfaced_app, Hsf2, Hsf3, Hw2. cbn [app surfaced omap list_omap].
  unfold windowOfRun at 1. cbn [WindowState.spreads].
  rewrite length_map. cbn [length].
  replace (Z.of_nat (S (length rest)) <? MIN_ARB_TICKS cfg) with false
    by (symmetry; apply Z.ltb_ge; lia).
  split; [|cbn; apply lookup_delete_eq].
  unfold ArbDetector.arbWindow, windowOfRun.
  cbn [WindowState.startTs WindowState.lastArbTickTs WindowState.openCombined
        WindowState.spreads].
  rewrite length_map. cbn [length].
  replace (combinedOf m closing) with cN by (unfold combinedOf; now rewrite HcN).
  rewrite app_nil_r. reflexivity.
Qed.

Lemma clean_run_window_witness :
  exists d' out,
    Engine.detRun 130000 defaultConfig (List.map checkTick ticksS2) sampleDetector
    = (d', out, false)
    /\ surfaced out
       = [ArbWindow.mk 1000 1300 300 "0xabc" (Market.question sampleMarket) "5-min" 3
            (1 - (0.45 + 0.49))%float
            ((0 + (1 - (0.45 + 0.5)) + (1 - (0.45 + 0.49)) + (1 - (0.45 + 0.49))) / 3)%float
            (0.45 + 0.5)%float (0.47 + 0.54)%float].
Proof.
  destruct (clean_run_window 130000 defaultConfig sampleMarket sampleDetector
              (mkTick (sampleQuotes (Some 0.45%float) (Some 0.50%float)) 1000 1000 "tok-down")
              [mkTick (sampleQuotes (Some 0.45%float) (Some 0.49%float)) 1100 1100 "tok-down";
               mkTick (sampleQuotes (Some 0.45%float) (Some 0.49%float)) 1300 1300 "tok-up"]
              (mkTick (sampleQuotes (Some 0.47%float) (Some 0.54%float)) 1450 1450 "tok-up"))
    as (d' & out & Hr & Hs & _).
  - discriminate.
  - reflexivity.
  - eexists. reflexivity.
  - reflexivity.
  - intros t [<-|[<-|[<-|[<-|[]]]]]; reflexivity.
  - intros t [<-|[<-|[<-|[]]]]; reflexivity.
  - reflexivity.
  - cbn. lia.
  - cbn. lia.
  - exists d', out. split; [exact Hr|]. rewrite Hs. vm_compute. reflexivity.
Defined.

(** ** The refresh of the watched markets *)

Lemma set_add_elem x y s : y ∈ set_add x s <-> y ∈ s \/ y = x.
Proof.
  unfold set_add. destruct (bool_decide_reflect (x ∈ s)) as [Hin|Hnin].
  - split; [now left|]. intros [H| ->]; assumption.
  - rewrite elem_of_app, list_elem_of_singleton. reflexivity.
Qed.

Lemma set_delete_elem x y s : y ∈ set_delete x s <-> y ∈ s /\ y <> x.
Proof.
  unfold set_delete. rewrite !list_elem_of_In, List.filter_In.
  rewrite negb_true_iff, String.eqb_neq. reflexivity.
Qed.

Lemma fold_set_add_elem ms s y :
  y ∈ fold_left (fun s m => set_add (Market.marketId m) s) ms s
  <-> y ∈ s \/ y ∈ List.map Market.marketId ms.
Proof.
  revert s. induction ms as [|m ms IH]; intros s; cbn [fold_left List.map].
  - split; [now left|]. intros [H|H]; [exact H | now apply elem_of_nil in H].
  - rewrite IH, set_add_elem, elem_of_cons. tauto.
Qed.

Lemma fold_set_delete_elem ms s y :
  y ∈ fold_left (fun s m => set_delete (Market.marketId m) s) ms s
  <-> y ∈ s /\ y ∉ List.map Market.marketId ms.
Proof.
  revert s. induction ms as [|m ms IH]; intros s; cbn [fold_left List.map].
  - split; [intros H; split; [exact H | apply not_elem_of_nil] | now intros [H _]].
  - rewrite IH, set_delete_elem, not_elem_of_cons. tauto.
Qed.

Lemma idSet_elem ms y : y ∈ idSet ms <-> y ∈ List.map Market.marketId ms.
Proof.
  unfold idSet. rewrite fold_set_add_elem. split; [|now right].
  intros [H|H]; [now apply elem_of_nil in H | exact H].
Qed.

Lemma addMarkets_dom ms d marketId :
  is_Some (ArbDetector.markets (ArbDetector.addMarkets ms d) !! marketId)
  <-> is_Some (ArbDetector.markets d !! marketId)
      \/ marketId ∈ List.map Market.marketId ms.
Proof.
  revert d. induction ms as [|m ms IH]; intros d.
  - cbn. split; [now left|]. intros [H|H]; [exact H | now apply elem_of_nil in H].
  - change (ArbDetector.addMarkets (m :: ms) d)
      with (ArbDetector.addMarkets ms (ArbDetector.addMarket d m)).
    rewrite IH. cbn [List.map]. rewrite elem_of_cons.
    assert (Hm : is_Some (ArbDetector.markets (ArbDetector.addMarket d m) !! marketId)
                 <-> is_Some (ArbDetector.markets d !! marketId)
                     \/ marketId = Market.marketId m).
    { unfold ArbDetector.addMarket.
      destruct (ArbDetector.markets d !! Market.marketId m) eqn:Hk.
      - split; [now left|]. intros [H| ->]; [exact H | rewrite Hk; eauto].
      - cbn. rewrite lookup_insert_is_Some'. split.
        + intros [<-|H]; [now right | now left].
        + intros [H| ->]; [now right | now left]. }
    rewrite Hm. tauto.
Qed.

Lemma fold_removed_dom ms d marketId :
  is_Some (ArbDetector.markets (fold_left removed ms d) !! marketId)
  <-> is_Some (ArbDetector.markets d !! marketId)
      /\ marketId ∉ List.map Market.marketId ms.
Proof.
  revert d. induction ms as [|m ms IH]; intros d; cbn [fold_left List.map].
  - split; [intros H; split; [exact H | apply not_elem_of_nil] | now intros [H _]].
  - rewrite IH, not_elem_of_cons. unfold removed. cbn.
    rewrite lookup_delete_is_Some. split.
    + intros [[H1 H2] H3]. split; [exact H2|]. split; [congruence | exact H3].
    + intros [H1 [H2 H3]]. split; [split; [congruence | exact H1] | exact H3].
Qed.

Lemma filter_ids_elem (P : string -> bool) (ms : list Market.t) y :
  y ∈ List.map Market.marketId (List.filter (fun m => P (Market.marketId m)) ms)
  <-> y ∈ List.map Market.marketId ms /\ P y = true.
Proof.
  rewrite !list_elem_of_In, !List.in_map_iff. split.
  - intros (m & <- & Hm). apply List.filter_In in Hm as [Hm HP]. eauto.
  - intros [(m & <- & Hm) HP]. exists m. split; [reflexivity|].
    apply List.filter_In. now split.
Qed.

(** X27: a refresh makes the detector watch the desired markets and no
    others: in a state where the detector watches exactly [watchedIds] and
    these are the ids of [watchedMarkets], and where no open window holds
    more spreads than the engine takes as arguments of one call, the
    refresh completes (nothing is thrown), and afterwards the market ids
    known to the detector are exactly those of [desired], which is the new
    [watchedMarkets]; the agreement of detector, [watchedIds] and
    [watchedMarkets] holds again. *)
Theorem refresh_watches_desired
    (maxArgs : Z) (cfg : Config) (desired : list Market.t) (st : Scanner.t) :
  scanner_ok st ->
  windows_within maxArgs (Scanner.detector st) ->
  exists st' sent,
    refreshWatched maxArgs cfg desired st = (st', sent, false)
    /\ scanner_ok st'
    /\ Scanner.watchedMarkets st' = desired
    /\ (forall marketId : string,
          is_Some (ArbDetector.markets (Scanner.detector st') !! marketId)
          <-> marketId ∈ List.map Market.marketId desired).
Proof.
  intros (Hok & Hids & Hdom) Hfit. unfold refreshWatched.
  set (toAdd := List.filter _ desired).
  set (toRemove := List.filter _ (Scanner.watchedMarkets st)).
  (* the guards on the lengths change nothing *)
  set (d1 := ArbDetector.addMarkets toAdd (Scanner.detector st)).
  set (ids1 := fold_left (fun s m => set_add (Market.marketId m) s) toAdd
                 (Scanner.watchedIds st)).
  assert (Hadd : exists w1 sent,
             (if 0 <? Z.of_nat (length toAdd)
              then (d1, OrderbookWatcher.addMarkets toAdd (Scanner.watcher st), ids1)
              else (Scanner.detector st, (Scanner.watcher st, []),
                    Scanner.watchedIds st))
             = (d1, (w1, sent), ids1)).
  { subst d1 ids1. destruct toAdd as [|m toAdd'] eqn:Hta.
    - eexists _, _. reflexivity.
    - change (0 <? Z.of_nat (length (m :: toAdd'))) with true. cbv iota.
      destruct (OrderbookWatcher.addMarkets (m :: toAdd') (Scanner.watcher st))
        as [w1 sent]. eexists _, _. reflexivity. }
  destruct Hadd as (w1 & sent & ->).
  assert (Hok1 : detector_ok d1) by now apply addMarkets_detector_ok.
  assert (Hin_add : forall y, y ∈ List.map Market.marketId toAdd
                              <-> y ∈ List.map Market.marketId desired
                                  /\ y ∉ Scanner.watchedIds st).
  { intros y. unfold toAdd. etransitivity.
    - exact (filter_ids_elem
               (fun y => negb (bool_decide (y ∈ Scanner.watchedIds st))) desired y).
    - cbv beta. rewrite negb_true_iff, bool_decide_eq_false. reflexivity. }
  assert (Hin_rem : forall y, y ∈ List.map Market.marketId toRemove
                              <-> y ∈ Scanner.watchedIds st
                                  /\ y ∉ List.map Market.marketId desired).
  { intros y. unfold toRemove. etransitivity.
    - exact (filter_ids_elem
               (fun y => negb (bool_decide (y ∈ idSet desired)))
               (Scanner.watchedMarkets st) y).
    - cbv beta. rewrite negb_true_iff, bool_decide_eq_false, idSet_elem, Hids.
      reflexivity. }
  assert (Hids1 : forall y, y ∈ ids1
                            <-> y ∈ Scanner.watchedIds st
                                \/ y ∈ List.map Market.marketId desired).
  { intros y. unfold ids1. rewrite fold_set_add_elem, Hin_add.
    destruct (decide (y ∈ Scanner.watchedIds st)); tauto. }
  assert (Hdom1 : forall y, is_Some (ArbDetector.markets d1 !! y) <-> y ∈ ids1).
  { intros y. unfold d1. rewrite addMarkets_dom, Hdom, Hids1, Hin_add.
    destruct (decide (y ∈ Scanner.watchedIds st)); tauto. }
  assert (Hfit1 : windows_within maxArgs d1).
  { intros k w Hk.
    pose proof (addMarkets_windows toAdd (Scanner.detector st)) as E.
    fold d1 in E. rewrite E in Hk. exact (Hfit k w Hk). }
  destruct (Engine_removeMarkets_fits maxArgs cfg toRemove d1) as (out & _ & Hrm);
    [apply detector_ok_have_stats, Hok1 | exact Hfit1 |].
  assert (Hfinal : forall y,
             (y ∈ ids1 /\ y ∉ List.map Market.marketId toRemove)
             <-> y ∈ List.map Market.marketId desired).
  { intros y. rewrite Hids1, Hin_rem.
    destruct (decide (y ∈ Scanner.watchedIds st)),
             (decide (y ∈ List.map Market.marketId desired)); tauto. }
  destruct toRemove as [|m toRemove'] eqn:Htr.
  - cbn [length Z.of_nat Z.ltb Z.compare]. eexists _, _. split; [reflexivity|].
    assert (Hd : forall y, y ∈ ids1 <-> y ∈ List.map Market.marketId desired).
    { intros y. rewrite <- Hfinal. cbn. split; [|tauto].
      intros H. split; [exact H | apply not_elem_of_nil]. }
    cbn. split; [|split; [reflexivity|]].
    + split; [exact Hok1|]. split; [exact Hd|exact Hdom1].
    + intros y. now rewrite Hdom1, Hd.
  - change (0 <? Z.of_nat (length (m :: toRemove'))) with true. cbv iota.
    rewrite Hrm. eexists _, _. split; [reflexivity|].
    assert (Hd : forall y,
               y ∈ fold_left (fun s m => set_delete (Market.marketId m) s)
                     (m :: toRemove') ids1
               <-> y ∈ List.map Market.marketId desired).
    { intros y. now rewrite fold_set_delete_elem, Hfinal. }
    assert (Hdm : forall y,
               is_Some (ArbDetector.markets (fold_left removed (m :: toRemove') d1) !! y)
               <-> y ∈ List.map Market.marketId desired).
    { intros y. now rewrite fold_removed_dom, Hdom1, Hfinal. }
    cbn [Scanner.detector Scanner.watchedMarkets Scanner.watchedIds].
    split; [|split; [reflexivity | exact Hdm]].
    split; [now apply fold_removed_detector_ok|]. split; [exact Hd|].
    intros y. now rewrite Hdm, Hd.
Qed.

Lemma startWatching_ok lg watched : scanner_ok (startWatching lg watched).
Proof.
  unfold scanner_ok, startWatching. cbn. split; [|split].
  - apply addMarkets_detector_ok, new_detector_ok.
  - apply idSet_elem.
  - intros y. rewrite addMarkets_dom, idSet_elem. cbn. rewrite lookup_empty.
    split; [|now right]. intros [H|H]; [now apply is_Some_None in H | exact H].
Qed.

Lemma refresh_watches_desired_witness :
  exists st' sent,
    refreshWatched 130000 defaultConfig []
      (startWatching (Logger.mk 0 [] [] 0) [sampleMarket]) = (st', sent, false)
    /\ scanner_ok st'
    /\ Scanner.watchedMarkets st' = []
    /\ (forall marketId : string,
          is_Some (ArbDetector.markets (Scanner.detector st') !! marketId)
          <-> marketId ∈ List.map Market.marketId []).
Proof.
  apply (refresh_watches_desired 130000 defaultConfig []
           (startWatching (Logger.mk 0 [] [] 0) [sampleMarket])).
  - apply startWatching_ok.
  - intros k w Hk. unfold startWatching in Hk. cbn [Scanner.detector] in Hk.
    rewrite addMarkets_windows in Hk.
    change (ArbDetector.windows ArbDetector.new)
      with (∅ : gmap string WindowState.t) in Hk.
    now rewrite lookup_empty in Hk.
Defined.
